(** * PredictionEngine: a shallow embedding of [src/PredictionEngine.js]

    The engine is a JavaScript class fed with the JSON body of a request.
    Its behaviour depends on the language's dynamic typing (truthiness,
    [||] defaults, numeric coercion, [TypeError] on a missing method), so
    the embedding has two layers:

    - [JS]: the fragment of ECMAScript the engine relies on. Numbers are
      IEEE 754 binary64 values (Rocq's primitive [float]), strings are byte
      strings, values are the shapes [JSON.parse] can produce plus
      [undefined].
    - [Engine]: the class itself, method by method, in a state and
      exception monad over the instance fields.

    Two more modules follow the engine: [BMIAverageCalculator], the
    reference tables of the same file, and [Server], the one route of
    [src/aiserver.js] that runs the engine, [POST /ongoing-progression].
    The other routes hand a prompt to an external service and are not
    embedded.

    What the platform decides ([Math.sin], [Math.random], the clock) is a
    [Host] record passed to the methods that use it.

    What the embedding leaves out:
    - text is made of bytes: [trim] and [toLowerCase] know the ASCII white
      space and letters only;
    - an object is the list of its own data properties, read at the first
      match. Converting an object to a primitive goes through its
      [toString]: one that has a property of that name of its own, which
      in a JSON body is no function, cannot be converted, and the platform
      throws a [TypeError] where the model goes on with the text of an
      ordinary object. [JS.coercible] tells the values that can be
      converted, on which the conversions of [JS] are the platform's;
    - [calculateTrend] is embedded for the names of the eight fields of a
      visit, of which the engine passes two; for a name every object
      inherits the platform answers with a function, the model with
      [undefined];
    - [Array.prototype.sort] is the stable sort the language requires,
      which fixes the result when the comparator is consistent, as it is
      on validated visits;
    - the loop of [generateProgressionData] runs on fuel, one unit a round;
    - the text of an error message is the platform's: a [TypeError]
      carries a description, and no statement depends on its wording but
      for the evaluations at a failing input;
    - what [console.log] prints is left out;
    - of [BMIAverageCalculator], [calculateDeviation] and [getMetricKey]
      are not embedded: what they read off a member every object inherits
      is the platform's. *)

From Stdlib Require Import ZArith List String Ascii Bool Lia DecimalString.
From Stdlib Require Import Sorted Permutation.
From Stdlib Require Import Floats.
Import ListNotations.

Set Warnings "-inexact-float,-register-all".

#[local] Open Scope string_scope.
#[local] Open Scope Z_scope.

(* ===================================================================== *)
(** * The ECMAScript fragment *)
(* ===================================================================== *)

Module JS.

(** ** Numbers *)

(** The Number value nearest to an integer (ties to even). *)
Definition of_Z (n : Z) : float :=
  SF2Prim (binary_normalize prec emax n 0 false).

Definition of_nat (n : nat) : float := of_Z (Z.of_nat n).

(** Truthiness of a Number: everything but [+0], [-0] and [NaN]. *)
Definition truthy_number (x : float) : bool :=
  negb (is_nan x || is_zero x).

(** [Math.max] and [Math.min] on two Numbers: [NaN] is contagious and
    [+0] is larger than [-0]. *)
Definition Math_max (x y : float) : float :=
  if is_nan x || is_nan y then nan
  else if (x <? y)%float then y
  else if (y <? x)%float then x
  else if get_sign x then y else x.

Definition Math_min (x y : float) : float :=
  if is_nan x || is_nan y then nan
  else if (x <? y)%float then x
  else if (y <? x)%float then y
  else if get_sign x then x else y.

Definition Math_abs (x : float) : float := abs x.

(** [Math.round]: the integer nearest to [x], ties towards [+Infinity];
    the sign of a zero result is the sign of [x]. A finite [x] is
    [(-1)^s * m * 2^e]; with [e < 0] the result is
    [floor ((+-2m + 2^-e) / 2^(1-e))]. *)
Definition Math_round (x : float) : float :=
  match Prim2SF x with
  | S754_finite s m e =>
      if 0 <=? e then x
      else
        let d := Z.pow 2 (- e) in
        let n := (2 * (if s then Z.neg m else Z.pos m) + d) / (2 * d) in
        if n =? 0 then (if s then neg_zero else zero) else of_Z n
  | _ => x
  end.

(** ** Decimal text to Number and back *)

(** [m * 10^e10] rounded to the nearest Number, ties to even. The division
    and the rounding are those of the IEEE specification of the Standard
    Library, applied to the exact integers. Magnitudes far outside the
    binary64 range are cut short so that no huge power is computed
    ([decimal_magnitude] is the number of decimal digits, or one less). *)
Definition decimal_magnitude (m : Z) : Z := Z.log2 m * 1233 / 4096 + 1.

Definition of_decimal (neg : bool) (m e10 : Z) : float :=
  if m <=? 0 then (if neg then neg_zero else zero)
  else if 330 <? decimal_magnitude m + e10 then (if neg then neg_infinity else infinity)
  else if decimal_magnitude m + e10 <? -340 then (if neg then neg_zero else zero)
  else if 0 <=? e10 then
    SF2Prim (binary_normalize prec emax (if neg then - (m * 10 ^ e10) else m * 10 ^ e10) 0 false)
  else
    let '(mz, ez, lz) := SFdiv_core_binary prec emax m 0 (10 ^ (- e10)) 0 in
    SF2Prim (binary_round_aux prec emax neg mz ez lz).

(** *** Strings *)

Definition is_white (c : ascii) : bool :=
  match nat_of_ascii c with
  | 9%nat | 10%nat | 11%nat | 12%nat | 13%nat | 32%nat => true
  | _ => false
  end.

Fixpoint trim_start (s : string) : string :=
  match s with
  | String c r => if is_white c then trim_start r else s
  | EmptyString => s
  end.

Fixpoint rev_append (s acc : string) : string :=
  match s with
  | String c r => rev_append r (String c acc)
  | EmptyString => acc
  end.

Definition rev_string (s : string) : string := rev_append s "".

Definition trim (s : string) : string :=
  rev_string (trim_start (rev_string (trim_start s))).

(** The value of a digit in the given radix. *)
Definition digit_value (radix : Z) (c : ascii) : option Z :=
  let n := Z.of_nat (nat_of_ascii c) in
  let d := if (48 <=? n) && (n <=? 57) then n - 48
           else if (97 <=? n) && (n <=? 102) then n - 87
           else if (65 <=? n) && (n <=? 70) then n - 55
           else radix in
  if d <? radix then Some d else None.

(** Reads the longest run of digits: its value on top of [acc], how many
    digits were read, and the rest of the text. *)
Fixpoint read_digits (radix : Z) (s : string) (acc count : Z) : Z * Z * string :=
  match s with
  | String c r =>
      match digit_value radix c with
      | Some d => read_digits radix r (acc * radix + d) (count + 1)
      | None => (acc, count, s)
      end
  | EmptyString => (acc, count, s)
  end.

Definition read_sign (s : string) : bool * string :=
  match s with
  | String "-" r => (true, r)
  | String "+" r => (false, r)
  | _ => (false, s)
  end.

(** [0x], [0o] and [0b] literals: unsigned, at least one digit, nothing
    after the digits. *)
Definition nondecimal_literal (s : string) : option float :=
  match s with
  | String "0" (String c r) =>
      let radix :=
        if (c =? "x")%char || (c =? "X")%char then 16
        else if (c =? "o")%char || (c =? "O")%char then 8
        else if (c =? "b")%char || (c =? "B")%char then 2
        else 0 in
      if radix =? 0 then None
      else
        match read_digits radix r 0 0 with
        | (v, n, EmptyString) => if n =? 0 then None else Some (of_Z v)
        | _ => None
        end
  | _ => None
  end.

(** [StringToNumber]: the Number a string converts to, [NaN] when the
    trimmed text is not a numeric literal. *)
Definition StringToNumber (s : string) : float :=
  let t := trim s in
  if (t =? "")%string then zero
  else
    match nondecimal_literal t with
    | Some x => x
    | None =>
        let '(neg, u) := read_sign t in
        if (u =? "Infinity")%string then (if neg then neg_infinity else infinity)
        else
          let '(ip, ni, r1) := read_digits 10 u 0 0 in
          let '(mant, nf, r2) :=
            match r1 with
            | String "." r => read_digits 10 r ip 0
            | _ => (ip, 0, r1)
            end in
          if ni + nf =? 0 then nan
          else
            match r2 with
            | EmptyString => of_decimal neg mant (- nf)
            | String c r3 =>
                if (c =? "e")%char || (c =? "E")%char then
                  let '(eneg, r4) := read_sign r3 in
                  match read_digits 10 r4 0 0 with
                  | (ev, ne, EmptyString) =>
                      if ne =? 0 then nan
                      else of_decimal neg mant ((if eneg then - ev else ev) - nf)
                  | _ => nan
                  end
                else nan
            end
    end.

(** *** Number to text *)

Definition string_of_Z (n : Z) : string :=
  NilZero.string_of_uint (N.to_uint (Z.to_N n)).

Fixpoint zeros (n : nat) : string :=
  match n with
  | O => ""
  | S k => String "0" (zeros k)
  end.

(** [p / q] against [10^j]. *)
Definition ge_pow10 (p q j : Z) : bool :=
  if 0 <=? j then q * 10 ^ j <=? p else q <=? p * 10 ^ (- j).

(** The decimal exponent [n] of [p / q]: [10^(n-1) <= p/q < 10^n],
    searched upwards from an estimate that is never too large. *)
Fixpoint decimal_exponent_from (fuel : nat) (p q n : Z) : Z :=
  match fuel with
  | O => n
  | S k => if ge_pow10 p q n then decimal_exponent_from k p q (n + 1) else n
  end.

Definition decimal_exponent (p q : Z) : Z :=
  decimal_exponent_from 8 p q ((Z.log2 p - Z.log2 q) * 1233 / 4096 - 2).

(** The shortest decimal [s * 10^(n-k)] with [k] digits that converts
    back to [x = p / q], tried for [k = k0, k0+1, ...]; between two
    [k]-digit candidates the one nearer to [x], the even one on a tie. *)
Fixpoint shortest_from (fuel : nat) (x : float) (p q n k : Z) : Z * Z * Z :=
  let num := if 0 <=? n - k then p else p * 10 ^ (k - n) in
  let den := if 0 <=? n - k then q * 10 ^ (n - k) else q in
  let lo := num / den in
  let r := num mod den in
  let ok_lo := Leibniz.eqb (of_decimal false lo (n - k)) x in
  let ok_hi := Leibniz.eqb (of_decimal false (lo + 1) (n - k)) x in
  let hi := if lo + 1 =? 10 ^ k then (10 ^ (k - 1), k, n + 1) else (lo + 1, k, n) in
  let nearer := if 2 * r <? den then (lo, k, n)
                else if den <? 2 * r then hi
                else if Z.even lo then (lo, k, n) else hi in
  match fuel with
  | O => nearer
  | S f =>
      if ok_lo && ok_hi then nearer
      else if ok_lo then (lo, k, n)
      else if ok_hi then hi
      else shortest_from f x p q n (k + 1)
  end.

Definition take (n : Z) (s : string) : string := substring 0 (Z.to_nat n) s.
Definition drop (n : Z) (s : string) : string :=
  substring (Z.to_nat n) (String.length s - Z.to_nat n) s.

(** [Number::toString] in radix 10. *)
Definition Number_toString (x : float) : string :=
  match Prim2SF x with
  | S754_nan => "NaN"
  | S754_zero _ => "0"
  | S754_infinity s => if s then "-Infinity" else "Infinity"
  | S754_finite sg m e =>
      let p := if 0 <=? e then Z.pos m * 2 ^ e else Z.pos m in
      let q := if 0 <=? e then 1 else 2 ^ (- e) in
      let '(s, k, n) := shortest_from 16 (abs x) p q (decimal_exponent p q) 1 in
      let ds := string_of_Z s in
      let body :=
        if (k <=? n) && (n <=? 21) then ds ++ zeros (Z.to_nat (n - k))
        else if (0 <? n) && (n <=? 21) then take n ds ++ "." ++ drop n ds
        else if (-6 <? n) && (n <=? 0) then "0." ++ zeros (Z.to_nat (- n)) ++ ds
        else
          let ex := (if 0 <=? n - 1 then "+" else "-") ++ string_of_Z (Z.abs (n - 1)) in
          if k =? 1 then ds ++ "e" ++ ex
          else take 1 ds ++ "." ++ drop 1 ds ++ "e" ++ ex in
      if sg then "-" ++ body else body
  end.

(** [Number.prototype.toFixed] with [f] fraction digits ([0 <= f <= 100]):
    the integer [n] nearest to [|x| * 10^f], the larger one on a tie,
    printed with a point before its last [f] digits. *)
Definition toFixed (x : float) (f : Z) : string :=
  match Prim2SF x with
  | S754_finite sg m e =>
      if (1e21 <=? abs x)%float then Number_toString x
      else
        let p := if 0 <=? e then Z.pos m * 2 ^ e else Z.pos m in
        let q := if 0 <=? e then 1 else 2 ^ (- e) in
        let n := (2 * p * 10 ^ f + q) / (2 * q) in
        let ds := string_of_Z n in
        let ds := zeros (Z.to_nat (f + 1) - String.length ds) ++ ds in
        let k := Z.of_nat (String.length ds) in
        let body := if f =? 0 then ds else take (k - f) ds ++ "." ++ drop (k - f) ds in
        if sg then "-" ++ body else body
  | S754_zero _ => if f =? 0 then "0" else "0." ++ zeros (Z.to_nat f)
  | _ => Number_toString x
  end.

(** ** Values *)

(** What [JSON.parse] can produce, and [undefined] for an absent property.
    An object is the list of its own properties; it has the conversion
    methods of [Object.prototype], an array those of [Array.prototype]. *)
Inductive val : Type :=
  | VUndefined
  | VNull
  | VBool (b : bool)
  | VNum (x : float)
  | VStr (s : string)
  | VArr (elems : list val)
  | VObj (props : list (string * val)).

Definition is_array (v : val) : bool :=
  match v with VArr _ => true | _ => false end.

Definition is_nullish (v : val) : bool :=
  match v with VUndefined | VNull => true | _ => false end.

(** [ToBoolean]. *)
Definition truthy (v : val) : bool :=
  match v with
  | VUndefined | VNull => false
  | VBool b => b
  | VNum x => truthy_number x
  | VStr s => negb (s =? "")%string
  | VArr _ | VObj _ => true
  end.

(** [a || b] and [a && b]: the operand that decides. *)
Definition or_else (a b : val) : val := if truthy a then a else b.
Definition and_then (a b : val) : val := if truthy a then b else a.

Fixpoint join (sep : string) (l : list string) : string :=
  match l with
  | [] => ""
  | [x] => x
  | x :: r => x ++ sep ++ join sep r
  end.

(** [ToString]; an array joins its elements with commas, [null] and
    [undefined] elements printing as nothing. *)
Fixpoint ToString (v : val) : string :=
  match v with
  | VUndefined => "undefined"
  | VNull => "null"
  | VBool b => if b then "true" else "false"
  | VNum x => Number_toString x
  | VStr s => s
  | VArr l =>
      join "," (map (fun e => if is_nullish e then "" else ToString e) l)
  | VObj _ => "[object Object]"
  end.

(** [ToPrimitive]: arrays and objects convert through their [toString]. *)
Definition ToPrimitive (v : val) : val :=
  match v with
  | VArr _ | VObj _ => VStr (ToString v)
  | _ => v
  end.

(** [ToNumber]. *)
Definition ToNumber (v : val) : float :=
  match ToPrimitive v with
  | VUndefined => nan
  | VNull => zero
  | VBool b => if b then one else zero
  | VNum x => x
  | VStr s => StringToNumber s
  | _ => nan
  end.

(** *** Operators *)

(** [a + b]: concatenation as soon as one primitive is a string. *)
Definition js_add (a b : val) : val :=
  match ToPrimitive a, ToPrimitive b with
  | VStr s, pb => VStr (s ++ ToString pb)
  | pa, VStr t => VStr (ToString pa ++ t)
  | pa, pb => VNum (ToNumber pa + ToNumber pb)
  end.

Definition js_sub (a b : val) : float := (ToNumber a - ToNumber b)%float.
Definition js_mul (a b : val) : float := (ToNumber a * ToNumber b)%float.

(** [a < b]: two strings compare as texts, anything else as Numbers, and
    a comparison with [NaN] is false. *)
Definition js_lt (a b : val) : bool :=
  match ToPrimitive a, ToPrimitive b with
  | VStr s, VStr t => String.ltb s t
  | pa, pb => (ToNumber pa <? ToNumber pb)%float
  end.

Definition js_gt (a b : val) : bool := js_lt b a.

Definition js_le (a b : val) : bool :=
  match ToPrimitive a, ToPrimitive b with
  | VStr s, VStr t => negb (String.ltb t s)
  | pa, pb => (ToNumber pa <=? ToNumber pb)%float
  end.

Definition js_ge (a b : val) : bool := js_le b a.

(** [v === x] for a Number [x], [v === s] for a string [s]. *)
Definition strict_eq_number (v : val) (x : float) : bool :=
  match v with VNum y => (y =? x)%float | _ => false end.

Definition strict_eq_string (v : val) (s : string) : bool :=
  match v with VStr t => (t =? s)%string | _ => false end.

(** *** Properties and methods *)

Variant error : Type :=
  | TypeError (what : string).

Inductive outcome (A : Type) : Type :=
  | Return (a : A)
  | Throw (e : error)
  | OutOfFuel.
Arguments Return {A} a.
Arguments Throw {A} e.
Arguments OutOfFuel {A}.

Fixpoint lookup (k : string) (props : list (string * val)) : val :=
  match props with
  | [] => VUndefined
  | (k', v) :: r => if (k =? k')%string then v else lookup k r
  end.

(** Whether a value can be converted to a primitive, as [<], [>], [-],
    [+], a template literal and a computed property key have to. For an
    object the conversion tries [valueOf], which for these shapes is either
    the inherited one, answering the object itself, or a property of the
    object that is no function, and then [toString]: the inherited one
    answers "[object Object]", a property of the object's own is no
    function and leaves nothing to try, so a [TypeError] is thrown. An
    array is converted by joining its elements, each converted in turn,
    [null] and [undefined] as the empty text. *)
Fixpoint coercible (v : val) : bool :=
  match v with
  | VArr elems => forallb coercible elems
  | VObj props => negb (existsb (fun p => (fst p =? "toString")%string) props)
  | _ => true
  end.

(** [v.k] for a data property name [k] that no prototype defines: reading
    it off [null] or [undefined] throws, every other value that is not an
    object answers [undefined]. *)
Definition get (v : val) (k : string) : outcome val :=
  match v with
  | VUndefined | VNull => Throw (TypeError "cannot read properties of null or undefined")
  | VObj props => Return (lookup k props)
  | _ => Return VUndefined
  end.

(** [s.split(c)] for a one-character separator. *)
Fixpoint split_on (c : ascii) (s : string) : list string :=
  match s with
  | EmptyString => [""]
  | String d r =>
      if (d =? c)%char then "" :: split_on c r
      else
        match split_on c r with
        | [] => [String d ""]
        | x :: xs => String d x :: xs
        end
  end.

Definition lower (c : ascii) : ascii :=
  let n := nat_of_ascii c in
  if (Nat.leb 65 n && Nat.leb n 90)%bool then ascii_of_nat (n + 32) else c.

Fixpoint toLowerCase (s : string) : string :=
  match s with
  | EmptyString => EmptyString
  | String c r => String (lower c) (toLowerCase r)
  end.

Fixpoint includes (s sub : string) : bool :=
  prefix sub s ||
  match s with
  | EmptyString => false
  | String _ r => includes r sub
  end.

(** *** [Array.prototype.sort] with a comparator *)

(** The sort is stable. [cmp a b > 0] puts [b] first; any other answer,
    [NaN] included, keeps [a] first. *)
Section Sort.
Context {A : Type} (cmp : A -> A -> float).

Fixpoint insert_sorted (x : A) (l : list A) : list A :=
  match l with
  | [] => [x]
  | y :: r => if (0 <? cmp x y)%float then y :: insert_sorted x r else x :: l
  end.

Definition sort (l : list A) : list A := fold_right insert_sorted [] l.
End Sort.

End JS.

(* ===================================================================== *)
(** * The engine: [class PredictionEngine] *)
(* ===================================================================== *)

Module Engine.
Import JS.
#[local] Open Scope float_scope.

(** ** Data *)

(** What the platform supplies: [Math.sin], the successive answers of
    [Math.random], and the text of [new Date().toISOString()]. *)
Record Host : Type := {
  Math_sin : float -> float;
  Math_random : nat -> float;
  Date_toISOString : string
}.

(** A validated visit: the object literal built by [validateVisits]. *)
Record Visit : Type := {
  GESTATIONAL_AGE_WEEKS : val;
  MATERNAL_WEIGHT : val;
  FUNDAL_HEIGHT : val;
  HEMOGLOBIN_LEVEL : val;
  BLOOD_PRESSURE : val;
  FETAL_HEART_RATE : val;
  COMPLICATIONS : val;
  VISIT_DATE : val
}.

(** [visit[field]] for a property name computed at run time. *)
Definition visit_field (v : Visit) (field : string) : val :=
  if (field =? "GESTATIONAL_AGE_WEEKS")%string then GESTATIONAL_AGE_WEEKS v
  else if (field =? "MATERNAL_WEIGHT")%string then MATERNAL_WEIGHT v
  else if (field =? "FUNDAL_HEIGHT")%string then FUNDAL_HEIGHT v
  else if (field =? "HEMOGLOBIN_LEVEL")%string then HEMOGLOBIN_LEVEL v
  else if (field =? "BLOOD_PRESSURE")%string then BLOOD_PRESSURE v
  else if (field =? "FETAL_HEART_RATE")%string then FETAL_HEART_RATE v
  else if (field =? "COMPLICATIONS")%string then COMPLICATIONS v
  else if (field =? "VISIT_DATE")%string then VISIT_DATE v
  else VUndefined.

(** The instance fields. *)
Record PredictionEngine : Type := {
  visits : val;
  patient : val;
  validatedVisits : list Visit
}.

Record RiskScores : Type := {
  anemia : float;
  hypertension : float;
  growthRestriction : float;
  pretermRisk : float;
  maternalAgeRisk : float;
  bmiRisk : float
}.

(** [Object.entries(riskScores)], in insertion order. *)
Definition entries (r : RiskScores) : list (string * float) :=
  [ ("anemia", anemia r); ("hypertension", hypertension r);
    ("growthRestriction", growthRestriction r); ("pretermRisk", pretermRisk r);
    ("maternalAgeRisk", maternalAgeRisk r); ("bmiRisk", bmiRisk r) ].

Record DeliveryType : Type := {
  FullTerm : float;
  Premature : float;
  MortalityRisk : float
}.

Record DeliveryMode : Type := {
  Normal : float;
  CSection : float
}.

Module BP.
Record t : Type := { systolic : float; diastolic : float }.
End BP.

Module Vitals.
Record t : Type := { weight : val; fundal : val; hb : val; fhr : val; bp : BP.t }.
End Vitals.

(** One projected point [{week, value}]. *)
Record Point : Type := { week : val; value : float }.

Module Progression.
Record t : Type := {
  weight : list Point;
  fundal : list Point;
  hb : list Point;
  systolic : list Point;
  diastolic : list Point;
  fetal_hr : list Point
}.
End Progression.

Module Expected.
Record t : Type := { expectedGestationalAge : float; expectedBirthWeight : float }.
End Expected.

(** The two shapes of [metadata]. *)
Inductive Metadata : Type :=
  | PipelineMetadata (currentGestationalAge : val) (weeksProjected : float)
      (visitCount : nat) (generatedAt : string) (source : string)
  | FallbackMetadata (source : string) (generatedAt : string).

(** The object [generatePrediction] returns. [progression] and
    [riskScores] are [None] for the empty object [{}]; [isFallback] is
    [None] when the property is absent. *)
Record PredictionResult : Type := {
  deliveryType : DeliveryType;
  deliveryMode : DeliveryMode;
  progression : option Progression.t;
  summary : string;
  expectedGestationalAge : float;
  expectedBirthWeight : float;
  riskScores : option RiskScores;
  isFallback : option bool;
  metadata : Metadata
}.

(** ** Control: exceptions, and the state a call can change *)

Definition obind {A B : Type} (o : outcome A) (k : A -> outcome B) : outcome B :=
  match o with
  | Return a => k a
  | Throw e => Throw e
  | OutOfFuel => OutOfFuel
  end.

Notation "x <~ o ;; k" := (obind o (fun x => k))
  (at level 61, o at next level, right associativity).

(** [try { body } catch (error) { handler }]. *)
Definition try_catch {A : Type} (body : outcome A) (handler : error -> outcome A) : outcome A :=
  match body with
  | Throw e => handler e
  | o => o
  end.

Fixpoint map_outcome {A B : Type} (f : A -> outcome B) (l : list A) : outcome (list B) :=
  match l with
  | [] => Return []
  | x :: r => y <~ f x ;; ys <~ map_outcome f r ;; Return (y :: ys)
  end.

(** The instance and the number of [Math.random] calls made so far. *)
Record State : Type := {
  this : PredictionEngine;
  random_calls : nat
}.

Definition M (A : Type) : Type := State -> outcome A * State.

Definition ret {A : Type} (a : A) : M A := fun s => (Return a, s).

Definition bind {A B : Type} (c : M A) (k : A -> M B) : M B :=
  fun s =>
    match c s with
    | (Return a, s') => k a s'
    | (Throw e, s') => (Throw e, s')
    | (OutOfFuel, s') => (OutOfFuel, s')
    end.

Notation "x <- c ;; k" := (bind c (fun x => k))
  (at level 61, c at next level, right associativity).

Definition lift {A : Type} (o : outcome A) : M A := fun s => (o, s).

Definition get_this : M PredictionEngine := fun s => (Return (this s), s).

Definition set_validatedVisits (vv : list Visit) : M unit :=
  fun s =>
    (Return tt,
     {| this := {| visits := visits (this s); patient := patient (this s);
                   validatedVisits := vv |};
        random_calls := random_calls s |}).

Definition random (h : Host) : M float :=
  fun s =>
    (Return (Math_random h (random_calls s)),
     {| this := this s; random_calls := S (random_calls s) |}).

(** [arr[arr.length - 1]] and [arr.at(-1)], read for a property: reading a
    property of [undefined] throws. *)
Definition last_visit (vv : list Visit) : outcome Visit :=
  match rev vv with
  | v :: _ => Return v
  | [] => Throw (TypeError "cannot read properties of undefined")
  end.

Definition first_visit (vv : list Visit) : outcome Visit :=
  match vv with
  | v :: _ => Return v
  | [] => Throw (TypeError "cannot read properties of undefined")
  end.

(** ** Methods *)

(** *** [validateVisits] and the constructor *)

(** The object literal of the [map] callback: the eight recognised
    properties, each [visit.FIELD || null]. *)
Definition normalize (visit : val) : outcome Visit :=
  ga <~ get visit "GESTATIONAL_AGE_WEEKS" ;;
  mw <~ get visit "MATERNAL_WEIGHT" ;;
  fh <~ get visit "FUNDAL_HEIGHT" ;;
  hl <~ get visit "HEMOGLOBIN_LEVEL" ;;
  bp <~ get visit "BLOOD_PRESSURE" ;;
  fr <~ get visit "FETAL_HEART_RATE" ;;
  co <~ get visit "COMPLICATIONS" ;;
  vd <~ get visit "VISIT_DATE" ;;
  Return {| GESTATIONAL_AGE_WEEKS := or_else ga VNull;
            MATERNAL_WEIGHT := or_else mw VNull;
            FUNDAL_HEIGHT := or_else fh VNull;
            HEMOGLOBIN_LEVEL := or_else hl VNull;
            BLOOD_PRESSURE := or_else bp VNull;
            FETAL_HEART_RATE := or_else fr VNull;
            COMPLICATIONS := or_else co VNull;
            VISIT_DATE := or_else vd VNull |}.

(** The [filter] callback:
    [visit.GESTATIONAL_AGE_WEEKS && visit.GESTATIONAL_AGE_WEEKS > 0]. *)
Definition keep (visit : Visit) : bool :=
  truthy (and_then (GESTATIONAL_AGE_WEEKS visit)
                   (VBool (js_gt (GESTATIONAL_AGE_WEEKS visit) (VNum 0)))).

Definition validateVisits (visits : val) : outcome (list Visit) :=
  if negb (truthy visits) || negb (is_array visits) then Return []
  else
    match visits with
    | VArr elems =>
        mapped <~ map_outcome normalize elems ;;
        Return (filter keep mapped)
    | _ => Return []
    end.

(** [new PredictionEngine(visits, patient)]. *)
Definition new (visits patient : val) : outcome PredictionEngine :=
  let visits := or_else visits (VArr []) in
  let patient := or_else patient (VObj []) in
  validated <~ validateVisits visits ;;
  Return {| visits := visits; patient := patient; validatedVisits := validated |}.

(** *** Rounding *)

(** [Math.round(value * 100) / 100]. *)
Definition roundProbability (value : float) : float :=
  Math_round (value * 100) / 100.

(** [Number(value.toFixed(decimals))]: only a Number has [toFixed]. *)
Definition roundValue (value : val) (decimals : Z) : outcome float :=
  match value with
  | VNum x => Return (StringToNumber (toFixed x decimals))
  | VUndefined | VNull =>
      Throw (TypeError "cannot read properties of null or undefined")
  | _ => Throw (TypeError "toFixed is not a function")
  end.

(** *** [calculateExpectedDelivery] *)

Definition calculateExpectedDelivery (riskScores : RiskScores) (deliveryType : DeliveryType)
  : outcome Expected.t :=
  let expectedGA := 39.2 in
  let expectedWeight := 3.3 in
  let expectedGA :=
    if 0.3 <? Premature deliveryType then 36.5
    else if 0.15 <? Premature deliveryType then 38.0
    else expectedGA in
  let expectedWeight :=
    if 0.5 <? growthRestriction riskScores then expectedWeight - 0.5 else expectedWeight in
  let expectedWeight :=
    if 0.5 <? hypertension riskScores then expectedWeight - 0.3 else expectedWeight in
  let expectedWeight :=
    if 0.5 <? anemia riskScores then expectedWeight - 0.2 else expectedWeight in
  let expectedWeight :=
    if expectedGA <? 37.5 then expectedWeight - 0.4 else expectedWeight in
  let expectedGA := Math_min 40.0 (Math_max 35.0 expectedGA) in
  let expectedWeight := Math_min 4.0 (Math_max 2.5 expectedWeight) in
  ga <~ roundValue (VNum expectedGA) 1 ;;
  w <~ roundValue (VNum expectedWeight) 1 ;;
  Return {| Expected.expectedGestationalAge := ga; Expected.expectedBirthWeight := w |}.

(** *** [parseBloodPressure] *)

(** [parts[i] || fallback]: an index past the end reads [undefined]. *)
Definition part_or (parts : list float) (i : nat) (fallback : float) : float :=
  match nth_error parts i with
  | Some x => if truthy_number x then x else fallback
  | None => fallback
  end.

(** [bpString.split('/')]: only a string has [split]. *)
Definition split (bpString : val) : outcome (list string) :=
  match bpString with
  | VStr s => Return (split_on "/" s)
  | VUndefined | VNull =>
      Throw (TypeError "cannot read properties of null or undefined")
  | _ => Throw (TypeError "split is not a function")
  end.

Definition parseBloodPressure (bpString : val) : outcome BP.t :=
  if negb (truthy bpString) then Return {| BP.systolic := 115; BP.diastolic := 70 |}
  else
    try_catch
      (parts <~ split bpString ;;
       let parts := map StringToNumber parts in
       Return {| BP.systolic := part_or parts 0 115;
                 BP.diastolic := part_or parts 1 70 |})
      (fun _ => Return {| BP.systolic := 115; BP.diastolic := 70 |}).

(** *** [hasPretermHistory] *)

(** [history?.toLowerCase().includes('preterm')]: the optional chain stops
    at [null] and [undefined] only. *)
Definition mentions_preterm (history : val) : outcome val :=
  match history with
  | VUndefined | VNull => Return VUndefined
  | VStr s => Return (VBool (includes (toLowerCase s) "preterm"))
  | _ => Throw (TypeError "toLowerCase is not a function")
  end.

Definition hasPretermHistory : M val :=
  e <- get_this ;;
  parity <- lift (get (patient e) "PARITY") ;;
  if js_gt parity (VNum 0) || strict_eq_string parity "1" then
    history <- lift (get (patient e) "MEDICAL_HISTORY") ;;
    lift (mentions_preterm history)
  else ret (VBool false).

(** *** [calculateRiskScores] *)

Definition calculateRiskScores : M RiskScores :=
  e <- get_this ;;
  latestVisit <- lift (last_visit (validatedVisits e)) ;;
  let hemoglobin := HEMOGLOBIN_LEVEL latestVisit in
  let anemia :=
    if truthy hemoglobin then
      if js_lt hemoglobin (VNum 10) then 0.8
      else if js_lt hemoglobin (VNum 11) then 0.4
      else 0.1
    else 0 in
  hypertension <-
    (if truthy (BLOOD_PRESSURE latestVisit) then
       bp <- lift (parseBloodPressure (BLOOD_PRESSURE latestVisit)) ;;
       ret (if (140 <=? BP.systolic bp) || (90 <=? BP.diastolic bp) then 0.9
            else if (130 <=? BP.systolic bp) || (85 <=? BP.diastolic bp) then 0.6
            else 0.1)
     else ret 0) ;;
  let growthRestriction :=
    if truthy (and_then (FUNDAL_HEIGHT latestVisit) (GESTATIONAL_AGE_WEEKS latestVisit)) then
      let diff := Math_abs (js_sub (FUNDAL_HEIGHT latestVisit) (GESTATIONAL_AGE_WEEKS latestVisit)) in
      if 4 <? diff then 0.7
      else if 2 <? diff then 0.3
      else 0.1
    else 0 in
  let currentGA := GESTATIONAL_AGE_WEEKS latestVisit in
  history <- (if js_lt currentGA (VNum 37) then hasPretermHistory else ret (VBool false)) ;;
  let pretermRisk :=
    if js_lt currentGA (VNum 37) && truthy history then 0.6
    else if js_lt currentGA (VNum 32) then 0.3
    else 0.1 in
  age <- lift (get (patient e) "AGE") ;;
  let age := or_else age (VNum 25) in
  let maternalAgeRisk :=
    if js_lt age (VNum 18) || js_gt age (VNum 35) then 0.4 else 0.1 in
  bmi <- lift (get (patient e) "BMI_VALUE") ;;
  let bmiRisk :=
    if truthy bmi then
      if js_lt bmi (VNum 18.5) || js_gt bmi (VNum 30) then 0.5
      else if js_gt bmi (VNum 25) then 0.3
      else 0.1
    else 0 in
  ret {| anemia := anemia; hypertension := hypertension;
         growthRestriction := growthRestriction; pretermRisk := pretermRisk;
         maternalAgeRisk := maternalAgeRisk; bmiRisk := bmiRisk |}.

(** *** The two distributions *)

Definition calculateDeliveryTypeProbabilities (riskScores : RiskScores) : DeliveryType :=
  let totalRisk :=
    fold_left (fun a b => a + b) (map snd (entries riskScores)) 0
    / of_nat (List.length (entries riskScores)) in
  let fullTerm := Math_max 0.4 (0.80 - totalRisk * 0.3) in
  let premature := Math_min 0.4 (0.15 + totalRisk * 0.2) in
  let mortalityRisk := Math_min 0.2 (0.05 + totalRisk * 0.1) in
  let sum := fullTerm + premature + mortalityRisk in
  let fullTerm := fullTerm / sum in
  let premature := premature / sum in
  let mortalityRisk := mortalityRisk / sum in
  {| FullTerm := roundProbability fullTerm;
     Premature := roundProbability premature;
     MortalityRisk := roundProbability mortalityRisk |}.

Definition calculateDeliveryModeProbabilities (riskScores : RiskScores) : M DeliveryMode :=
  e <- get_this ;;
  parity <- lift (get (patient e) "PARITY") ;;
  let cSectionRisk :=
    Math_min 0.7
      (hypertension riskScores * 0.4 +
       growthRestriction riskScores * 0.3 +
       bmiRisk riskScores * 0.2 +
       (if strict_eq_number parity 0 || strict_eq_string parity "0" then 0.1 else 0)) in
  ret {| Normal := roundProbability (1 - cSectionRisk);
         CSection := roundProbability cSectionRisk |}.

(** *** [generateProgressionData] *)

Definition no_series : Progression.t :=
  {| Progression.weight := []; Progression.fundal := []; Progression.hb := [];
     Progression.systolic := []; Progression.diastolic := [];
     Progression.fetal_hr := [] |}.

(** The body of the [for] loop: one point pushed on each series. *)
Definition projectWeek (h : Host) (startWeek : val) (baseVitals : Vitals.t)
    (i : float) (progression : Progression.t) : M Progression.t :=
  let week := js_add startWeek (VNum i) in
  weight <- lift (roundValue (js_add (Vitals.weight baseVitals) (VNum (i * 0.35))) 1) ;;
  r <- random h ;;
  fundal <- lift (roundValue (js_add week (VNum (r * 2 - 1))) 1) ;;
  hb <- lift (roundValue
                (VNum (Math_max 10.5 (js_sub (Vitals.hb baseVitals) (VNum (i * 0.05))))) 1) ;;
  r <- random h ;;
  let systolic :=
    Math_round (BP.systolic (Vitals.bp baseVitals) + i * 0.25 + (r * 2 - 1)) in
  r <- random h ;;
  let diastolic :=
    Math_round (BP.diastolic (Vitals.bp baseVitals) + i * 0.15 + (r * 2 - 1)) in
  r <- random h ;;
  let fhrValue :=
    js_add (js_add (Vitals.fhr baseVitals) (VNum (Math_sin h (i / 3) * 2)))
           (VNum (r * 3 - 1.5)) in
  let fhrValue := Math_min 160 (Math_max 120 (ToNumber fhrValue)) in
  let push (series : list Point) (v : float) :=
    (series ++ [{| week := week; value := v |}])%list in
  ret {| Progression.weight := push (Progression.weight progression) weight;
         Progression.fundal := push (Progression.fundal progression) fundal;
         Progression.hb := push (Progression.hb progression) hb;
         Progression.systolic := push (Progression.systolic progression) systolic;
         Progression.diastolic := push (Progression.diastolic progression) diastolic;
         Progression.fetal_hr := push (Progression.fetal_hr progression) (Math_round fhrValue) |}.

(** [for (i; i <= weeksToProject; i++)] from the current [i], at most
    [fuel] rounds. *)
Fixpoint projectWeeks (h : Host) (fuel : nat) (startWeek : val) (weeksToProject : float)
    (baseVitals : Vitals.t) (i : float) (progression : Progression.t) : M Progression.t :=
  if i <=? weeksToProject then
    match fuel with
    | O => lift OutOfFuel
    | S fuel' =>
        progression' <- projectWeek h startWeek baseVitals i progression ;;
        projectWeeks h fuel' startWeek weeksToProject baseVitals (i + 1) progression'
    end
  else ret progression.

Definition generateProgressionData (h : Host) (fuel : nat) (startWeek : val)
    (weeksToProject : float) (baseVitals : Vitals.t) : M Progression.t :=
  projectWeeks h fuel startWeek weeksToProject baseVitals 1 no_series.

(** *** [calculateTrend] *)

(** The comparator [(a, b) => a.GESTATIONAL_AGE_WEEKS - b.GESTATIONAL_AGE_WEEKS]. *)
Definition by_gestational_age (a b : Visit) : float :=
  js_sub (GESTATIONAL_AGE_WEEKS a) (GESTATIONAL_AGE_WEEKS b).

Definition calculateTrend (field : string) : M float :=
  e <- get_this ;;
  if (List.length (validatedVisits e) <? 2)%nat then ret 0
  else
    let sortedVisits := sort by_gestational_age (validatedVisits e) in
    earliest <- lift (first_visit sortedVisits) ;;
    latest <- lift (last_visit sortedVisits) ;;
    let first := visit_field earliest field in
    let last := visit_field latest field in
    if negb (truthy first) || negb (truthy last) then ret 0
    else
      let weekDiff :=
        js_sub (GESTATIONAL_AGE_WEEKS latest) (GESTATIONAL_AGE_WEEKS earliest) in
      ret (if 0 <? weekDiff then js_sub last first / weekDiff else 0).

(** *** [generateProgression] *)

(** The [forEach] callback [p => p.value += (p.week - currentGA) * slope]. *)
Definition adjust (currentGA : val) (slope : float) (p : Point) : Point :=
  {| week := week p; value := value p + js_sub (week p) currentGA * slope |}.

Definition generateProgression (h : Host) (fuel : nat) (currentGA : val)
    (weeksToProject : float) : M Progression.t :=
  e <- get_this ;;
  latest <- lift (last_visit (validatedVisits e)) ;;
  bp <- lift (parseBloodPressure (BLOOD_PRESSURE latest)) ;;
  let base :=
    {| Vitals.weight := or_else (MATERNAL_WEIGHT latest) (VNum 60);
       Vitals.fundal := or_else (FUNDAL_HEIGHT latest) currentGA;
       Vitals.hb := or_else (HEMOGLOBIN_LEVEL latest) (VNum 11.5);
       Vitals.fhr := or_else (FETAL_HEART_RATE latest) (VNum 145);
       Vitals.bp := bp |} in
  weightTrend <- calculateTrend "MATERNAL_WEIGHT" ;;
  hbTrend <- calculateTrend "HEMOGLOBIN_LEVEL" ;;
  progression <- generateProgressionData h fuel currentGA weeksToProject base ;;
  ret {| Progression.weight :=
           map (adjust currentGA (weightTrend * 0.1)) (Progression.weight progression);
         Progression.fundal := Progression.fundal progression;
         Progression.hb :=
           map (adjust currentGA (hbTrend * 0.02)) (Progression.hb progression);
         Progression.systolic := Progression.systolic progression;
         Progression.diastolic := Progression.diastolic progression;
         Progression.fetal_hr := Progression.fetal_hr progression |}.

(** *** [generateSummary] *)

Definition formatRiskName (riskKey : string) : string :=
  if (riskKey =? "anemia")%string then "anemia"
  else if (riskKey =? "hypertension")%string then "hypertension"
  else if (riskKey =? "growthRestriction")%string then "fetal growth restriction"
  else if (riskKey =? "pretermRisk")%string then "preterm delivery"
  else if (riskKey =? "maternalAgeRisk")%string then "maternal age"
  else if (riskKey =? "bmiRisk")%string then "BMI-related"
  else riskKey.

(** The [reduce] callback [(a, b) => a[1] > b[1] ? a : b]. *)
Definition larger (a b : string * float) : string * float :=
  if snd b <? snd a then a else b.

(** [Object.entries(riskScores).reduce(larger)]: without an initial value
    the first entry starts the accumulation. *)
Definition primaryEntry (riskScores : RiskScores) : string * float :=
  match entries riskScores with
  | first :: rest => fold_left larger rest first
  | [] => ("", nan)
  end.

Definition primaryRisk (riskScores : RiskScores) : string :=
  fst (primaryEntry riskScores).

Definition generateSummary (riskScores : RiskScores) (deliveryType : DeliveryType)
    (deliveryMode : DeliveryMode) : string :=
  let primaryRisk := primaryRisk riskScores in
  let score := snd (primaryEntry riskScores) in
  let fullTermPercent := Number_toString (Math_round (FullTerm deliveryType * 100)) in
  let prematurePercent := Number_toString (Math_round (Premature deliveryType * 100)) in
  if 0.7 <? score then
    "Elevated " ++ formatRiskName primaryRisk ++ " risk requires close monitoring. "
      ++ prematurePercent ++ "% premature delivery risk. Consider specialist consultation."
  else if 0.4 <? score then
    "Moderate " ++ formatRiskName primaryRisk ++ " risk noted. " ++ fullTermPercent
      ++ "% chance of full-term delivery with increased monitoring recommended."
  else
    "Patient shows stable progression with " ++ fullTermPercent
      ++ "% likelihood of full-term normal delivery. Continue routine antenatal monitoring.".

(** *** [getFallbackPrediction] *)

Definition fallbackSummary : string :=
  "Using standard pregnancy progression model - insufficient patient data for personalized prediction.".

Definition getFallbackPrediction (h : Host) (fuel : nat) (atTerm : bool) : M PredictionResult :=
  let defaultGA := 12 in
  let weeksToProject := if atTerm then 0 else 40 - defaultGA in
  let baseVitals :=
    {| Vitals.weight := VNum 60; Vitals.fundal := VNum 12; Vitals.hb := VNum 11.5;
       Vitals.fhr := VNum 145;
       Vitals.bp := {| BP.systolic := 115; BP.diastolic := 70 |} |} in
  progression <-
    (if atTerm then ret None
     else
       p <- generateProgressionData h fuel (VNum defaultGA) weeksToProject baseVitals ;;
       ret (Some p)) ;;
  ret {| deliveryType := {| FullTerm := 0.80; Premature := 0.15; MortalityRisk := 0.05 |};
         deliveryMode := {| Normal := 0.70; CSection := 0.30 |};
         progression := progression;
         summary := fallbackSummary;
         expectedGestationalAge := 39.0;
         expectedBirthWeight := 3.2;
         riskScores := None;
         isFallback := Some true;
         metadata := FallbackMetadata "fallback-model" (Date_toISOString h) |}.

(** *** [generatePrediction] *)

Definition generatePrediction (h : Host) (fuel : nat) : M PredictionResult :=
  e <- get_this ;;
  if (List.length (validatedVisits e) =? 0)%nat then getFallbackPrediction h fuel false
  else
    _ <- set_validatedVisits (sort by_gestational_age (validatedVisits e)) ;;
    e <- get_this ;;
    latestVisit <- lift (last_visit (validatedVisits e)) ;;
    let currentGA := GESTATIONAL_AGE_WEEKS latestVisit in
    let weeksToProject := Math_max 0 (js_sub (VNum 40) currentGA) in
    if weeksToProject <=? 0 then getFallbackPrediction h fuel true
    else
      riskScores <- calculateRiskScores ;;
      let deliveryType := calculateDeliveryTypeProbabilities riskScores in
      deliveryMode <- calculateDeliveryModeProbabilities riskScores ;;
      expected <- lift (calculateExpectedDelivery riskScores deliveryType) ;;
      progression <- generateProgression h fuel currentGA weeksToProject ;;
      let summary := generateSummary riskScores deliveryType deliveryMode in
      e <- get_this ;;
      ret {| deliveryType := deliveryType;
             deliveryMode := deliveryMode;
             progression := Some progression;
             summary := summary;
             expectedGestationalAge := Expected.expectedGestationalAge expected;
             expectedBirthWeight := Expected.expectedBirthWeight expected;
             riskScores := Some riskScores;
             isFallback := None;
             metadata :=
               PipelineMetadata currentGA weeksToProject
                 (List.length (validatedVisits e)) (Date_toISOString h)
                 "rule-based-engine" |}.

(** [new PredictionEngine(visits, patient).generatePrediction()], with no
    [Math.random] call made before. *)
Definition initial (e : PredictionEngine) : State :=
  {| this := e; random_calls := 0 |}.

Definition predict (h : Host) (fuel : nat) (visits patient : val)
  : outcome PredictionResult :=
  e <~ new visits patient ;;
  fst (generatePrediction h fuel (initial e)).

(** *** [calculateWeightGain] and [calculateHbDecline] *)

(** Nothing in the class calls these two methods; their arguments are
    whatever the caller passes. *)
Definition calculateWeightGain (week baseWeight trend : val) : M val :=
  e <- get_this ;;
  if (List.length (validatedVisits e) <? 1)%nat then
    ret (js_add baseWeight (VNum (js_mul week (VNum 0.35))))
  else
    let baseGain := 0.3 in
    let patientSpecificGain := baseGain + js_mul trend (VNum 0.1) in
    first <- lift (first_visit (validatedVisits e)) ;;
    let weeksFromStart := js_sub week (GESTATIONAL_AGE_WEEKS first) in
    ret (js_add baseWeight (VNum (weeksFromStart * patientSpecificGain))).

Definition calculateHbDecline (week baseHb trend : val) : M float :=
  e <- get_this ;;
  if (List.length (validatedVisits e) <? 1)%nat then
    ret (Math_max 9.5 (js_sub baseHb (VNum (js_mul week (VNum 0.05)))))
  else
    let baseDecline := 0.05 in
    let patientSpecificDecline := baseDecline + js_mul trend (VNum 0.02) in
    first <- lift (first_visit (validatedVisits e)) ;;
    let weeksFromStart := js_sub week (GESTATIONAL_AGE_WEEKS first) in
    ret (Math_max 9.5 (js_sub baseHb (VNum (weeksFromStart * patientSpecificDecline)))).

End Engine.

(* ===================================================================== *)
(** * The reference tables: [class BMIAverageCalculator] *)
(* ===================================================================== *)

Module BMIAverageCalculator.
Import JS.
#[local] Open Scope float_scope.

(** The five series of a BMI category. *)
Record Averages : Type := {
  weight : list float;
  fundal : list float;
  hemoglobin : list float;
  systolic : list float;
  diastolic : list float
}.

Definition WEEKS_15 : list float :=
  [12; 14; 16; 18; 20; 22; 24; 26; 28; 30; 32; 34; 36; 38; 40].

Definition WEEKS_16 : list float :=
  [10; 12; 14; 16; 18; 20; 22; 24; 26; 28; 30; 32; 34; 36; 38; 40].

Definition Underweight : Averages :=
  {| weight := [50; 52; 54; 56; 58; 60; 62; 64; 66; 68; 70; 72; 74; 76; 78; 80];
     fundal := [12; 14; 16; 18; 20; 22; 24; 26; 28; 30; 32; 34; 36; 38; 40];
     hemoglobin := [12.0; 11.8; 11.6; 11.4; 11.2; 11.0; 10.8; 10.6; 10.4; 10.2; 10.0;
                    9.8; 9.6; 9.4; 9.2];
     systolic := [110; 112; 114; 116; 118; 120; 122; 124; 126; 128; 130; 132; 134; 136; 138];
     diastolic := [70; 71; 72; 73; 74; 75; 76; 77; 78; 79; 80; 81; 82; 83; 84] |}.

Definition Normal : Averages :=
  {| weight := [55; 57; 59; 61; 63; 65; 67; 69; 71; 73; 75; 77; 79; 81; 83; 85];
     fundal := [12; 14; 16; 18; 20; 22; 24; 26; 28; 30; 32; 34; 36; 38; 40];
     hemoglobin := [12.2; 12.0; 11.8; 11.6; 11.4; 11.2; 11.0; 10.8; 10.6; 10.4; 10.2;
                    10.0; 9.8; 9.6; 9.4];
     systolic := [115; 117; 119; 121; 123; 125; 127; 129; 131; 133; 135; 137; 139; 141; 143];
     diastolic := [70; 71; 72; 73; 74; 75; 76; 77; 78; 79; 80; 81; 82; 83; 84] |}.

Definition Overweight : Averages :=
  {| weight := [65; 67; 69; 71; 73; 75; 77; 79; 81; 83; 85; 87; 89; 91; 93; 95];
     fundal := [12; 14; 16; 18; 20; 22; 24; 26; 28; 30; 32; 34; 36; 38; 40];
     hemoglobin := [11.8; 11.6; 11.4; 11.2; 11.0; 10.8; 10.6; 10.4; 10.2; 10.0; 9.8;
                    9.6; 9.4; 9.2; 9.0];
     systolic := [120; 122; 124; 126; 128; 130; 132; 134; 136; 138; 140; 142; 144; 146; 148];
     diastolic := [75; 76; 77; 78; 79; 80; 81; 82; 83; 84; 85; 86; 87; 88; 89] |}.

Definition Obese : Averages :=
  {| weight := [75; 77; 79; 81; 83; 85; 87; 89; 91; 93; 95; 97; 99; 101; 103; 105];
     fundal := [12; 14; 16; 18; 20; 22; 24; 26; 28; 30; 32; 34; 36; 38; 40];
     hemoglobin := [11.5; 11.3; 11.1; 10.9; 10.7; 10.5; 10.3; 10.1; 9.9; 9.7; 9.5;
                    9.3; 9.1; 8.9; 8.7];
     systolic := [125; 127; 129; 131; 133; 135; 137; 139; 141; 143; 145; 147; 149; 151; 153];
     diastolic := [80; 81; 82; 83; 84; 85; 86; 87; 88; 89; 90; 91; 92; 93; 94] |}.

(** The names every object literal answers to without having them among
    its own properties: the members of [Object.prototype]. *)
Definition inherited (k : string) : bool :=
  existsb (String.eqb k)
    ["constructor"; "hasOwnProperty"; "isPrototypeOf"; "propertyIsEnumerable";
     "toLocaleString"; "toString"; "valueOf"; "__proto__"; "__defineGetter__";
     "__defineSetter__"; "__lookupGetter__"; "__lookupSetter__"].

(** What [averages[bmiStatus] || averages.Normal] evaluates to: one of the
    four tables, or an inherited member, which is a function or an object
    and so counts as true. *)
Variant Member : Type :=
  | Table (a : Averages)
  | Inherited (name : string).

(** [getBMIAverages]; the value is converted to a property key as
    [averages[bmiStatus]] does. *)
Definition getBMIAverages (bmiStatus : val) : Member :=
  let key := ToString bmiStatus in
  if (key =? "Underweight")%string then Table Underweight
  else if (key =? "Normal")%string then Table Normal
  else if (key =? "Overweight")%string then Table Overweight
  else if (key =? "Obese")%string then Table Obese
  else if inherited key then Inherited key
  else Table Normal.

(** A point [{GESTATIONAL_AGE_WEEKS: week, [key]: values[index]}]; an
    index past the end of [values] reads [undefined]. *)
Record Average : Type := {
  GESTATIONAL_AGE_WEEKS : float;
  AVG : val
}.

Record AveragePressure : Type := {
  BP_GESTATIONAL_AGE_WEEKS : float;
  AVG_SYSTOLIC : val;
  AVG_DIASTOLIC : val
}.

Definition at_index (values : list float) (index : nat) : val :=
  match nth_error values index with
  | Some x => VNum x
  | None => VUndefined
  end.

(** The [index] of the [map] callback, counted from [from]. *)
Fixpoint mapi {A B : Type} (f : A -> nat -> B) (l : list A) (from : nat) : list B :=
  match l with
  | [] => []
  | x :: r => f x from :: mapi f r (S from)
  end.

Definition zipData (weeks values : list float) : list Average :=
  mapi (fun week index => {| GESTATIONAL_AGE_WEEKS := week; AVG := at_index values index |})
       weeks 0.

(** The object [getFormattedAverages] returns. *)
Record Formatted : Type := {
  averageWeight : list Average;
  averageFundal : list Average;
  averageHemoglobin : list Average;
  averageBloodPressure : list AveragePressure
}.

(** [getFormattedAverages]: an inherited member has no [weight], and
    [values[index]] on [undefined] throws. *)
Definition getFormattedAverages (bmiStatus : val) : outcome Formatted :=
  match getBMIAverages (or_else bmiStatus (VStr "Normal")) with
  | Inherited _ => Throw (TypeError "cannot read properties of undefined")
  | Table rawAverages =>
      Return
        {| averageWeight := zipData WEEKS_16 (weight rawAverages);
           averageFundal := zipData WEEKS_15 (fundal rawAverages);
           averageHemoglobin := zipData WEEKS_15 (hemoglobin rawAverages);
           averageBloodPressure :=
             mapi (fun week index =>
                     {| BP_GESTATIONAL_AGE_WEEKS := week;
                        AVG_SYSTOLIC := at_index (systolic rawAverages) index;
                        AVG_DIASTOLIC := at_index (diastolic rawAverages) index |})
                  WEEKS_15 0 |}
  end.

End BMIAverageCalculator.

(* ===================================================================== *)
(** * The route [POST /ongoing-progression] of [src/aiserver.js] *)
(* ===================================================================== *)

Module Server.
Import JS Engine.

(** The body of [res.json]: [success], the properties of the prediction
    spread in, [averages], and [error] on the recovery path. *)
Record Response : Type := {
  success : bool;
  prediction : PredictionResult;
  averages : BMIAverageCalculator.Formatted;
  error : option string
}.

(** [error.message]. *)
Definition message (e : JS.error) : string :=
  match e with TypeError what => what end.

(** A destructuring default, [{ name = d }]: taken for [undefined] only. *)
Definition defaulted (v d : val) : val :=
  match v with
  | VUndefined => d
  | _ => v
  end.

(** [v.length], read to be logged. *)
Definition length (v : val) : outcome val :=
  match v with
  | VUndefined | VNull => Throw (TypeError "cannot read properties of null or undefined")
  | VArr elems => Return (VNum (of_nat (List.length elems)))
  | VStr s => Return (VNum (of_nat (String.length s)))
  | VObj props => Return (lookup "length" props)
  | _ => Return VUndefined
  end.

Definition no_averages : BMIAverageCalculator.Formatted :=
  {| BMIAverageCalculator.averageWeight := [];
     BMIAverageCalculator.averageFundal := [];
     BMIAverageCalculator.averageHemoglobin := [];
     BMIAverageCalculator.averageBloodPressure := [] |}.

(** A handler runs between calls of [Math.random]: it takes the number of
    calls made so far and gives the number made when it is over. *)
Definition Handler (A : Type) : Type := nat -> outcome A * nat.

(** A method called on an engine of the handler's own. *)
Definition on_engine {A : Type} (e : PredictionEngine) (c : M A) : Handler A :=
  fun calls =>
    let '(o, s) := c {| this := e; random_calls := calls |} in (o, random_calls s).

(** The [try] block; what [console.log] prints is left out, its arguments
    are evaluated. *)
Definition attempt (h : Host) (fuel : nat) (body : val) : Handler Response :=
  fun calls =>
    match
      (visits <~ get body "visits" ;;
       patient <~ get body "patient" ;;
       let visits := defaulted visits (VArr []) in
       let patient := defaulted patient (VObj []) in
       _ <~ get patient "PATIENT_ID" ;;
       _ <~ length visits ;;
       engine <~ new visits patient ;;
       Return (patient, engine))
    with
    | Return (patient, engine) =>
        match on_engine engine (generatePrediction h fuel) calls with
        | (Return prediction, calls') =>
            (bmiStatus <~ get patient "BMI_STATUS" ;;
             let bmiStatus := or_else bmiStatus (VStr "Normal") in
             averages <~ BMIAverageCalculator.getFormattedAverages bmiStatus ;;
             Return {| success := true; prediction := prediction;
                       averages := averages; error := None |},
             calls')
        | (Throw e, calls') => (Throw e, calls')
        | (OutOfFuel, calls') => (OutOfFuel, calls')
        end
    | Throw e => (Throw e, calls)
    | OutOfFuel => (OutOfFuel, calls)
    end.

(** The [catch] block: the fallback of an engine without visits. *)
Definition recover (h : Host) (fuel : nat) (e : JS.error) : Handler Response :=
  fun calls =>
    match new (VArr []) (VObj []) with
    | Return engine =>
        match on_engine engine (getFallbackPrediction h fuel false) calls with
        | (Return fallback, calls') =>
            (Return {| success := true; prediction := fallback;
                       averages := no_averages; error := Some (message e) |},
             calls')
        | (Throw e', calls') => (Throw e', calls')
        | (OutOfFuel, calls') => (OutOfFuel, calls')
        end
    | Throw e' => (Throw e', calls)
    | OutOfFuel => (OutOfFuel, calls)
    end.

(** The handler of [router.post("/ongoing-progression", ...)]: the value
    passed to [res.json]. *)
Definition ongoing_progression (h : Host) (fuel : nat) (body : val) : Handler Response :=
  fun calls =>
    match attempt h fuel body calls with
    | (Throw e, calls') => recover h fuel e calls'
    | answer => answer
    end.

End Server.

(* ===================================================================== *)
(** * Vocabulary of the specification *)
(* ===================================================================== *)

(** The notions the statements below are written with, defined on their
    own and not through the engine's methods. *)

Module Spec.
Import JS Engine.
#[local] Open Scope float_scope.

(** ** Examples *)

(** A host with nothing random about it, for running examples. *)
Definition still_host : Host :=
  {| Math_sin := fun _ => 0; Math_random := fun _ => 0.5;
     Date_toISOString := "2025-01-01T00:00:00.000Z" |}.

(** ** Blood pressure *)

Fixpoint has_char (c : ascii) (s : string) : bool :=
  match s with
  | EmptyString => false
  | String d r => (d =? c)%char || has_char c r
  end.

(** A component that parsed to a usable number, or the default. *)
Definition number_or (x fallback : float) : float :=
  if truthy_number x then x else fallback.

Definition fallback_pressure : BP.t := {| BP.systolic := 115; BP.diastolic := 70 |}.

(** ** Visits *)

(** A property of a raw element that is not [null] or [undefined]. *)
Definition property (v : val) (k : string) : val :=
  match v with
  | VObj props => lookup k props
  | _ => VUndefined
  end.

(** A present field, or the null marker. *)
Definition present_or_null (v : val) : val := if truthy v then v else VNull.

(** The raw element reduced to the eight recognised fields. *)
Definition reduced (v : val) : Visit :=
  {| GESTATIONAL_AGE_WEEKS := present_or_null (property v "GESTATIONAL_AGE_WEEKS");
     MATERNAL_WEIGHT := present_or_null (property v "MATERNAL_WEIGHT");
     FUNDAL_HEIGHT := present_or_null (property v "FUNDAL_HEIGHT");
     HEMOGLOBIN_LEVEL := present_or_null (property v "HEMOGLOBIN_LEVEL");
     BLOOD_PRESSURE := present_or_null (property v "BLOOD_PRESSURE");
     FETAL_HEART_RATE := present_or_null (property v "FETAL_HEART_RATE");
     COMPLICATIONS := present_or_null (property v "COMPLICATIONS");
     VISIT_DATE := present_or_null (property v "VISIT_DATE") |}.

(** The gestational age of a raw element is present and strictly
    positive. *)
Definition positive_age (v : val) : bool :=
  truthy (property v "GESTATIONAL_AGE_WEEKS")
  && (0 <? ToNumber (property v "GESTATIONAL_AGE_WEEKS")).

(** The gestational age of a raw element can be converted to a primitive,
    as the comparison with zero has to. *)
Definition convertible_age (v : val) : bool :=
  coercible (property v "GESTATIONAL_AGE_WEEKS").

(** The gestational age of a validated visit, as a number. *)
Definition age (v : Visit) : float := ToNumber (GESTATIONAL_AGE_WEEKS v).

(** A validated collection: what the filter of the normalizer lets
    through. *)
Definition validated (vv : list Visit) : Prop := Forall (fun v => keep v = true) vv.

Definition ascending (vv : list Visit) : Prop :=
  StronglySorted (fun a b => (age a <=? age b) = true) vv.

(** ** Inputs of the expected types *)

(** A text, or nothing. *)
Definition text_or_absent (v : val) : bool :=
  match v with
  | VStr _ | VNull | VUndefined => true
  | _ => false
  end.

(** A Number, or nothing: a value that counts as false. *)
Definition number_or_absent (v : val) : bool :=
  match v with
  | VNum _ => true
  | _ => negb (truthy v)
  end.

(** A visit whose gestational age is a Number and whose weight is a Number
    or absent. *)
Definition measured (v : Visit) : bool :=
  match GESTATIONAL_AGE_WEEKS v with
  | VNum _ => number_or_absent (MATERNAL_WEIGHT v)
  | _ => false
  end.

(** A visit whose fields the engine computes with can be converted to a
    primitive: the age, the weight, the fundal height, the hemoglobin and
    the fetal heart rate. The blood pressure is read inside a [try] block
    and the other two fields are never read. *)
Definition convertible_visit (v : Visit) : bool :=
  coercible (GESTATIONAL_AGE_WEEKS v) && coercible (MATERNAL_WEIGHT v)
  && coercible (FUNDAL_HEIGHT v) && coercible (HEMOGLOBIN_LEVEL v)
  && coercible (FETAL_HEART_RATE v).

(** A patient whose parity, age and BMI, the fields the scorer compares,
    can be converted to a primitive. *)
Definition convertible_patient (patient : val) : bool :=
  coercible (property patient "PARITY") && coercible (property patient "AGE")
  && coercible (property patient "BMI_VALUE").

(** A patient record whose medical history is a text or absent. *)
Definition documented (patient : val) : bool :=
  match patient with
  | VUndefined | VNull => false
  | VObj props => text_or_absent (lookup "MEDICAL_HISTORY" props)
  | _ => true
  end.

(** ** Trend *)

Definition missing (v : val) : bool := negb (truthy v).

(** The slope of a metric between two visits:
    [(last - first) / (lastGA - firstGA)]. *)
Definition slope (first last : Visit) (field : string) : float :=
  (ToNumber (visit_field last field) - ToNumber (visit_field first field))
  / (age last - age first).

(** The trend read off a collection in ascending order: zero with fewer
    than two visits, with a missing first or last value, and with a first
    and a last visit of the same gestational age; the slope otherwise. *)
Definition trend (sorted : list Visit) (field : string) : float :=
  match sorted, rev sorted with
  | first :: _ :: _, last :: _ =>
      if missing (visit_field first field) || missing (visit_field last field) then 0
      else if age last =? age first then 0
      else slope first last field
  | _, _ => 0
  end.

(** ** The orchestrator *)

(** The fixed result of the fallback policy, around its progression. *)
Definition fallback_result (h : Host) (progression : option Progression.t)
  : PredictionResult :=
  {| deliveryType := {| FullTerm := 0.80; Premature := 0.15; MortalityRisk := 0.05 |};
     deliveryMode := {| Normal := 0.70; CSection := 0.30 |};
     progression := progression;
     summary :=
       "Using standard pregnancy progression model - insufficient patient data for personalized prediction.";
     expectedGestationalAge := 39.0;
     expectedBirthWeight := 3.2;
     riskScores := None;
     isFallback := Some true;
     metadata := FallbackMetadata "fallback-model" (Date_toISOString h) |}.

(** The weeks of a series. *)
Definition weeks (series : list Point) : list val := map week series.

(** The weeks [first], [first + 1], ... ([count] of them) as Numbers. *)
Definition whole_weeks (first count : nat) : list val :=
  map (fun n => VNum (of_nat n)) (seq first count).

(** Every one of the six series runs over the given weeks. *)
Definition projected_over (p : Progression.t) (ws : list val) : Prop :=
  weeks (Progression.weight p) = ws /\ weeks (Progression.fundal p) = ws
  /\ weeks (Progression.hb p) = ws /\ weeks (Progression.systolic p) = ws
  /\ weeks (Progression.diastolic p) = ws /\ weeks (Progression.fetal_hr p) = ws.

(** The result of the full pipeline: no fallback flag, the six scores, a
    progression, and the metadata of the rule-based engine. *)
Definition pipeline_result (r : PredictionResult) : Prop :=
  isFallback r = None
  /\ (exists scores, riskScores r = Some scores
                     /\ deliveryType r = calculateDeliveryTypeProbabilities scores)
  /\ (exists p, progression r = Some p)
  /\ (exists ga w n at_, metadata r = PipelineMetadata ga w n at_ "rule-based-engine").

(** ** Distributions *)





(** ** Expected delivery *)

Definition adjusted_age (d : DeliveryType) : float :=
  if 0.3 <? Premature d then 36.5
  else if 0.15 <? Premature d then 38.0
  else 39.2.

(** What is taken off the expected weight, in the order it is taken. *)
Definition penalties (r : RiskScores) (age : float) : list float :=
  ((if 0.5 <? growthRestriction r then [0.5] else [])
   ++ (if 0.5 <? hypertension r then [0.3] else [])
   ++ (if 0.5 <? anemia r then [0.2] else [])
   ++ (if age <? 37.5 then [0.4] else []))%list.

Definition adjusted_weight (r : RiskScores) (age : float) : float :=
  fold_left sub (penalties r age) 3.3.

Definition clamp (lo hi x : float) : float := Math_min hi (Math_max lo x).

(** Rounding to [d] decimals, as [toFixed] does it. *)
Definition rounded (d : Z) (x : float) : float := StringToNumber (toFixed x d).

(** The integer a finite Number holds, its fraction dropped. *)
Definition to_Z (x : float) : Z :=
  match Prim2SF x with
  | S754_finite s m e =>
      let n := if (0 <=? e)%Z then (Z.pos m * 2 ^ e)%Z else (Z.pos m / 2 ^ (- e))%Z in
      if s then (- n)%Z else n
  | _ => 0%Z
  end.

(** [x] is the Number written [n/10] for a natural number [n]. *)
Definition one_decimal (x : float) : Prop :=
  x = of_decimal false (to_Z (Math_round (x * 10))) (-1).

Definition between (lo hi x : float) : Prop :=
  (lo <=? x) = true /\ (x <=? hi) = true.

(** ** Primary risk *)

Definition numeric (l : list (string * float)) : Prop :=
  Forall (fun e => is_nan (snd e) = false) l.

(** [e] is the first entry of [l] with the largest score: the entries
    before it are strictly smaller, those after it are not larger. *)
Definition first_maximal (l : list (string * float)) (e : string * float) : Prop :=
  exists before after,
    l = (before ++ e :: after)%list
    /\ Forall (fun x => (snd x <? snd e) = true) before
    /\ Forall (fun x => (snd x <=? snd e) = true) after.

(** [e] is the last entry of [l] with the largest score. *)
Definition last_maximal (l : list (string * float)) (e : string * float) : Prop :=
  exists before after,
    l = (before ++ e :: after)%list
    /\ Forall (fun x => (snd x <=? snd e) = true) before
    /\ Forall (fun x => (snd x <? snd e) = true) after.

(** ** Summary texts *)

(** A probability as the summary prints it: the nearest whole percent. *)
Definition percent (x : float) : string := Number_toString (Math_round (x * 100)).

Definition stable_summary (fullTerm : string) : string :=
  "Patient shows stable progression with " ++ fullTerm
    ++ "% likelihood of full-term normal delivery. Continue routine antenatal monitoring.".

Definition moderate_summary (risk fullTerm : string) : string :=
  "Moderate " ++ risk ++ " risk noted. " ++ fullTerm
    ++ "% chance of full-term delivery with increased monitoring recommended.".

Definition elevated_summary (risk premature : string) : string :=
  "Elevated " ++ risk ++ " risk requires close monitoring. " ++ premature
    ++ "% premature delivery risk. Consider specialist consultation.".

(** ** The preterm score *)

(** The parity test of [hasPretermHistory]: above zero, or the text "1". *)
Definition has_given_birth (parity : val) : bool :=
  js_gt parity (VNum 0) || strict_eq_string parity "1".

(** A medical history that is a text mentioning "preterm", in any case. *)
Definition mentions (history : val) : bool :=
  match history with
  | VStr t => includes (toLowerCase t) "preterm"
  | _ => false
  end.

(** A medical history on which [toLowerCase] cannot be called. *)
Definition no_text (history : val) : bool := negb (text_or_absent history).

(** The scorer reaches [toLowerCase] with such a history: before week 37,
    for a patient who has given birth. *)
Definition history_misread (latest : Visit) (patient : val) : bool :=
  js_lt (GESTATIONAL_AGE_WEEKS latest) (VNum 37)
  && has_given_birth (property patient "PARITY")
  && no_text (property patient "MEDICAL_HISTORY").

(** ** Normalized visits *)

(** A field as the normalizer leaves it: [null], or a value that counts as
    true. *)
Definition present_or_null_field (v : val) : bool :=
  match v with
  | VNull => true
  | _ => truthy v
  end.

Definition normalized (v : Visit) : bool :=
  present_or_null_field (GESTATIONAL_AGE_WEEKS v)
  && present_or_null_field (MATERNAL_WEIGHT v)
  && present_or_null_field (FUNDAL_HEIGHT v)
  && present_or_null_field (HEMOGLOBIN_LEVEL v)
  && present_or_null_field (BLOOD_PRESSURE v)
  && present_or_null_field (FETAL_HEART_RATE v)
  && present_or_null_field (COMPLICATIONS v)
  && present_or_null_field (VISIT_DATE v).

(** ** Reference averages *)

(** The key a BMI status is looked up under: the status, or "Normal" for
    one that counts as false. *)
Definition status_key (bmiStatus : val) : string :=
  ToString (or_else bmiStatus (VStr "Normal")).

(** The table a key names; every other key stands for "Normal". *)
Definition table_of (key : string) : BMIAverageCalculator.Averages :=
  if (key =? "Underweight")%string then BMIAverageCalculator.Underweight
  else if (key =? "Overweight")%string then BMIAverageCalculator.Overweight
  else if (key =? "Obese")%string then BMIAverageCalculator.Obese
  else BMIAverageCalculator.Normal.

(** Points at the given weeks, each with the Number of its series. *)
Definition points_over (weeks values : list float)
    (points : list BMIAverageCalculator.Average) : Prop :=
  map BMIAverageCalculator.GESTATIONAL_AGE_WEEKS points = weeks
  /\ map BMIAverageCalculator.AVG points = map VNum values.

Definition pressures_over (weeks systolic diastolic : list float)
    (points : list BMIAverageCalculator.AveragePressure) : Prop :=
  map BMIAverageCalculator.BP_GESTATIONAL_AGE_WEEKS points = weeks
  /\ map BMIAverageCalculator.AVG_SYSTOLIC points = map VNum systolic
  /\ map BMIAverageCalculator.AVG_DIASTOLIC points = map VNum diastolic.

(** ** The route *)

(** The answer of the recovery path: the fixed fallback over the weeks 13
    to 40, no averages, and an error message. *)
Definition error_fallback (h : Host) (response : Server.Response) : Prop :=
  Server.success response = true
  /\ Server.error response <> None
  /\ Server.averages response = Server.no_averages
  /\ exists p,
       Server.prediction response = fallback_result h (Some p)
       /\ projected_over p (whole_weeks 13 28).

(** The patient and the visits the handler works with: those of the body,
    or [{}] and [[]] when the body has none. *)
Definition patient_of (body : val) : val :=
  Server.defaulted (property body "patient") (VObj []).

Definition visits_of (body : val) : val :=
  Server.defaulted (property body "visits") (VArr []).

End Spec.

(* ===================================================================== *)
(** * Notions of the proofs *)
(* ===================================================================== *)

(** The definitions the lemmas and theorems below are stated with. *)

(** ** Binary64 values *)

Definition signed (s : bool) (r : spec_float) : Prop :=
  (exists m e, r = S754_finite s m e) \/ r = S754_infinity s.

(** A key that orders the non-NaN values as [SFcompare] does. *)
Definition SFkey (x : spec_float) : Z * Z * Z :=
  match x with
  | S754_nan => (0, 0, 0)
  | S754_zero _ => (0, 0, 0)
  | S754_infinity s => if s then (-2, 0, 0) else (2, 0, 0)
  | S754_finite s m e => if s then (-1, - e, Z.neg m) else (1, e, Z.pos m)
  end.

Definition key_le (a b : Z * Z * Z) : Prop :=
  let '(a1, a2, a3) := a in
  let '(b1, b2, b3) := b in
  a1 < b1 \/ (a1 = b1 /\ (a2 < b2 \/ (a2 = b2 /\ a3 <= b3))).

Section Notions.
Import JS Engine.
#[local] Open Scope float_scope.

(** ** The instance *)

(** A computation that does not touch the instance fields. *)
Definition keeps_this {A : Type} (c : M A) : Prop :=
  forall s, this (snd (c s)) = this s.

(** The instance after a call of [generatePrediction]: the raw inputs as
    they were, the validated visits sorted. *)
Definition sorted_instance (e : PredictionEngine) : PredictionEngine :=
  {| visits := visits e; patient := patient e;
     validatedVisits := sort by_gestational_age (validatedVisits e) |}.

Definition sorted_state (s : State) : State :=
  {| this := sorted_instance (this s); random_calls := random_calls s |}.

(** The state after [n] more calls of [Math.random]. *)
Definition more_random (n : nat) (s : State) : State :=
  {| this := this s; random_calls := n + random_calls s |}.

(** The visit [generatePrediction] takes for the latest one. *)
Definition latest_of (e : PredictionEngine) : outcome Visit :=
  last_visit (sort by_gestational_age (validatedVisits e)).

(** The weeks left to project from a visit. *)
Definition weeks_left (v : Visit) : float :=
  Math_max 0 (js_sub (VNum 40) (GESTATIONAL_AGE_WEEKS v)).

(** ** The projection loop *)

(** How many rounds the loop [for (i; i <= w; i++)] makes from [i], when
    the fuel lasts. *)
Fixpoint rounds (fuel : nat) (i w : float) : option nat :=
  if i <=? w then
    match fuel with
    | O => None
    | S fuel' => option_map S (rounds fuel' (i + 1) w)
    end
  else Some O.

(** The weeks of these rounds: [start + i], [start + (i + 1)], ... *)
Fixpoint weeks_from (start : float) (n : nat) (i : float) : list val :=
  match n with
  | O => []
  | S n' => VNum (start + i) :: weeks_from start n' (i + 1)
  end.

(** The counter of the loop after [n] rounds. *)
Fixpoint counter_after (n : nat) (i : float) : float :=
  match n with
  | O => i
  | S n' => counter_after n' (i + 1)
  end.

(** ** Scores and distributions *)

(** Every combination of the constants [calculateRiskScores] assigns. *)
Definition possible_scores : list RiskScores :=
  flat_map (fun a => flat_map (fun b => flat_map (fun c => flat_map (fun d =>
  flat_map (fun e => map (fun f =>
    {| anemia := a; hypertension := b; growthRestriction := c;
       pretermRisk := d; maternalAgeRisk := e; bmiRisk := f |})
    [0; 0.5; 0.3; 0.1]) [0.4; 0.1]) [0.6; 0.3; 0.1]) [0; 0.7; 0.3; 0.1])
    [0; 0.9; 0.6; 0.1]) [0; 0.8; 0.4; 0.1].

(** The delivery mode for given scores, by whether the parity is zero. *)
Definition mode_of (scores : RiskScores) (nulliparous : bool) : DeliveryMode :=
  let cSectionRisk :=
    Math_min 0.7
      (hypertension scores * 0.4 + growthRestriction scores * 0.3
       + bmiRisk scores * 0.2 + (if nulliparous then 0.1 else 0)) in
  {| Normal := roundProbability (1 - cSectionRisk);
     CSection := roundProbability cSectionRisk |}.



(** ** Examples *)

(** The state of an engine that holds the given validated visits, before
    any call of [Math.random]. *)
Definition state_of (vv : list Visit) : State :=
  {| this := {| visits := VArr []; patient := VObj []; validatedVisits := vv |};
     random_calls := 0 |}.

(** A visit with a gestational age and nothing else. *)
Definition visit_at (g : float) : Visit :=
  {| GESTATIONAL_AGE_WEEKS := VNum g; MATERNAL_WEIGHT := VNull;
     FUNDAL_HEIGHT := VNull; HEMOGLOBIN_LEVEL := VNull; BLOOD_PRESSURE := VNull;
     FETAL_HEART_RATE := VNull; COMPLICATIONS := VNull; VISIT_DATE := VNull |}.

(** The six scores of a visit with blood pressure 135/80 before week 37
    and a history of preterm birth: hypertension and pretermRisk tie at
    0.6. *)
Definition tied_scores : RiskScores :=
  {| anemia := 0.1; hypertension := 0.6; growthRestriction := 0.1;
     pretermRisk := 0.6; maternalAgeRisk := 0.1; bmiRisk := 0.1 |}.

(** Three visits sent out of order, with their weights. *)
Definition three_weights : list Visit :=
  map (fun '(g, w) =>
         {| GESTATIONAL_AGE_WEEKS := VNum g; MATERNAL_WEIGHT := VNum w;
            FUNDAL_HEIGHT := VNull; HEMOGLOBIN_LEVEL := VNull; BLOOD_PRESSURE := VNull;
            FETAL_HEART_RATE := VNull; COMPLICATIONS := VNull; VISIT_DATE := VNull |})
      [(30, 66); (20, 60); (24, 61)].

(** Two visits sent latest first. *)
Definition week_30_then_20 : val :=
  VArr [VObj [("GESTATIONAL_AGE_WEEKS", VNum 30)];
        VObj [("GESTATIONAL_AGE_WEEKS", VNum 20)]].

(** ** Fuel and the instance *)

(** A computation that never stops for want of fuel. *)
Definition within_fuel {A : Type} (c : M A) : Prop :=
  forall s, fst (c s) <> OutOfFuel.

(** A computation that reads nothing of the instance: its result and the
    number of [Math.random] calls it makes are the same on every engine. *)
Definition ignores_this {A : Type} (c : M A) : Prop :=
  forall s1 s2,
    random_calls s1 = random_calls s2 ->
    fst (c s1) = fst (c s2) /\ random_calls (snd (c s1)) = random_calls (snd (c s2)).

(** The engine the [catch] block of the route builds. *)
Definition no_visits : PredictionEngine :=
  {| visits := VArr []; patient := VObj []; validatedVisits := [] |}.

(** ** Results *)

(** What [generatePrediction] builds from given scores: the result of the
    full pipeline but for its progression and metadata. *)
Definition derived_from (scores : RiskScores) (nulliparous : bool) (r : PredictionResult)
  : Prop :=
  riskScores r = Some scores
  /\ isFallback r = None
  /\ deliveryType r = calculateDeliveryTypeProbabilities scores
  /\ deliveryMode r = mode_of scores nulliparous
  /\ calculateExpectedDelivery scores (calculateDeliveryTypeProbabilities scores)
     = Return {| Expected.expectedGestationalAge := expectedGestationalAge r;
                 Expected.expectedBirthWeight := expectedBirthWeight r |}
  /\ summary r = generateSummary scores (deliveryType r) (deliveryMode r).

(** The result of the full pipeline on an engine whose visits are sorted,
    and the state it leaves: the scores of the scorer, the two
    distributions and the expected delivery computed from these scores,
    the progression from the latest visit to week 40, the summary, the
    metadata, and no fallback flag. *)
Definition pipeline_of (h : Host) (fuel : nat) (s0 : State) (r : PredictionResult)
    (s' : State) : Prop :=
  exists latest scores mode expected p s1 s2,
    last_visit (validatedVisits (this s0)) = Return latest
    /\ calculateRiskScores s0 = (Return scores, s1)
    /\ calculateDeliveryModeProbabilities scores s1 = (Return mode, s2)
    /\ calculateExpectedDelivery scores (calculateDeliveryTypeProbabilities scores)
       = Return expected
    /\ generateProgression h fuel (GESTATIONAL_AGE_WEEKS latest) (weeks_left latest) s2
       = (Return p, s')
    /\ r = {| deliveryType := calculateDeliveryTypeProbabilities scores;
              deliveryMode := mode;
              progression := Some p;
              summary := generateSummary scores (calculateDeliveryTypeProbabilities scores) mode;
              expectedGestationalAge := Expected.expectedGestationalAge expected;
              expectedBirthWeight := Expected.expectedBirthWeight expected;
              riskScores := Some scores;
              isFallback := None;
              metadata :=
                PipelineMetadata (GESTATIONAL_AGE_WEEKS latest) (weeks_left latest)
                  (List.length (validatedVisits (this s'))) (Date_toISOString h)
                  "rule-based-engine" |}.

(** The visits and the patient on which the full pipeline throws: a visit
    at week 30, and a patient who has given birth twice and whose medical
    history is a list of notes. *)
Definition visits_week_30 : val := VArr [VObj [("GESTATIONAL_AGE_WEEKS", VNum 30)]].

Definition patient_with_notes : val :=
  VObj [("PARITY", VNum 2); ("MEDICAL_HISTORY", VArr [VStr "preterm birth, 2019"])].

(** Tests run on each score set the scorer can give. *)
Definition expected_at_38 (scores : RiskScores) : bool :=
  match calculateExpectedDelivery scores (calculateDeliveryTypeProbabilities scores) with
  | Return x =>
      Leibniz.eqb (Expected.expectedGestationalAge x) 38
      && (2.5 <=? Expected.expectedBirthWeight x) && (Expected.expectedBirthWeight x <=? 3.3)
  | _ => false
  end.

Definition type_ordered (d : DeliveryType) : bool :=
  (MortalityRisk d <? Premature d) && (Premature d <? FullTerm d)
  && (0.61 <=? FullTerm d) && (Premature d <=? 0.28) && (MortalityRisk d <=? 0.12).

Definition mode_complementary (d : DeliveryMode) : bool :=
  Leibniz.eqb (Normal d + CSection d) 1 && (0.3 <=? Normal d) && (CSection d <=? 0.7)
  && (0 <=? CSection d).

(** ** More examples *)

(** A visit before week 37 with its measurements, and a patient who has
    given birth and whose history mentions a preterm birth. *)
Definition week_30_measured : Visit :=
  {| GESTATIONAL_AGE_WEEKS := VNum 30; MATERNAL_WEIGHT := VNum 64;
     FUNDAL_HEIGHT := VNum 29; HEMOGLOBIN_LEVEL := VNull;
     BLOOD_PRESSURE := VStr "135/80"; FETAL_HEART_RATE := VNum 140;
     COMPLICATIONS := VNull; VISIT_DATE := VNull |}.

Definition preterm_patient : val :=
  VObj [("PARITY", VNum 2); ("MEDICAL_HISTORY", VStr "Preterm birth in 2019");
        ("BMI_VALUE", VNum 27)].

Definition preterm_state : State :=
  {| this := {| visits := VArr []; patient := preterm_patient;
                validatedVisits := [week_30_measured] |};
     random_calls := 0 |}.

(** The same visit with a patient whose history is a number. *)
Definition misread_state : State :=
  {| this := {| visits := VArr [];
                patient := VObj [("PARITY", VNum 1); ("MEDICAL_HISTORY", VNum 5)];
                validatedVisits := [week_30_measured] |};
     random_calls := 0 |}.

(** Request bodies: one visit at week 38; a null patient; a BMI status
    that names an inherited member. *)
Definition body_week_38 : val :=
  VObj [("visits", VArr [VObj [("GESTATIONAL_AGE_WEEKS", VNum 38)]]);
        ("patient", VObj [("BMI_STATUS", VStr "Obese")])].

Definition body_null_patient : val :=
  VObj [("visits", VArr [VObj [("GESTATIONAL_AGE_WEEKS", VNum 38)]]);
        ("patient", VNull)].

Definition body_inherited_status : val :=
  VObj [("visits", VArr [VObj [("GESTATIONAL_AGE_WEEKS", VNum 38)]]);
        ("patient", VObj [("BMI_STATUS", VStr "constructor")])].

End Notions.
(* ===================================================================== *)
(** * Facts about binary64 arithmetic *)
(* ===================================================================== *)

(** The primitive operations are specified by the Standard Library on
    [spec_float]; the facts below are read off that specification. *)

Module FloatFacts.

(** ** Rounding keeps the sign *)


Lemma digits2_pos_bounds (m : positive) :
  2 ^ (Z.pos (digits2_pos m) - 1) <= Z.pos m < 2 ^ Z.pos (digits2_pos m).
Proof.
  induction m as [m IH | m IH | ]; cbn [digits2_pos].
  - rewrite Pos2Z.inj_succ.
    replace (Z.succ (Z.pos (digits2_pos m)) - 1) with (Z.succ (Z.pos (digits2_pos m) - 1)) by lia.
    rewrite !Z.pow_succ_r by lia. lia.
  - rewrite Pos2Z.inj_succ.
    replace (Z.succ (Z.pos (digits2_pos m)) - 1) with (Z.succ (Z.pos (digits2_pos m) - 1)) by lia.
    rewrite !Z.pow_succ_r by lia. lia.
  - cbn. lia.
Qed.

Lemma iter_xO_pow (d m : positive) :
  Z.pos (Pos.iter xO m d) = Z.pos m * 2 ^ Z.pos d.
Proof.
  revert m. induction d as [d IH | d IH | ]; intro m; cbn [Pos.iter].
  - rewrite Pos2Z.inj_xO, !IH.
    replace (Z.pos d~1) with (Z.pos d + Z.pos d + 1) by lia.
    rewrite !Z.pow_add_r by lia. lia.
  - rewrite !IH. replace (Z.pos d~0) with (Z.pos d + Z.pos d) by lia.
    rewrite Z.pow_add_r by lia. lia.
  - lia.
Qed.

Lemma shl_align_fst (mx : positive) (ex ez : Z) :
  ez <= ex -> Z.pos (fst (shl_align mx ex ez)) = Z.pos mx * 2 ^ (ex - ez).
Proof.
  intro H. unfold shl_align.
  destruct (ez - ex) as [ | p | p] eqn:E; cbn [fst].
  - replace (ex - ez) with 0 by lia. lia.
  - lia.
  - rewrite iter_xO_pow. replace (ex - ez) with (Z.pos p) by lia. reflexivity.
Qed.

Lemma shl_align_snd (mx : positive) (ex ez : Z) :
  snd (shl_align mx ex ez) = Z.min ex ez.
Proof.
  unfold shl_align. destruct (ez - ex) as [ | p | p] eqn:E; cbn [snd]; lia.
Qed.

Lemma shr_1_lower (mrs : shr_record) (k : Z) :
  0 <= k -> 2 ^ (1 + k) <= shr_m mrs -> 2 ^ k <= shr_m (shr_1 mrs).
Proof.
  intros Hk H. destruct mrs as [m r s]. cbn [shr_m] in H.
  rewrite Z.pow_add_r in H by lia. change (2 ^ 1) with 2 in H.
  assert (0 < 2 ^ k) by (apply Z.pow_pos_nonneg; lia).
  destruct m as [ | [p | p | ] | p]; cbn [shr_1 shr_m]; lia.
Qed.

Lemma iter_shr_1_lower (p : positive) :
  forall (mrs : shr_record) (k : Z),
    0 <= k -> 2 ^ (Z.pos p + k) <= shr_m mrs -> 2 ^ k <= shr_m (iter_pos shr_1 p mrs).
Proof.
  induction p as [p IH | p IH | ]; intros mrs k Hk H; cbn [iter_pos].
  - apply IH; [lia | ]. apply IH; [lia | ]. apply shr_1_lower; [lia | ].
    replace (1 + (Z.pos p + (Z.pos p + k))) with (Z.pos p~1 + k) by lia. exact H.
  - apply IH; [lia | ]. apply IH; [lia | ].
    replace (Z.pos p + (Z.pos p + k)) with (Z.pos p~0 + k) by lia. exact H.
  - apply shr_1_lower; [lia | exact H].
Qed.

Abbreviation emin64 := (-1074).

Lemma fexp_eq (k : Z) : fexp prec emax k = Z.max (k - 53) emin64.
Proof. reflexivity. Qed.

Lemma shr_record_of_loc_m (m : Z) (l : location) : shr_m (shr_record_of_loc m l) = m.
Proof. destruct l as [ | [ | | ]]; reflexivity. Qed.

Lemma shr_fexp_pos (m e : Z) (l : location) :
  0 < m -> emin64 <= e ->
  0 < shr_m (fst (shr_fexp prec emax m e l)) /\ emin64 <= snd (shr_fexp prec emax m e l).
Proof.
  intros Hm He. unfold shr_fexp, shr. rewrite fexp_eq.
  destruct m as [ | p | p]; try lia. cbn [Zdigits2].
  pose proof (digits2_pos_bounds p) as [Hlo _].
  set (d := Z.pos (digits2_pos p)) in *.
  destruct (Z.max (d + e - 53) emin64 - e) as [ | n | n] eqn:E; cbn [fst snd].
  - rewrite shr_record_of_loc_m. lia.
  - assert (Hn : Z.pos n = d - 53) by lia.
    split; [ | lia].
    assert (2 ^ 0 <= shr_m (iter_pos shr_1 n (shr_record_of_loc (Z.pos p) l))); [ | cbn in *; lia].
    apply iter_shr_1_lower; [lia | ].
    rewrite shr_record_of_loc_m. rewrite Z.add_0_r.
    etransitivity; [ | exact Hlo].
    apply Z.pow_le_mono_r; lia.
  - rewrite shr_record_of_loc_m. lia.
Qed.

Lemma round_nearest_even_pos (m : Z) (l : location) :
  0 < m -> 0 < round_nearest_even m l.
Proof.
  intro H. destruct l as [ | [ | | ]]; cbn [round_nearest_even]; try lia.
  destruct (Z.even m); lia.
Qed.

Lemma binary_round_aux_signed (sx : bool) (m e : Z) (l : location) :
  0 < m -> emin64 <= e -> signed sx (binary_round_aux prec emax sx m e l).
Proof.
  intros Hm He. unfold binary_round_aux.
  pose proof (shr_fexp_pos m e l Hm He) as [H1 H2].
  destruct (shr_fexp prec emax m e l) as [mrs' e']. cbn [fst snd] in H1, H2.
  pose proof (round_nearest_even_pos (shr_m mrs') (loc_of_shr_record mrs') H1) as H3.
  pose proof (shr_fexp_pos _ e' loc_Exact H3 H2) as [H4 H5].
  destruct (shr_fexp prec emax _ e' loc_Exact) as [mrs'' e'']. cbn [fst snd] in H4, H5.
  destruct (shr_m mrs'') as [ | q | q]; try lia.
  destruct (e'' <=? emax - prec); [left; eauto | right; reflexivity].
Qed.

Lemma binary_round_signed (sx : bool) (m : positive) (e : Z) :
  emin64 <= e -> signed sx (binary_round prec emax sx m e).
Proof.
  intro He. unfold binary_round.
  pose proof (shl_align_snd m e (fexp prec emax (Z.pos (digits2_pos m) + e))) as Hs.
  destruct (shl_align m e _) as [mz ez]. cbn [snd] in Hs.
  apply binary_round_aux_signed; [lia | ].
  rewrite fexp_eq in Hs. lia.
Qed.

Lemma bounded_facts (m : positive) (e : Z) :
  bounded prec emax m e = true ->
  emin64 <= e /\ Z.pos m < 2 ^ 53 /\ (emin64 < e -> 2 ^ 52 <= Z.pos m).
Proof.
  unfold bounded, canonical_mantissa. rewrite fexp_eq.
  intro H. apply andb_true_iff in H as [H _]. apply Z.eqb_eq in H.
  pose proof (digits2_pos_bounds m) as [Hlo Hhi].
  set (d := Z.pos (digits2_pos m)) in *.
  assert (Hd : d <= 53) by lia.
  repeat split; try lia.
  - eapply Z.lt_le_trans; [exact Hhi | ]. apply Z.pow_le_mono_r; lia.
  - intro He. assert (d = 53) by lia. subst d. rewrite H0 in Hlo. exact Hlo.
Qed.

Lemma SFsub_positive (mx my : positive) (ex ey : Z) :
  bounded prec emax mx ex = true -> bounded prec emax my ey = true ->
  match SFcompare (S754_finite false my ey) (S754_finite false mx ex) with
  | Some Lt => signed false (SF64sub (S754_finite false mx ex) (S754_finite false my ey))
  | Some Eq => SF64sub (S754_finite false mx ex) (S754_finite false my ey) = S754_zero false
  | _ => signed true (SF64sub (S754_finite false mx ex) (S754_finite false my ey))
  end.
Proof.
  intros Hx Hy.
  apply bounded_facts in Hx as (Hx1 & Hx2 & Hx3).
  apply bounded_facts in Hy as (Hy1 & Hy2 & Hy3).
  unfold SF64sub, SFsub. cbn [cond_Zopp SFcompare].
  rewrite !shl_align_fst by lia.
  assert (Hpow : forall k, 0 < k -> 2 <= 2 ^ k).
  { intros k Hk. change 2 with (2 ^ 1) at 1. apply Z.pow_le_mono_r; lia. }
  assert (Hbn : forall z, z <> 0 ->
            signed (z <? 0) (binary_normalize prec emax z (Z.min ex ey) false)).
  { intros [ | p | p] Hz; [lia | | ]; cbn [binary_normalize];
      apply binary_round_signed; lia. }
  destruct (Z.compare_spec ey ex) as [E | E | E].
  - subst ey. rewrite Z.min_id, Z.sub_diag, !Z.mul_1_r.
    change (Pos.compare_cont Eq my mx) with (my ?= mx)%positive.
    destruct (Pos.compare_spec my mx) as [F | F | F].
    + subst. rewrite Z.sub_diag. reflexivity.
    + specialize (Hbn (Z.pos mx - Z.pos my)). rewrite Z.min_id in Hbn.
      replace (Z.pos mx - Z.pos my <? 0) with false in Hbn by (symmetry; apply Z.ltb_ge; lia).
      apply Hbn. lia.
    + specialize (Hbn (Z.pos mx - Z.pos my)). rewrite Z.min_id in Hbn.
      replace (Z.pos mx - Z.pos my <? 0) with true in Hbn by (symmetry; apply Z.ltb_lt; lia).
      apply Hbn. lia.
  - rewrite Z.min_r by lia. rewrite Z.sub_diag, Z.mul_1_r.
    specialize (Hpow (ex - ey) ltac:(lia)). specialize (Hx3 ltac:(lia)).
    specialize (Hbn (Z.pos mx * 2 ^ (ex - ey) - Z.pos my)). rewrite Z.min_r in Hbn by lia.
    replace (_ <? 0) with false in Hbn by (symmetry; apply Z.ltb_ge; nia).
    apply Hbn. nia.
  - rewrite Z.min_l by lia. rewrite Z.sub_diag, Z.mul_1_r.
    specialize (Hpow (ey - ex) ltac:(lia)). specialize (Hy3 ltac:(lia)).
    specialize (Hbn (Z.pos mx - Z.pos my * 2 ^ (ey - ex))). rewrite Z.min_l in Hbn by lia.
    replace (_ <? 0) with true in Hbn by (symmetry; apply Z.ltb_lt; nia).
    apply Hbn. nia.
Qed.

(** ** Rounding keeps the magnitude *)

Lemma shr_1_upper (mrs : shr_record) (k : Z) :
  0 <= k -> 0 <= shr_m mrs < 2 ^ (1 + k) -> 0 <= shr_m (shr_1 mrs) < 2 ^ k.
Proof.
  intros Hk H. destruct mrs as [m r s]. cbn [shr_m] in H.
  rewrite Z.pow_add_r in H by lia. change (2 ^ 1) with 2 in H.
  assert (0 < 2 ^ k) by (apply Z.pow_pos_nonneg; lia).
  destruct m as [ | [p | p | ] | p]; cbn [shr_1 shr_m]; lia.
Qed.

Lemma iter_shr_1_upper (p : positive) :
  forall (mrs : shr_record) (k : Z),
    0 <= k -> 0 <= shr_m mrs < 2 ^ (Z.pos p + k) ->
    0 <= shr_m (iter_pos shr_1 p mrs) < 2 ^ k.
Proof.
  induction p as [p IH | p IH | ]; intros mrs k Hk H; cbn [iter_pos].
  - apply IH; [lia | ]. apply IH; [lia | ]. apply shr_1_upper; [lia | ].
    replace (1 + (Z.pos p + (Z.pos p + k))) with (Z.pos p~1 + k) by lia. exact H.
  - apply IH; [lia | ]. apply IH; [lia | ].
    replace (Z.pos p + (Z.pos p + k)) with (Z.pos p~0 + k) by lia. exact H.
  - apply shr_1_upper; [lia | exact H].
Qed.

(** A mantissa below [2^(b - e)] stays below it when it is shifted to its
    precision. *)
Lemma shr_fexp_upper (m e b : Z) (l : location) :
  0 < m -> -1074 <= e -> m < 2 ^ (b - e) ->
  shr_m (fst (shr_fexp prec emax m e l)) < 2 ^ (b - snd (shr_fexp prec emax m e l)).
Proof.
  intros Hm He Hb. unfold shr_fexp, shr. rewrite fexp_eq.
  destruct m as [ | p | p]; try lia. cbn [Zdigits2].
  pose proof (digits2_pos_bounds p) as [Hlo _].
  set (d := Z.pos (digits2_pos p)) in *.
  assert (Hd : d <= b - e).
  { destruct (Z.le_gt_cases d (b - e)) as [ | Hgt]; [assumption | exfalso].
    assert (2 ^ (b - e) <= 2 ^ (d - 1)); [ | lia].
    destruct (Z.le_gt_cases 0 (b - e)).
    - apply Z.pow_le_mono_r; lia.
    - rewrite (Z.pow_neg_r 2 (b - e)) by lia. apply Z.pow_nonneg. lia. }
  destruct (Z.max (d + e - 53) (-1074) - e) as [ | n | n] eqn:E; cbn [fst snd].
  - rewrite shr_record_of_loc_m. exact Hb.
  - assert (Hn : Z.pos n = d - 53) by lia.
    apply iter_shr_1_upper; [lia | ].
    rewrite shr_record_of_loc_m.
    replace (Z.pos n + (b - (e + Z.pos n))) with (b - e) by lia. lia.
  - rewrite shr_record_of_loc_m. exact Hb.
Qed.

Lemma round_nearest_even_upper (m : Z) (l : location) :
  round_nearest_even m l <= m + 1.
Proof.
  destruct l as [ | [ | | ]]; cbn [round_nearest_even]; try lia.
  destruct (Z.even m); lia.
Qed.

(** Rounding a positive value below [2^b] gives a finite value below
    [2^(b + 1)]. *)
Lemma binary_round_aux_upper (sx : bool) (m e b : Z) (l : location) :
  0 < m -> -1074 <= e -> m < 2 ^ (b - e) -> b <= 971 ->
  exists m' e', binary_round_aux prec emax sx m e l = S754_finite sx m' e'
                /\ Z.pos m' < 2 ^ (b + 1 - e').
Proof.
  intros Hm He Hb Hmax. unfold binary_round_aux.
  pose proof (shr_fexp_pos m e l Hm He) as [H1 H2].
  pose proof (shr_fexp_upper m e b l Hm He Hb) as H3.
  destruct (shr_fexp prec emax m e l) as [mrs' e']. cbn [fst snd] in H1, H2, H3.
  pose proof (round_nearest_even_pos (shr_m mrs') (loc_of_shr_record mrs') H1) as H4.
  pose proof (round_nearest_even_upper (shr_m mrs') (loc_of_shr_record mrs')) as H5.
  set (m2 := round_nearest_even (shr_m mrs') (loc_of_shr_record mrs')) in *.
  assert (H6 : m2 < 2 ^ (b + 1 - e')).
  { replace (b + 1 - e') with (Z.succ (b - e')) by lia.
    assert (0 <= b - e').
    { destruct (Z.le_gt_cases 0 (b - e')); [assumption | ].
      rewrite (Z.pow_neg_r 2 (b - e')) in H3 by lia. lia. }
    assert (0 < 2 ^ (b - e')) by (apply Z.pow_pos_nonneg; lia).
    rewrite Z.pow_succ_r by lia. lia. }
  pose proof (shr_fexp_pos m2 e' loc_Exact H4 H2) as [H7 H8].
  pose proof (shr_fexp_upper m2 e' (b + 1) loc_Exact H4 H2 H6) as H9.
  destruct (shr_fexp prec emax m2 e' loc_Exact) as [mrs'' e'']. cbn [fst snd] in H7, H8, H9.
  destruct (shr_m mrs'') as [ | q | q] eqn:Eq; try lia.
  assert (He'' : e'' <= b).
  { destruct (Z.le_gt_cases e'' b); [assumption | exfalso].
    destruct (Z.eq_dec (b + 1 - e'') 0) as [E0 | E0].
    - rewrite E0 in H9. cbn in H9. lia.
    - rewrite (Z.pow_neg_r 2 (b + 1 - e'')) in H9 by lia. lia. }
  replace (e'' <=? emax - prec) with true.
  - exists q, e''. split; [reflexivity | exact H9].
  - symmetry. apply Z.leb_le. change (emax - prec) with 971. lia.
Qed.

Lemma binary_round_upper (sx : bool) (m : positive) (e b : Z) :
  -1074 <= e -> Z.pos m < 2 ^ (b - e) -> b <= 971 ->
  exists m' e', binary_round prec emax sx m e = S754_finite sx m' e'
                /\ Z.pos m' < 2 ^ (b + 1 - e').
Proof.
  intros He Hb Hmax. unfold binary_round.
  pose proof (shl_align_snd m e (fexp prec emax (Z.pos (digits2_pos m) + e))) as Hs.
  pose proof (shl_align_fst m e (Z.min e (fexp prec emax (Z.pos (digits2_pos m) + e)))) as Hf.
  unfold shl_align in *.
  destruct (fexp prec emax (Z.pos (digits2_pos m) + e) - e) as [ | n | n] eqn:E;
    cbn [fst snd] in *.
  - apply binary_round_aux_upper; (assumption || lia).
  - apply binary_round_aux_upper; (assumption || lia).
  - rewrite fexp_eq in E.
    apply binary_round_aux_upper; try lia.
    + rewrite fexp_eq. lia.
    + rewrite iter_xO_pow.
      assert (0 <= b - e).
      { destruct (Z.le_gt_cases 0 (b - e)); [assumption | ].
        rewrite (Z.pow_neg_r 2 (b - e)) in Hb by lia. lia. }
      replace (b - fexp prec emax (Z.pos (digits2_pos m) + e)) with ((b - e) + Z.pos n)
        by (rewrite fexp_eq; lia).
      rewrite Z.pow_add_r by lia.
      assert (0 < 2 ^ Z.pos n) by (apply Z.pow_pos_nonneg; lia). nia.
Qed.

(** The difference of two positive values, the larger one below [2^b], is
    a finite positive value below [2^(b + 1)]. *)
Lemma SFsub_upper (mx my : positive) (ex ey b : Z) :
  bounded prec emax mx ex = true -> bounded prec emax my ey = true ->
  Z.pos mx < 2 ^ (b - ex) -> b <= 971 ->
  SFcompare (S754_finite false my ey) (S754_finite false mx ex) = Some Lt ->
  exists m' e',
    SF64sub (S754_finite false mx ex) (S754_finite false my ey) = S754_finite false m' e'
    /\ Z.pos m' < 2 ^ (b + 1 - e').
Proof.
  intros Hx Hy Hb Hmax Hc.
  apply bounded_facts in Hx as (Hx1 & Hx2 & Hx3).
  apply bounded_facts in Hy as (Hy1 & Hy2 & Hy3).
  assert (Hbx : 0 <= b - ex).
  { destruct (Z.le_gt_cases 0 (b - ex)); [assumption | ].
    rewrite (Z.pow_neg_r 2 (b - ex)) in Hb by lia. lia. }
  unfold SF64sub, SFsub. cbn [cond_Zopp]. cbn [SFcompare] in Hc.
  rewrite !shl_align_fst by lia.
  assert (Hpow : forall k, 0 < k -> 2 <= 2 ^ k).
  { intros k Hk. change 2 with (2 ^ 1) at 1. apply Z.pow_le_mono_r; lia. }
  assert (Hbn : forall z e, 0 < z -> emin64 <= e -> z < 2 ^ (b - e) ->
            exists m' e',
              binary_normalize prec emax z e false = S754_finite false m' e'
              /\ Z.pos m' < 2 ^ (b + 1 - e')).
  { intros [ | p | p] e Hz He Hlt; try lia. cbn [binary_normalize].
    apply binary_round_upper; assumption. }
  destruct (Z.compare_spec ey ex) as [E | E | E]; try discriminate.
  - subst ey. rewrite Z.min_id, Z.sub_diag, !Z.mul_1_r.
    change (Pos.compare_cont Eq my mx) with (my ?= mx)%positive in Hc.
    destruct (Pos.compare_spec my mx) as [F | F | F]; try discriminate.
    apply Hbn; lia.
  - rewrite Z.min_r by lia. rewrite Z.sub_diag, Z.mul_1_r.
    specialize (Hpow (ex - ey) ltac:(lia)). specialize (Hx3 ltac:(lia)).
    apply Hbn; [nia | lia | ].
    replace (b - ey) with ((b - ex) + (ex - ey)) by lia.
    rewrite Z.pow_add_r by lia. nia.
Qed.

(** ** Order *)

Lemma SFcompare_antisym (x y : spec_float) :
  SFcompare y x = option_map CompOpp (SFcompare x y).
Proof.
  destruct x as [sx | sx | | sx mx ex], y as [sy | sy | | sy my ey];
    try destruct sx; try destruct sy; try reflexivity; cbn [SFcompare option_map];
    rewrite (Z.compare_antisym ex ey);
    destruct (ex ?= ey); cbn [CompOpp]; try reflexivity;
    change (Pos.compare_cont Eq ?a ?b) with (Pos.compare a b);
    rewrite (Pos.compare_antisym mx my); destruct (mx ?= my)%positive; reflexivity.
Qed.

Lemma SFcompare_refl (x : spec_float) :
  x <> S754_nan -> SFcompare x x = Some Eq.
Proof.
  destruct x as [sx | sx | | sx mx ex]; try destruct sx; intro H; try reflexivity;
    try congruence; cbn [SFcompare]; rewrite Z.compare_refl;
    change (Pos.compare_cont Eq ?a ?b) with (Pos.compare a b);
    rewrite Pos.compare_refl; reflexivity.
Qed.

Lemma SFleb_SFltb (x y : spec_float) :
  x <> S754_nan -> y <> S754_nan -> SFleb x y = negb (SFltb y x).
Proof.
  intros Hx Hy. unfold SFleb, SFltb. rewrite (SFcompare_antisym x y).
  destruct x as [sx | sx | | sx mx ex], y as [sy | sy | | sy my ey]; try congruence;
    destruct (SFcompare _ _) as [[ | | ] | ] eqn:E; try reflexivity;
    cbn in E; try destruct sx; try destruct sy; discriminate.
Qed.

Lemma SFleb_key (x y : spec_float) :
  x <> S754_nan -> y <> S754_nan -> (SFleb x y = true <-> key_le (SFkey x) (SFkey y)).
Proof.
  intros Hx Hy. unfold SFleb.
  destruct x as [sx | sx | | sx mx ex], y as [sy | sy | | sy my ey]; try congruence;
    try destruct sx; try destruct sy; cbn [SFcompare SFkey key_le];
    try (split; [intros _; lia | reflexivity]);
    try (split; [discriminate | lia]).
  - destruct (Z.compare_spec ex ey); cbn [CompOpp];
      change (Pos.compare_cont Eq ?a ?b) with (Pos.compare a b);
      try destruct (Pos.compare_spec mx my); cbn [CompOpp];
      (split; [try discriminate; intros _; lia | try reflexivity; lia]).
  - destruct (Z.compare_spec ex ey);
      change (Pos.compare_cont Eq ?a ?b) with (Pos.compare a b);
      try destruct (Pos.compare_spec mx my);
      (split; [try discriminate; intros _; lia | try reflexivity; lia]).
Qed.

Lemma key_le_trans (a b c : Z * Z * Z) : key_le a b -> key_le b c -> key_le a c.
Proof.
  destruct a as [[a1 a2] a3], b as [[b1 b2] b3], c as [[c1 c2] c3]. unfold key_le. lia.
Qed.

Lemma SFleb_not_nan (x y : spec_float) :
  SFleb x y = true -> x <> S754_nan /\ y <> S754_nan.
Proof.
  unfold SFleb. destruct x, y; cbn; try discriminate; split; congruence.
Qed.

Lemma SFleb_trans (x y z : spec_float) :
  SFleb x y = true -> SFleb y z = true -> SFleb x z = true.
Proof.
  intros H1 H2.
  destruct (SFleb_not_nan _ _ H1) as [Hx Hy], (SFleb_not_nan _ _ H2) as [_ Hz].
  apply SFleb_key in H1, H2; try assumption.
  apply SFleb_key; try assumption. eapply key_le_trans; eassumption.
Qed.


(** ** From the specification to the primitive operations *)

#[local] Open Scope float_scope.

Lemma is_nan_spec (x : float) : is_nan x = true <-> Prim2SF x = S754_nan.
Proof.
  unfold is_nan. rewrite eqb_spec. unfold SFeqb.
  destruct (Prim2SF x) as [s | s | | s m e] eqn:E.
  - destruct s; cbn; split; discriminate.
  - destruct s; cbn; split; discriminate.
  - cbn. split; reflexivity.
  - rewrite SFcompare_refl by discriminate. cbn. split; discriminate.
Qed.

Lemma not_nan_spec (x : float) : is_nan x = false <-> Prim2SF x <> S754_nan.
Proof.
  rewrite <- is_nan_spec. destruct (is_nan x); split; congruence.
Qed.

Lemma leb_ltb (x y : float) :
  is_nan x = false -> is_nan y = false -> (x <=? y) = negb (y <? x).
Proof.
  intros Hx Hy. rewrite leb_spec, ltb_spec.
  apply SFleb_SFltb; apply not_nan_spec; assumption.
Qed.

Lemma leb_trans (x y z : float) :
  (x <=? y) = true -> (y <=? z) = true -> (x <=? z) = true.
Proof. rewrite !leb_spec. apply SFleb_trans. Qed.

Lemma ltb_leb (x y : float) : (x <? y) = true -> (x <=? y) = true.
Proof.
  rewrite ltb_spec, leb_spec. unfold SFltb, SFleb.
  destruct (SFcompare (Prim2SF x) (Prim2SF y)) as [[ | | ] | ]; congruence.
Qed.

Lemma ltb_asym (x y : float) : (x <? y) = true -> (y <? x) = false.
Proof.
  rewrite !ltb_spec. unfold SFltb. rewrite (SFcompare_antisym (Prim2SF x) (Prim2SF y)).
  destruct (SFcompare (Prim2SF x) (Prim2SF y)) as [[ | | ] | ]; cbn; congruence.
Qed.

Lemma leb_refl (x : float) : is_nan x = false -> (x <=? x) = true.
Proof.
  intro H. rewrite leb_spec. unfold SFleb.
  rewrite SFcompare_refl by (apply not_nan_spec; exact H). reflexivity.
Qed.

Lemma ltb_not_nan (x y : float) :
  (x <? y) = true -> is_nan x = false /\ is_nan y = false.
Proof.
  rewrite ltb_spec. intro H. split; apply not_nan_spec; intro E; rewrite E in H;
    unfold SFltb in H; [ | destruct (Prim2SF x)]; discriminate.
Qed.

Lemma positive_cases (x : float) :
  (0 <? x) = true ->
  (exists m e, Prim2SF x = S754_finite false m e /\ bounded prec emax m e = true)
  \/ Prim2SF x = S754_infinity false.
Proof.
  rewrite ltb_spec. change (Prim2SF 0) with (S754_zero false).
  pose proof (Prim2SF_valid x) as V.
  destruct (Prim2SF x) as [s | [ | ] | | [ | ] m e]; cbn; try discriminate; intros _.
  - right. reflexivity.
  - left. exists m, e. split; [reflexivity | exact V].
Qed.

(** [x - y] is above zero exactly when [x] is above [y], for positive
    [x] and [y]: a difference of distinct values never rounds to zero. *)
Lemma sub_gt0 (x y : float) :
  (0 <? x) = true -> (0 <? y) = true -> (0 <? x - y) = (y <? x).
Proof.
  intros Hx Hy. rewrite !ltb_spec, sub_spec.
  change (Prim2SF 0) with (S754_zero false).
  destruct (positive_cases x Hx) as [(mx & ex & Ex & Bx) | Ex],
           (positive_cases y Hy) as [(my & ey & Ey & By) | Ey]; rewrite Ex, Ey.
  - pose proof (SFsub_positive mx my ex ey Bx By) as H. unfold SFltb at 2.
    destruct (SFcompare (S754_finite false my ey) (S754_finite false mx ex)) as [[ | | ] | ].
    + rewrite H. reflexivity.
    + destruct H as [(m & e & ->) | ->]; reflexivity.
    + destruct H as [(m & e & ->) | ->]; reflexivity.
    + destruct H as [(m & e & ->) | ->]; reflexivity.
  - reflexivity.
  - reflexivity.
  - reflexivity.
Qed.

(** The difference of a finite positive [x] and a positive [y] is a
    number. *)
Lemma sub_not_nan (x y : float) :
  (0 <? x) = true -> (x <? infinity) = true -> (0 <? y) = true -> is_nan (x - y) = false.
Proof.
  intros Hx Fx Hy. apply not_nan_spec. rewrite sub_spec.
  rewrite ltb_spec in Fx. change (Prim2SF infinity) with (S754_infinity false) in Fx.
  destruct (positive_cases x Hx) as [(mx & ex & Ex & Bx) | Ex],
           (positive_cases y Hy) as [(my & ey & Ey & By) | Ey]; rewrite Ex, Ey;
    try (rewrite Ex in Fx; discriminate).
  - pose proof (SFsub_positive mx my ex ey Bx By) as H.
    destruct (SFcompare (S754_finite false my ey) (S754_finite false mx ex)) as [[ | | ] | ].
    + rewrite H. discriminate.
    + destruct H as [(m & e & ->) | ->]; discriminate.
    + destruct H as [(m & e & ->) | ->]; discriminate.
    + destruct H as [(m & e & ->) | ->]; discriminate.
Qed.



(** The test of [generatePrediction] for a pregnancy at term:
    [Math.max(0, 40 - y) <= 0] holds exactly when [y] is 40 or more. *)
Lemma at_term_test (y : float) :
  (0 <? y) = true -> (JS.Math_max 0 (40 - y) <=? 0) = (40 <=? y).
Proof.
  intro Hy.
  assert (Nd : is_nan (40 - y) = false) by (apply sub_not_nan; [reflexivity | reflexivity | exact Hy]).
  assert (Ny : is_nan y = false) by apply (ltb_not_nan _ _ Hy).
  assert (Hd : (0 <? 40 - y) = (y <? 40)) by (apply sub_gt0; [reflexivity | exact Hy]).
  rewrite (leb_ltb 40 y) by (reflexivity || exact Ny).
  unfold JS.Math_max. rewrite Nd. change (is_nan 0) with false. cbn [orb].
  rewrite Hd. destruct (y <? 40) eqn:E.
  - rewrite leb_ltb by (reflexivity || exact Nd). rewrite Hd. reflexivity.
  - change (get_sign 0) with false. destruct (40 - y <? 0); reflexivity.
Qed.

(** Week 40 less a positive age below 40 is below 128. *)
Lemma weeks_to_term_bounded (y : float) :
  (0 <? y) = true -> (y <? 40) = true -> (40 - y <? 128) = true.
Proof.
  intros Hy Hlt. rewrite ltb_spec, sub_spec.
  pose proof (Prim2SF_valid (40 - y)) as V. rewrite sub_spec in V.
  rewrite ltb_spec in Hlt.
  destruct (positive_cases y Hy) as [(my & ey & Ey & By) | Ey]; rewrite Ey in *;
    [ | discriminate].
  change (Prim2SF 40) with (S754_finite false 5629499534213120 (-47)) in *.
  change (Prim2SF 128) with (S754_finite false 4503599627370496 (-45)).
  destruct (SFsub_upper 5629499534213120 my (-47) ey 6 eq_refl By eq_refl ltac:(lia))
    as (m' & e' & E & Hm).
  { unfold SFltb in Hlt.
    destruct (SFcompare _ _) as [[ | | ] | ]; congruence. }
  rewrite E in *. apply bounded_facts in V as (V1 & V2 & V3).
  unfold SFltb. cbn [SFcompare].
  destruct (Z.compare_spec e' (-45)) as [F | F | F].
  - subst e'.
    assert (Hp : (2 ^ (6 + 1 - -45) = 4503599627370496)%Z) by (vm_compute; reflexivity).
    rewrite Hp in Hm.
    rewrite Pos.compare_cont_spec. cbn [Pos.switch_Eq].
    rewrite Pos2Z.inj_compare. unfold Z.lt in Hm. rewrite Hm. reflexivity.
  - reflexivity.
  - exfalso. specialize (V3 ltac:(lia)).
    assert (2 ^ (6 + 1 - e') <= 2 ^ 52)%Z; [ | lia].
    destruct (Z.le_gt_cases 0 (6 + 1 - e')).
    + apply Z.pow_le_mono_r; lia.
    + rewrite (Z.pow_neg_r 2 (6 + 1 - e')) by lia. lia.
Qed.

End FloatFacts.
(* ===================================================================== *)
(** * Reasoning about the engine *)
(* ===================================================================== *)

Import JS Engine FloatFacts.
#[local] Open Scope float_scope.

(** ** The monad *)


Lemma bind_lift_Return {A B : Type} (a : A) (k : A -> M B) (s : State) :
  bind (lift (Return a)) k s = k a s.
Proof. reflexivity. Qed.

Lemma bind_lift_Throw {A B : Type} (e : error) (k : A -> M B) (s : State) :
  bind (lift (Throw e)) k s = (Throw e, s).
Proof. reflexivity. Qed.

Lemma bind_get_this {B : Type} (k : PredictionEngine -> M B) (s : State) :
  bind get_this k s = k (this s) s.
Proof. reflexivity. Qed.

Lemma bind_assoc {A B C : Type} (c : M A) (k1 : A -> M B) (k2 : B -> M C) (s : State) :
  bind (bind c k1) k2 s = bind c (fun a => bind (k1 a) k2) s.
Proof. unfold bind. destruct (c s) as [[a | e | ] s']; reflexivity. Qed.

Lemma bind_Return {A B : Type} (c : M A) (k : A -> M B) (s s' : State) (a : A) :
  c s = (Return a, s') -> bind c k s = k a s'.
Proof. unfold bind. intros ->. reflexivity. Qed.

Lemma bind_Throw {A B : Type} (c : M A) (k : A -> M B) (s s' : State) (e : error) :
  c s = (Throw e, s') -> bind c k s = (Throw e, s').
Proof. unfold bind. intros ->. reflexivity. Qed.

(** A sequence that returns did so through each of its two halves. *)
Lemma bind_inv {A B : Type} (c : M A) (k : A -> M B) (s s' : State) (b : B) :
  bind c k s = (Return b, s') ->
  exists a s1, c s = (Return a, s1) /\ k a s1 = (Return b, s').
Proof.
  unfold bind. destruct (c s) as [[a | e | ] s1]; intro H; try discriminate.
  exists a, s1. split; [reflexivity | exact H].
Qed.


(** ** Lists of visits *)


(** ** Truthiness *)

Lemma truthy_and_then (a b : val) : truthy (and_then a b) = truthy a && truthy b.
Proof. unfold and_then. destruct (truthy a) eqn:E; [reflexivity | exact E]. Qed.


(** ** Numbers *)


Lemma positive_truthy (g : float) : (0 <? g) = true -> truthy_number g = true.
Proof.
  intro Hg. unfold truthy_number. destruct (ltb_not_nan _ _ Hg) as [_ ->].
  unfold is_zero. rewrite eqb_spec.
  destruct (positive_cases g Hg) as [(m & e & G & _) | G]; rewrite G; reflexivity.
Qed.


(** ** Sorting the validated visits *)

Lemma keep_age (v : Visit) : keep v = true -> (0 <? Spec.age v) = true.
Proof.
  unfold keep. rewrite truthy_and_then. intro H.
  apply andb_true_iff in H as [_ H]. cbn [truthy] in H.
  unfold js_gt, js_lt in H. cbn [ToPrimitive] in H. unfold Spec.age.
  destruct (GESTATIONAL_AGE_WEEKS v); exact H.
Qed.

Lemma keep_not_nan (v : Visit) : keep v = true -> is_nan (Spec.age v) = false.
Proof. intro H. apply keep_age in H. apply (ltb_not_nan _ _ H). Qed.

(** On validated visits the comparator is positive exactly when the
    second visit is the earlier one. *)
Lemma comparator_positive (a b : Visit) :
  keep a = true -> keep b = true ->
  (0 <? by_gestational_age a b) = (Spec.age b <? Spec.age a).
Proof.
  intros Ha Hb. unfold by_gestational_age, js_sub.
  apply sub_gt0; apply keep_age; assumption.
Qed.

Lemma insert_sorted_perm {A : Type} (cmp : A -> A -> float) (x : A) (l : list A) :
  Permutation (insert_sorted cmp x l) (x :: l).
Proof.
  induction l as [ | y r IH]; cbn [insert_sorted]; [reflexivity | ].
  destruct (0 <? cmp x y); [ | reflexivity].
  rewrite IH. apply perm_swap.
Qed.

Lemma sort_perm {A : Type} (cmp : A -> A -> float) (l : list A) :
  Permutation (sort cmp l) l.
Proof.
  induction l as [ | x r IH]; cbn [sort fold_right]; [reflexivity | ].
  fold (sort cmp r). rewrite insert_sorted_perm, IH. reflexivity.
Qed.

Lemma sort_validated (vv : list Visit) :
  Spec.validated vv -> Spec.validated (sort by_gestational_age vv).
Proof.
  unfold Spec.validated. intro H.
  eapply Permutation_Forall; [ | exact H]. symmetry. apply sort_perm.
Qed.

Lemma sort_length {A : Type} (cmp : A -> A -> float) (l : list A) :
  List.length (sort cmp l) = List.length l.
Proof. apply Permutation_length, sort_perm. Qed.

Lemma insert_sorted_ascending (x : Visit) (l : list Visit) :
  keep x = true -> Spec.validated l -> Spec.ascending l ->
  Spec.ascending (insert_sorted by_gestational_age x l).
Proof.
  intros Hx Hl Hs. induction Hs as [ | y r Hr IH Hy]; cbn [insert_sorted].
  - repeat constructor.
  - inversion Hl as [ | ? ? Ky Kr]; subst.
    rewrite (comparator_positive x y Hx Ky).
    destruct (Spec.age y <? Spec.age x) eqn:E.
    + constructor; [apply IH; exact Kr | ].
      eapply Permutation_Forall; [symmetry; apply insert_sorted_perm | ].
      constructor; [apply ltb_leb; exact E | exact Hy].
    + assert (Hxy : (Spec.age x <=? Spec.age y) = true).
      { rewrite leb_ltb, E; auto using keep_not_nan. }
      constructor; [constructor; assumption | ].
      constructor; [exact Hxy | ].
      eapply Forall_impl; [ | exact Hy]. cbn beta. intros z Hz.
      eapply leb_trans; eassumption.
Qed.

Lemma sort_ascending (vv : list Visit) :
  Spec.validated vv -> Spec.ascending (sort by_gestational_age vv).
Proof.
  induction 1 as [ | x r Hx Hr IH]; cbn [sort fold_right]; [constructor | ].
  fold (sort by_gestational_age r).
  apply insert_sorted_ascending; [exact Hx | apply sort_validated; exact Hr | exact IH].
Qed.

(** A collection already in ascending order is left as it is. *)
Lemma sort_ascending_fixed (vv : list Visit) :
  Spec.validated vv -> Spec.ascending vv -> sort by_gestational_age vv = vv.
Proof.
  intros Hv Hs. induction Hs as [ | x r Hr IH Hx]; [reflexivity | ].
  inversion Hv as [ | ? ? Kx Kr]; subst.
  cbn [sort fold_right]. fold (sort by_gestational_age r). rewrite (IH Kr).
  destruct r as [ | y r']; [reflexivity | ]. cbn [insert_sorted].
  inversion Kr as [ | ? ? Ky _]; subst. inversion Hx as [ | ? ? Hxy _]; subst.
  rewrite (comparator_positive x y Kx Ky).
  replace (Spec.age y <? Spec.age x) with false; [reflexivity | ].
  symmetry. rewrite leb_ltb in Hxy by auto using keep_not_nan.
  destruct (Spec.age y <? Spec.age x); [discriminate | reflexivity].
Qed.

Lemma sort_idempotent (vv : list Visit) :
  Spec.validated vv ->
  sort by_gestational_age (sort by_gestational_age vv) = sort by_gestational_age vv.
Proof.
  intro H. apply sort_ascending_fixed; [apply sort_validated | apply sort_ascending]; exact H.
Qed.

(** The last visit of an ascending collection has the highest age. *)
Lemma last_visit_ascending (vv : list Visit) (v : Visit) :
  Spec.validated vv -> Spec.ascending vv -> last_visit vv = Return v ->
  In v vv /\ Forall (fun u => (Spec.age u <=? Spec.age v) = true) vv.
Proof.
  intros Hv Hs. unfold last_visit.
  destruct (rev vv) as [ | z r] eqn:E; [discriminate | ].
  intro H. injection H as ->.
  assert (Evv : vv = (rev r ++ [v])%list).
  { rewrite <- (rev_involutive vv), E. reflexivity. }
  subst vv. split; [apply in_or_app; right; left; reflexivity | ].
  clear E. induction (rev r) as [ | a l IH]; cbn [app] in *.
  - repeat constructor. apply leb_refl, keep_not_nan. inversion Hv; assumption.
  - inversion Hv as [ | ? ? Ka Kl]; subst. inversion Hs as [ | ? ? Hl Ha]; subst.
    constructor; [ | apply IH; assumption].
    rewrite Forall_app in Ha. destruct Ha as [_ Ha]. inversion Ha; assumption.
Qed.

Lemma last_visit_sort (vv : list Visit) (v : Visit) :
  Spec.validated vv -> last_visit (sort by_gestational_age vv) = Return v ->
  In v vv /\ Forall (fun u => (Spec.age u <=? Spec.age v) = true) vv.
Proof.
  intros Hv H.
  destruct (last_visit_ascending _ v (sort_validated vv Hv) (sort_ascending vv Hv) H)
    as [Hin Hall].
  split.
  - eapply Permutation_in; [apply sort_perm | exact Hin].
  - eapply Permutation_Forall; [apply sort_perm | exact Hall].
Qed.

Lemma last_visit_nonempty (vv : list Visit) :
  vv <> [] -> exists v, last_visit vv = Return v.
Proof.
  intro H. unfold last_visit. destruct (rev vv) as [ | z r] eqn:E; [ | eauto].
  exfalso. apply H. rewrite <- (rev_involutive vv), E. reflexivity.
Qed.

(** ** What a method leaves unchanged *)

Lemma keeps_this_ret {A : Type} (a : A) : keeps_this (ret a).
Proof. intro s. reflexivity. Qed.

Lemma keeps_this_lift {A : Type} (o : outcome A) : keeps_this (lift o).
Proof. intro s. reflexivity. Qed.

Lemma keeps_this_get_this : keeps_this get_this.
Proof. intro s. reflexivity. Qed.

Lemma keeps_this_random (h : Host) : keeps_this (random h).
Proof. intro s. reflexivity. Qed.

Lemma keeps_this_bind {A B : Type} (c : M A) (k : A -> M B) :
  keeps_this c -> (forall a, keeps_this (k a)) -> keeps_this (bind c k).
Proof.
  intros Hc Hk s. unfold bind. specialize (Hc s).
  destruct (c s) as [[a | e | ] s1]; cbn [snd] in *; [ | exact Hc | exact Hc].
  rewrite (Hk a s1). exact Hc.
Qed.

Lemma keeps_this_if {A : Type} (b : bool) (c1 c2 : M A) :
  keeps_this c1 -> keeps_this c2 -> keeps_this (if b then c1 else c2).
Proof. destruct b; auto. Qed.

Ltac frame :=
  repeat first
    [ apply keeps_this_ret | apply keeps_this_lift | apply keeps_this_get_this
    | apply keeps_this_random
    | apply keeps_this_if
    | apply keeps_this_bind; [ | intro ]
    | progress cbv beta zeta ].

Lemma keeps_this_hasPretermHistory : keeps_this hasPretermHistory.
Proof. unfold hasPretermHistory. frame. Qed.

Lemma keeps_this_calculateRiskScores : keeps_this calculateRiskScores.
Proof.
  unfold calculateRiskScores. frame; try apply keeps_this_hasPretermHistory.
Qed.

Lemma keeps_this_calculateDeliveryModeProbabilities (r : RiskScores) :
  keeps_this (calculateDeliveryModeProbabilities r).
Proof. unfold calculateDeliveryModeProbabilities. frame. Qed.

Lemma keeps_this_calculateTrend (field : string) : keeps_this (calculateTrend field).
Proof. unfold calculateTrend. frame. Qed.

Lemma keeps_this_projectWeek (h : Host) (startWeek : val) (baseVitals : Vitals.t)
    (i : float) (p : Progression.t) :
  keeps_this (projectWeek h startWeek baseVitals i p).
Proof. unfold projectWeek. frame. Qed.

Lemma keeps_this_projectWeeks (h : Host) (fuel : nat) (startWeek : val) (w : float)
    (baseVitals : Vitals.t) :
  forall (i : float) (p : Progression.t),
    keeps_this (projectWeeks h fuel startWeek w baseVitals i p).
Proof.
  induction fuel as [ | fuel IH]; intros i p; cbn [projectWeeks];
    destruct (i <=? w)%float; frame;
    first [apply keeps_this_projectWeek | apply IH].
Qed.

Lemma keeps_this_generateProgressionData (h : Host) (fuel : nat) (startWeek : val)
    (w : float) (baseVitals : Vitals.t) :
  keeps_this (generateProgressionData h fuel startWeek w baseVitals).
Proof. apply keeps_this_projectWeeks. Qed.

Lemma keeps_this_generateProgression (h : Host) (fuel : nat) (currentGA : val) (w : float) :
  keeps_this (generateProgression h fuel currentGA w).
Proof.
  unfold generateProgression. frame;
    auto using keeps_this_calculateTrend, keeps_this_generateProgressionData.
Qed.

Lemma keeps_this_getFallbackPrediction (h : Host) (fuel : nat) (atTerm : bool) :
  keeps_this (getFallbackPrediction h fuel atTerm).
Proof.
  unfold getFallbackPrediction. frame; try apply keeps_this_generateProgressionData.
Qed.

Lemma generatePrediction_this (h : Host) (fuel : nat) (s : State) :
  this (snd (generatePrediction h fuel s)) = sorted_instance (this s).
Proof.
  unfold generatePrediction. rewrite bind_get_this.
  destruct (validatedVisits (this s)) as [ | v vv] eqn:E; cbn [List.length Nat.eqb].
  - rewrite keeps_this_getFallbackPrediction. unfold sorted_instance. rewrite E.
    destruct (this s). cbn in *. subst. reflexivity.
  - set (s1 := {| this := sorted_instance (this s); random_calls := random_calls s |}).
    assert (Hrest : forall (c : M PredictionResult), keeps_this c ->
              this (snd (bind (set_validatedVisits (sort by_gestational_age (v :: vv))) (fun _ => c) s))
              = sorted_instance (this s)).
    { intros c Hc. unfold bind, set_validatedVisits. rewrite Hc. cbn [this].
      unfold sorted_instance. rewrite E. reflexivity. }
    apply Hrest. frame;
      auto using keeps_this_getFallbackPrediction, keeps_this_calculateRiskScores,
        keeps_this_calculateDeliveryModeProbabilities, keeps_this_generateProgression,
        keeps_this_generateProgressionData, keeps_this_calculateTrend.
Qed.

(** ** The scores the scorer can give *)

Lemma in_possible_scores (a b c d e f : float) :
  In a [0; 0.8; 0.4; 0.1] -> In b [0; 0.9; 0.6; 0.1] -> In c [0; 0.7; 0.3; 0.1] ->
  In d [0.6; 0.3; 0.1] -> In e [0.4; 0.1] -> In f [0; 0.5; 0.3; 0.1] ->
  In {| anemia := a; hypertension := b; growthRestriction := c;
        pretermRisk := d; maternalAgeRisk := e; bmiRisk := f |} possible_scores.
Proof.
  intros Ha Hb Hc Hd He Hf. unfold possible_scores.
  apply in_flat_map. exists a. split; [exact Ha | ].
  apply in_flat_map. exists b. split; [exact Hb | ].
  apply in_flat_map. exists c. split; [exact Hc | ].
  apply in_flat_map. exists d. split; [exact Hd | ].
  apply in_flat_map. exists e. split; [exact He | ].
  apply in_map. exact Hf.
Qed.

Ltac pick := cbn [In]; repeat first [left; reflexivity | right].

Ltac cases :=
  repeat match goal with
         | |- context [if ?b then _ else _] => destruct b
         end.

Lemma calculateRiskScores_possible (s s' : State) (scores : RiskScores) :
  calculateRiskScores s = (Return scores, s') -> In scores possible_scores.
Proof.
  unfold calculateRiskScores. intro H.
  apply bind_inv in H as (e & s1 & _ & H).
  apply bind_inv in H as (latest & s2 & _ & H).
  apply bind_inv in H as (ht & s3 & Hht & H).
  apply bind_inv in H as (hist & s4 & _ & H).
  apply bind_inv in H as (age & s5 & _ & H).
  apply bind_inv in H as (bmi & s6 & _ & H).
  unfold ret in H. injection H as <- _.
  assert (Hin : In ht [0; 0.9; 0.6; 0.1]).
  { destruct (truthy (BLOOD_PRESSURE latest)).
    - apply bind_inv in Hht as (bp & s7 & _ & Hht). unfold ret in Hht. injection Hht as <- _.
      cases; pick.
    - unfold ret in Hht. injection Hht as <- _. pick. }
  apply in_possible_scores; try exact Hin; cases; pick.
Qed.

Lemma calculateDeliveryModeProbabilities_mode_of
    (scores : RiskScores) (s s' : State) (mode : DeliveryMode) :
  calculateDeliveryModeProbabilities scores s = (Return mode, s') ->
  exists nulliparous, mode = mode_of scores nulliparous.
Proof.
  unfold calculateDeliveryModeProbabilities. intro H.
  apply bind_inv in H as (e & s1 & _ & H).
  apply bind_inv in H as (parity & s2 & _ & H).
  unfold ret in H. injection H as <- _.
  exists (strict_eq_number parity 0 || strict_eq_string parity "0"). reflexivity.
Qed.

(** ** The three ways through [generatePrediction] *)

Lemma bind_set_validatedVisits {B : Type} (k : unit -> M B) (s : State) :
  bind (set_validatedVisits (sort by_gestational_age (validatedVisits (this s)))) k s
  = k tt (sorted_state s).
Proof. reflexivity. Qed.

Lemma generatePrediction_no_data (h : Host) (fuel : nat) (s : State) :
  validatedVisits (this s) = [] ->
  generatePrediction h fuel s = getFallbackPrediction h fuel false s.
Proof.
  intro E. unfold generatePrediction. rewrite bind_get_this, E. reflexivity.
Qed.

Lemma generatePrediction_some_data (h : Host) (fuel : nat) (s : State) (latest : Visit) :
  validatedVisits (this s) <> [] ->
  latest_of (this s) = Return latest ->
  generatePrediction h fuel s
  = (if weeks_left latest <=? 0 then getFallbackPrediction h fuel true
     else
       riskScores <- calculateRiskScores ;;
       let deliveryType := calculateDeliveryTypeProbabilities riskScores in
       deliveryMode <- calculateDeliveryModeProbabilities riskScores ;;
       expected <- lift (calculateExpectedDelivery riskScores deliveryType) ;;
       progression <-
         generateProgression h fuel (GESTATIONAL_AGE_WEEKS latest) (weeks_left latest) ;;
       let summary := generateSummary riskScores deliveryType deliveryMode in
       e <- get_this ;;
       ret {| deliveryType := deliveryType;
              deliveryMode := deliveryMode;
              progression := Some progression;
              summary := summary;
              expectedGestationalAge := Expected.expectedGestationalAge expected;
              expectedBirthWeight := Expected.expectedBirthWeight expected;
              riskScores := Some riskScores;
              isFallback := None;
              metadata :=
                PipelineMetadata (GESTATIONAL_AGE_WEEKS latest) (weeks_left latest)
                  (List.length (validatedVisits e)) (Date_toISOString h)
                  "rule-based-engine" |}) (sorted_state s).
Proof.
  intros Hne Hlatest. unfold generatePrediction. rewrite bind_get_this.
  destruct (List.length (validatedVisits (this s)) =? 0)%nat eqn:L.
  - apply Nat.eqb_eq in L. destruct (validatedVisits (this s)); [congruence | discriminate].
  - rewrite bind_set_validatedVisits. rewrite bind_get_this.
    change (last_visit (validatedVisits (this (sorted_state s)))) with (latest_of (this s)).
    rewrite Hlatest, bind_lift_Return. reflexivity.
Qed.

(** ** The projection loop *)

Lemma more_random_more (a b : nat) (s : State) :
  more_random a (more_random b s) = more_random (a + b) s.
Proof. unfold more_random. cbn [this random_calls]. f_equal. lia. Qed.

Lemma more_random_0 (s : State) : more_random 0 s = s.
Proof. destruct s. reflexivity. Qed.

Lemma bind_random {B : Type} (h : Host) (k : float -> M B) (s : State) :
  bind (random h) k s = k (Math_random h (random_calls s)) (more_random 1 s).
Proof. reflexivity. Qed.

Lemma rounds_more_fuel (fuel : nat) :
  forall (i w : float) (n k : nat),
    rounds fuel i w = Some n -> rounds (fuel + k) i w = Some n.
Proof.
  induction fuel as [ | fuel IH]; intros i w n k; cbn [rounds Nat.add].
  - destruct (i <=? w) eqn:E; [discriminate | ].
    intro H. destruct k; cbn [rounds]; rewrite E; exact H.
  - destruct (i <=? w); [ | trivial].
    destruct (rounds fuel (i + 1) w) as [m | ] eqn:E; cbn [option_map]; [ | discriminate].
    intro H. rewrite (IH _ _ _ k E). exact H.
Qed.

(** One round with a numeric start week and a numeric base weight: no
    exception, four random numbers used, one point more on each series. *)
Lemma projectWeek_numeric (h : Host) (start weight i : float) (baseVitals : Vitals.t)
    (p : Progression.t) (s : State) :
  Vitals.weight baseVitals = VNum weight ->
  exists p',
    projectWeek h (VNum start) baseVitals i p s = (Return p', more_random 4 s)
    /\ Spec.weeks (Progression.weight p')
       = (Spec.weeks (Progression.weight p) ++ [VNum (start + i)])%list
    /\ Spec.weeks (Progression.fundal p')
       = (Spec.weeks (Progression.fundal p) ++ [VNum (start + i)])%list
    /\ Spec.weeks (Progression.hb p')
       = (Spec.weeks (Progression.hb p) ++ [VNum (start + i)])%list
    /\ Spec.weeks (Progression.systolic p')
       = (Spec.weeks (Progression.systolic p) ++ [VNum (start + i)])%list
    /\ Spec.weeks (Progression.diastolic p')
       = (Spec.weeks (Progression.diastolic p) ++ [VNum (start + i)])%list
    /\ Spec.weeks (Progression.fetal_hr p')
       = (Spec.weeks (Progression.fetal_hr p) ++ [VNum (start + i)])%list.
Proof.
  intro Hw. unfold projectWeek. rewrite Hw.
  change (js_add (VNum weight) (VNum (i * 0.35))) with (VNum (weight + i * 0.35)).
  change (js_add (VNum start) (VNum i)) with (VNum (start + i)).
  cbn [roundValue]. rewrite bind_lift_Return, bind_random.
  change (js_add (VNum (start + i)) (VNum ?x)) with (VNum (start + i + x)).
  cbn [roundValue]. rewrite !bind_lift_Return, !bind_random, !more_random_more.
  cbn [Nat.add]. unfold ret. eexists. split; [reflexivity | ].
  unfold Spec.weeks. cbn [Progression.weight Progression.fundal Progression.hb
    Progression.systolic Progression.diastolic Progression.fetal_hr].
  rewrite !map_app. repeat split; reflexivity.
Qed.

Lemma projectWeeks_numeric (h : Host) (start weight w : float) (baseVitals : Vitals.t)
    (Hw : Vitals.weight baseVitals = VNum weight) (fuel : nat) :
  forall (i : float) (p : Progression.t) (s : State) (n : nat),
    rounds fuel i w = Some n ->
    exists p',
      projectWeeks h fuel (VNum start) w baseVitals i p s = (Return p', more_random (4 * n) s)
      /\ Spec.weeks (Progression.weight p')
         = (Spec.weeks (Progression.weight p) ++ weeks_from start n i)%list
      /\ Spec.weeks (Progression.fundal p')
         = (Spec.weeks (Progression.fundal p) ++ weeks_from start n i)%list
      /\ Spec.weeks (Progression.hb p')
         = (Spec.weeks (Progression.hb p) ++ weeks_from start n i)%list
      /\ Spec.weeks (Progression.systolic p')
         = (Spec.weeks (Progression.systolic p) ++ weeks_from start n i)%list
      /\ Spec.weeks (Progression.diastolic p')
         = (Spec.weeks (Progression.diastolic p) ++ weeks_from start n i)%list
      /\ Spec.weeks (Progression.fetal_hr p')
         = (Spec.weeks (Progression.fetal_hr p) ++ weeks_from start n i)%list.
Proof.
  induction fuel as [ | fuel IH]; intros i p s n; cbn [rounds projectWeeks].
  - destruct (i <=? w); [discriminate | ].
    intro H. injection H as <-. exists p. cbn [weeks_from Nat.mul].
    rewrite more_random_0, !app_nil_r. repeat split; reflexivity.
  - destruct (i <=? w).
    + destruct (rounds fuel (i + 1) w) as [m | ] eqn:E; cbn [option_map]; [ | discriminate].
      intro H. injection H as <-.
      destruct (projectWeek_numeric h start weight i baseVitals p s Hw)
        as (p1 & H1 & A1 & A2 & A3 & A4 & A5 & A6).
      destruct (IH (i + 1) p1 (more_random 4 s) m E)
        as (p2 & H2 & B1 & B2 & B3 & B4 & B5 & B6).
      exists p2. rewrite (bind_Return _ _ _ _ _ H1), H2, more_random_more.
      replace (4 * m + 4)%nat with (4 * S m)%nat by lia.
      cbn [weeks_from].
      rewrite B1, B2, B3, B4, B5, B6, A1, A2, A3, A4, A5, A6, <- !app_assoc.
      repeat split; reflexivity.
    + intro H. injection H as <-. exists p. cbn [weeks_from Nat.mul].
      rewrite more_random_0, !app_nil_r. repeat split; reflexivity.
Qed.

(** ** Enough fuel *)

Lemma rounds_out_of_fuel (fuel : nat) :
  forall (i w : float),
    rounds fuel i w = None -> (counter_after fuel i <=? w) = true.
Proof.
  induction fuel as [ | fuel IH]; intros i w; cbn [rounds counter_after].
  - destruct (i <=? w); [reflexivity | discriminate].
  - destruct (i <=? w); [ | discriminate].
    destruct (rounds fuel (i + 1) w) eqn:E; cbn [option_map]; [discriminate | ].
    intros _. apply IH. exact E.
Qed.

(** Below 128 weeks the loop is over within 127 rounds. *)
Lemma rounds_below_128 (fuel : nat) (w : float) :
  (127 <= fuel)%nat -> (w <? 128) = true -> exists n, rounds fuel 1 w = Some n.
Proof.
  intros Hfuel Hw.
  destruct (rounds 127 1 w) as [n | ] eqn:E.
  - exists n. replace fuel with (127 + (fuel - 127))%nat by lia.
    apply rounds_more_fuel. exact E.
  - exfalso. apply rounds_out_of_fuel in E.
    assert (C : counter_after 127 1 = 128) by (vm_compute; reflexivity).
    rewrite C in E. destruct (ltb_not_nan _ _ Hw) as [Nw _].
    rewrite leb_ltb, Hw in E by (reflexivity || exact Nw). discriminate.
Qed.

Lemma weeks_left_bounded (v : Visit) :
  keep v = true -> (Spec.age v <? 40) = true ->
  weeks_left v = 40 - Spec.age v /\ (weeks_left v <? 128) = true.
Proof.
  intros Hk Hlt. pose proof (keep_age v Hk) as Hpos.
  assert (Hd : (0 <? 40 - Spec.age v) = true).
  { rewrite sub_gt0 by (reflexivity || exact Hpos). exact Hlt. }
  assert (E : weeks_left v = 40 - Spec.age v).
  { unfold weeks_left, js_sub, Math_max.
    change (ToNumber (VNum 40)) with 40%float. fold (Spec.age v).
    destruct (ltb_not_nan _ _ Hd) as [_ ->]. change (is_nan 0) with false.
    cbn [orb]. rewrite Hd. reflexivity. }
  split; [exact E | ]. rewrite E. apply weeks_to_term_bounded; assumption.
Qed.

(** ** Methods that return *)

Lemma parseBloodPressure_returns (v : val) : exists bp, parseBloodPressure v = Return bp.
Proof.
  unfold parseBloodPressure.
  destruct (truthy v); cbn [negb]; [ | eauto].
  destruct v; cbn [split obind try_catch]; eauto.
Qed.

Lemma get_documented (patient : val) (k : string) :
  Spec.documented patient = true -> exists v, get patient k = Return v.
Proof. destruct patient; cbn; try discriminate; eauto. Qed.

Lemma hasPretermHistory_returns (s : State) :
  Spec.documented (patient (this s)) = true ->
  exists v, hasPretermHistory s = (Return v, s).
Proof.
  intro Hd. unfold hasPretermHistory. rewrite bind_get_this.
  destruct (get_documented _ "PARITY" Hd) as [parity Hp]. rewrite Hp, bind_lift_Return.
  destruct (js_gt parity (VNum 0) || strict_eq_string parity "1"); [ | eexists; reflexivity].
  destruct (patient (this s)) as [ | | b | x | t | l | props]; try discriminate;
    cbn [get]; rewrite bind_lift_Return; try (eexists; reflexivity).
  cbn [Spec.documented] in Hd.
  destruct (lookup "MEDICAL_HISTORY" props); try discriminate; eexists; reflexivity.
Qed.

Lemma calculateRiskScores_returns (s : State) :
  validatedVisits (this s) <> [] -> Spec.documented (patient (this s)) = true ->
  exists scores, calculateRiskScores s = (Return scores, s).
Proof.
  intros Hne Hd. unfold calculateRiskScores. rewrite bind_get_this.
  destruct (last_visit_nonempty _ Hne) as [latest ->]. rewrite bind_lift_Return.
  cbv zeta.
  assert (Hbp : exists x, (if truthy (BLOOD_PRESSURE latest)
                           then bp <- lift (parseBloodPressure (BLOOD_PRESSURE latest)) ;;
                                ret (if (140 <=? BP.systolic bp) || (90 <=? BP.diastolic bp)
                                     then 0.9
                                     else if (130 <=? BP.systolic bp) || (85 <=? BP.diastolic bp)
                                          then 0.6 else 0.1)
                           else ret 0) s = (Return x, s)).
  { destruct (truthy (BLOOD_PRESSURE latest)); [ | eexists; reflexivity].
    destruct (parseBloodPressure_returns (BLOOD_PRESSURE latest)) as [bp ->].
    rewrite bind_lift_Return. eexists. reflexivity. }
  destruct Hbp as [ht Hht]. rewrite (bind_Return _ _ _ _ _ Hht).
  assert (Hh : exists x, (if js_lt (GESTATIONAL_AGE_WEEKS latest) (VNum 37)
                          then hasPretermHistory else ret (VBool false)) s = (Return x, s)).
  { destruct (js_lt (GESTATIONAL_AGE_WEEKS latest) (VNum 37)); [ | eexists; reflexivity].
    apply hasPretermHistory_returns, Hd. }
  destruct Hh as [hist Hhist]. rewrite (bind_Return _ _ _ _ _ Hhist).
  destruct (get_documented _ "AGE" Hd) as [age ->]. rewrite bind_lift_Return.
  destruct (get_documented _ "BMI_VALUE" Hd) as [bmi ->]. rewrite bind_lift_Return.
  eexists. reflexivity.
Qed.

Lemma calculateDeliveryModeProbabilities_returns (scores : RiskScores) (s : State) :
  Spec.documented (patient (this s)) = true ->
  exists mode, calculateDeliveryModeProbabilities scores s = (Return mode, s).
Proof.
  intro Hd. unfold calculateDeliveryModeProbabilities. rewrite bind_get_this.
  destruct (get_documented _ "PARITY" Hd) as [parity ->]. rewrite bind_lift_Return.
  eexists. reflexivity.
Qed.

Lemma calculateExpectedDelivery_returns (scores : RiskScores) (d : DeliveryType) :
  exists expected, calculateExpectedDelivery scores d = Return expected.
Proof. unfold calculateExpectedDelivery. cbn [roundValue obind]. eexists. reflexivity. Qed.

Lemma calculateTrend_returns (field : string) (s : State) :
  exists t, calculateTrend field s = (Return t, s).
Proof.
  unfold calculateTrend. rewrite bind_get_this.
  pose proof (sort_length by_gestational_age (validatedVisits (this s))) as Hlen.
  destruct (List.length (validatedVisits (this s)) <? 2)%nat eqn:E; [eexists; reflexivity | ].
  apply Nat.ltb_ge in E.
  destruct (sort by_gestational_age (validatedVisits (this s))) as [ | a r] eqn:Es;
    cbn [List.length] in Hlen; [exfalso; lia | ].
  destruct (last_visit_nonempty (a :: r) ltac:(discriminate)) as [z Hz].
  cbn [first_visit]. rewrite bind_lift_Return, Hz, bind_lift_Return.
  destruct (negb (truthy (visit_field a field)) || negb (truthy (visit_field z field)));
    eexists; reflexivity.
Qed.

Lemma base_weight_numeric (v : Visit) :
  Spec.measured v = true -> exists w, or_else (MATERNAL_WEIGHT v) (VNum 60) = VNum w.
Proof.
  unfold Spec.measured, or_else.
  destruct (GESTATIONAL_AGE_WEEKS v); try discriminate.
  destruct (MATERNAL_WEIGHT v) as [ | | b | y | t | l | props];
    cbn [Spec.number_or_absent]; intro H.
  - eexists; reflexivity.
  - eexists; reflexivity.
  - apply negb_true_iff in H. rewrite H. eexists; reflexivity.
  - destruct (truthy (VNum y)); eexists; reflexivity.
  - apply negb_true_iff in H. rewrite H. eexists; reflexivity.
  - discriminate.
  - discriminate.
Qed.

Lemma generateProgression_returns (h : Host) (fuel : nat) (g w : float) (s : State)
    (latest : Visit) (n : nat) :
  last_visit (validatedVisits (this s)) = Return latest ->
  Spec.measured latest = true ->
  rounds fuel 1 w = Some n ->
  exists p, generateProgression h fuel (VNum g) w s = (Return p, more_random (4 * n) s).
Proof.
  intros Hl Hm Hr. unfold generateProgression. rewrite bind_get_this, Hl, bind_lift_Return.
  destruct (parseBloodPressure_returns (BLOOD_PRESSURE latest)) as [bp ->].
  rewrite bind_lift_Return. cbv zeta.
  destruct (calculateTrend_returns "MATERNAL_WEIGHT" s) as [wt Hwt].
  rewrite (bind_Return _ _ _ _ _ Hwt).
  destruct (calculateTrend_returns "HEMOGLOBIN_LEVEL" s) as [ht Hht].
  rewrite (bind_Return _ _ _ _ _ Hht).
  destruct (base_weight_numeric latest Hm) as [weight Hweight].
  unfold generateProgressionData.
  match goal with
  | |- context [projectWeeks h fuel (VNum g) w ?base 1 no_series] =>
      destruct (projectWeeks_numeric h g weight w base Hweight fuel 1 no_series s n Hr)
        as (p & Hp & _)
  end.
  rewrite (bind_Return _ _ _ _ _ Hp). eexists. reflexivity.
Qed.

(** ** What the constructor builds *)

Lemma validateVisits_validated (visits : val) (vv : list Visit) :
  validateVisits visits = Return vv -> Spec.validated vv.
Proof.
  unfold validateVisits.
  destruct (negb (truthy visits) || negb (is_array visits)).
  - intro H. injection H as <-. constructor.
  - destruct visits; try (intro H; injection H as <-; constructor).
    destruct (map_outcome normalize elems) as [mapped | e | ]; cbn [obind];
      try discriminate.
    intro H. injection H as <-. unfold Spec.validated.
    apply Forall_forall. intros v Hv. apply filter_In in Hv. apply Hv.
Qed.

Lemma new_validated (visits patient : val) (e : PredictionEngine) :
  new visits patient = Return e -> Spec.validated (validatedVisits e).
Proof.
  unfold new.
  destruct (validateVisits (or_else visits (VArr []))) as [vv | err | ] eqn:E;
    cbn [obind]; try discriminate.
  intro H. injection H as <-. cbn [validatedVisits].
  eapply validateVisits_validated. exact E.
Qed.

(** ** The ways through [generatePrediction] return *)

Lemma getFallbackPrediction_at_term (h : Host) (fuel : nat) (s : State) :
  getFallbackPrediction h fuel true s = (Return (Spec.fallback_result h None), s).
Proof. reflexivity. Qed.

Lemma getFallbackPrediction_no_data (h : Host) (fuel : nat) (s : State) :
  (28 <= fuel)%nat ->
  exists p,
    getFallbackPrediction h fuel false s
    = (Return (Spec.fallback_result h (Some p)), more_random 112 s)
    /\ Spec.projected_over p (Spec.whole_weeks 13 28).
Proof.
  intro Hfuel. unfold getFallbackPrediction, generateProgressionData.
  assert (Hr : rounds fuel 1 (40 - 12) = Some 28%nat).
  { replace fuel with (28 + (fuel - 28))%nat by lia. apply rounds_more_fuel.
    vm_compute. reflexivity. }
  set (base := {| Vitals.weight := VNum 60; Vitals.fundal := VNum 12;
                  Vitals.hb := VNum 11.5; Vitals.fhr := VNum 145;
                  Vitals.bp := {| BP.systolic := 115; BP.diastolic := 70 |} |}).
  destruct (projectWeeks_numeric h 12 60 (40 - 12) base eq_refl fuel 1 no_series s 28 Hr)
    as (p & H & A1 & A2 & A3 & A4 & A5 & A6).
  exists p. rewrite bind_assoc, (bind_Return _ _ _ _ _ H). split; [reflexivity | ].
  assert (Hweeks : weeks_from 12 28 1 = Spec.whole_weeks 13 28) by (vm_compute; reflexivity).
  unfold Spec.projected_over. rewrite A1, A2, A3, A4, A5, A6, Hweeks.
  repeat split; reflexivity.
Qed.

Lemma latest_of_validated (e : PredictionEngine) :
  Spec.validated (validatedVisits e) -> validatedVisits e <> [] ->
  exists latest,
    latest_of e = Return latest /\ In latest (validatedVisits e)
    /\ Forall (fun u => (Spec.age u <=? Spec.age latest) = true) (validatedVisits e).
Proof.
  intros Hv Hne. unfold latest_of.
  destruct (last_visit_nonempty (sort by_gestational_age (validatedVisits e))) as [v Hl].
  - intro E. apply Hne. apply length_zero_iff_nil.
    rewrite <- (sort_length by_gestational_age), E. reflexivity.
  - exists v. split; [exact Hl | ]. apply last_visit_sort; assumption.
Qed.

Lemma weeks_left_at_term (v : Visit) :
  keep v = true -> (weeks_left v <=? 0) = (40 <=? Spec.age v).
Proof.
  intro H. unfold weeks_left, js_sub. apply at_term_test, keep_age, H.
Qed.

(** Short of week 40, with a latest visit and a patient of the expected
    types, the full pipeline returns its result. *)
Lemma generatePrediction_pipeline_returns (h : Host) (fuel : nat) (s : State)
    (latest : Visit) :
  (127 <= fuel)%nat ->
  validatedVisits (this s) <> [] ->
  latest_of (this s) = Return latest ->
  keep latest = true ->
  (Spec.age latest <? 40) = true ->
  Spec.measured latest = true ->
  Spec.documented (patient (this s)) = true ->
  exists r n,
    generatePrediction h fuel s = (Return r, more_random (4 * n) (sorted_state s))
    /\ Spec.pipeline_result r.
Proof.
  intros Hfuel Hne Hl Hk Hlt Hms Hd.
  rewrite (generatePrediction_some_data h fuel s latest Hne Hl).
  rewrite (weeks_left_at_term latest Hk).
  rewrite leb_ltb, Hlt by (reflexivity || apply keep_not_nan, Hk).
  cbn [negb].
  destruct (weeks_left_bounded latest Hk Hlt) as [_ Hw].
  destruct (rounds_below_128 fuel (weeks_left latest) Hfuel Hw) as [n Hn].
  set (s1 := sorted_state s).
  assert (Hl1 : last_visit (validatedVisits (this s1)) = Return latest) by exact Hl.
  assert (Hne1 : validatedVisits (this s1) <> []).
  { intro E. rewrite E in Hl1. discriminate. }
  assert (Hd1 : Spec.documented (patient (this s1)) = true) by exact Hd.
  destruct (calculateRiskScores_returns s1 Hne1 Hd1) as [scores H1].
  rewrite (bind_Return _ _ _ _ _ H1). cbv zeta.
  destruct (calculateDeliveryModeProbabilities_returns scores s1 Hd1) as [mode H2].
  rewrite (bind_Return _ _ _ _ _ H2).
  destruct (calculateExpectedDelivery_returns scores (calculateDeliveryTypeProbabilities scores))
    as [expected ->].
  rewrite bind_lift_Return.
  assert (Hg : exists g, GESTATIONAL_AGE_WEEKS latest = VNum g).
  { unfold Spec.measured in Hms. destruct (GESTATIONAL_AGE_WEEKS latest); try discriminate.
    eauto. }
  destruct Hg as [g Hg]. rewrite Hg.
  destruct (generateProgression_returns h fuel g (weeks_left latest) s1 latest n Hl1 Hms Hn)
    as [p H3].
  rewrite (bind_Return _ _ _ _ _ H3), bind_get_this.
  eexists. exists n. split; [reflexivity | ].
  unfold Spec.pipeline_result. cbn [isFallback riskScores deliveryType progression metadata].
  repeat split; eauto 6.
Qed.

(** With visits and a patient of the expected types, and fuel for 127
    rounds of the projection, [generatePrediction] returns a result. *)
Lemma generatePrediction_returns (h : Host) (fuel : nat) (s : State) :
  (127 <= fuel)%nat ->
  Spec.validated (validatedVisits (this s)) ->
  Forall (fun v => Spec.measured v = true) (validatedVisits (this s)) ->
  Spec.documented (patient (this s)) = true ->
  exists r s', generatePrediction h fuel s = (Return r, s').
Proof.
  intros Hfuel Hv Hms Hd.
  destruct (validatedVisits (this s)) as [ | v0 vv] eqn:E.
  - rewrite (generatePrediction_no_data h fuel s E).
    destruct (getFallbackPrediction_no_data h fuel s ltac:(lia)) as (p & -> & _). eauto.
  - rewrite <- E in Hv, Hms.
    assert (Hne : validatedVisits (this s) <> []) by (rewrite E; discriminate).
    destruct (latest_of_validated (this s) Hv Hne) as (latest & Hl & Hin & _).
    assert (Hk : keep latest = true).
    { unfold Spec.validated in Hv. rewrite Forall_forall in Hv. apply Hv, Hin. }
    rewrite Forall_forall in Hms. specialize (Hms latest Hin).
    destruct (Spec.age latest <? 40) eqn:Hlt.
    + destruct (generatePrediction_pipeline_returns h fuel s latest
                  Hfuel Hne Hl Hk Hlt Hms Hd) as (r & n & -> & _). eauto.
    + rewrite (generatePrediction_some_data h fuel s latest Hne Hl).
      rewrite (weeks_left_at_term latest Hk).
      rewrite leb_ltb, Hlt by (reflexivity || apply keep_not_nan, Hk).
      cbn [negb]. rewrite getFallbackPrediction_at_term. eauto.
Qed.

(** ** Exceptions that reach the caller *)

(** C1 fails on the code. A visit at week 20 and a patient with parity 1
    whose MEDICAL_HISTORY is the number 5: the optional chain of
    [hasPretermHistory] guards a missing history only, [toLowerCase] is
    called on a number, and the [TypeError] leaves [generatePrediction],
    whatever the host and the fuel. *)
Theorem generatePrediction_throws_on_numeric_history (h : Host) (fuel : nat) :
  predict h fuel
    (VArr [VObj [("GESTATIONAL_AGE_WEEKS", VNum 20)]])
    (VObj [("PARITY", VNum 1); ("MEDICAL_HISTORY", VNum 5)])
  = Throw (TypeError "toLowerCase is not a function").
Proof. vm_compute. reflexivity. Qed.

(** Two more inputs with a field of the wrong type: a gestational age and
    a maternal weight sent as strings pass the normalizer, the projection
    concatenates instead of adding, and [toFixed] is called on a string. *)
Lemma generatePrediction_throws_on_string_age (h : Host) (fuel : nat) :
  predict h (S fuel) (VArr [VObj [("GESTATIONAL_AGE_WEEKS", VStr "20")]]) (VObj [])
  = Throw (TypeError "toFixed is not a function").
Proof. vm_compute. reflexivity. Qed.

Lemma generatePrediction_throws_on_string_weight (h : Host) (fuel : nat) :
  predict h (S fuel)
    (VArr [VObj [("GESTATIONAL_AGE_WEEKS", VNum 20); ("MATERNAL_WEIGHT", VStr "65")]])
    (VObj [])
  = Throw (TypeError "toFixed is not a function").
Proof. vm_compute. reflexivity. Qed.

(** With visits and a patient of the expected types the engine does
    return: the exceptions above need a field of another type. *)
Lemma predict_returns (h : Host) (fuel : nat) (visits patient : val) (e : PredictionEngine) :
  (127 <= fuel)%nat ->
  new visits patient = Return e ->
  Forall (fun v => Spec.measured v = true) (validatedVisits e) ->
  Spec.documented (Engine.patient e) = true ->
  exists r, predict h fuel visits patient = Return r.
Proof.
  intros Hfuel Hnew Hms Hd. unfold predict. rewrite Hnew. cbn [obind].
  destruct (generatePrediction_returns h fuel (initial e) Hfuel
              (new_validated _ _ _ Hnew) Hms Hd) as (r & s' & ->).
  exists r. reflexivity.
Qed.

(** ** The fallback policy *)

(** C2 fails on the code, by the defect of C1. A single visit at week 30
    passes the normalizer and is short of week 40, so neither case of the
    fallback applies and the claim has a result of the full pipeline
    returned. For a patient who has given birth twice and whose
    MEDICAL_HISTORY is a list of notes no result is returned at all, with
    or without the isFallback flag: [hasPretermHistory] calls
    [toLowerCase] on the list, and the [TypeError] leaves
    [generatePrediction], whatever the host and the fuel. *)
Theorem generatePrediction_throws_short_of_term (h : Host) (fuel : nat) :
  exists e,
    new visits_week_30 patient_with_notes = Return e
    /\ validatedVisits e = [visit_at 30]
    /\ (Spec.age (visit_at 30) <? 40) = true
    /\ generatePrediction h fuel (initial e)
       = (Throw (TypeError "toLowerCase is not a function"), sorted_state (initial e)).
Proof.
  eexists. split; [reflexivity | ].
  split; [reflexivity | ]. split; [reflexivity | ].
  vm_compute. reflexivity.
Qed.

(** ** The two distributions *)





(** ** The worked example of the risk scorer *)



(** ** The primary risk of the summary *)

Lemma fold_larger_last_maximal (rest : list (string * float)) :
  forall (done : list (string * float)) (e : string * float),
    Spec.last_maximal done e ->
    Spec.numeric (done ++ rest) ->
    Spec.last_maximal (done ++ rest) (fold_left larger rest e).
Proof.
  induction rest as [ | b rest IH]; intros done e Hmax Hnum; cbn [fold_left].
  - rewrite app_nil_r. exact Hmax.
  - replace (done ++ b :: rest)%list with ((done ++ [b]) ++ rest)%list in *
      by (rewrite <- app_assoc; reflexivity).
    apply IH; [ | exact Hnum].
    destruct Hmax as (before & after & Hdone & Hbefore & Hafter).
    assert (Hb : is_nan (snd b) = false).
    { unfold Spec.numeric in Hnum. rewrite !Forall_app in Hnum.
      destruct Hnum as [[_ Hb] _]. inversion Hb. assumption. }
    assert (He : is_nan (snd e) = false).
    { unfold Spec.numeric in Hnum. rewrite Hdone, !Forall_app in Hnum.
      destruct Hnum as [[[_ He] _] _]. inversion He. assumption. }
    unfold larger. destruct (snd b <? snd e) eqn:E.
    + exists before, (after ++ [b])%list. repeat split.
      * rewrite Hdone, <- app_assoc. reflexivity.
      * exact Hbefore.
      * apply Forall_app. split; [exact Hafter | ]. repeat constructor. exact E.
    + assert (Heb : (snd e <=? snd b) = true) by (rewrite leb_ltb, E; auto).
      exists done, []. repeat split; [ | constructor].
      rewrite Hdone. apply Forall_app. split; [ | constructor].
      * eapply Forall_impl; [ | exact Hbefore]. cbn beta. intros x Hx.
        eapply leb_trans; eassumption.
      * exact Heb.
      * eapply Forall_impl; [ | exact Hafter]. cbn beta. intros x Hx.
        eapply leb_trans; [apply ltb_leb; exact Hx | exact Heb].
Qed.

(** C5, as the code has it. Whenever the six scores are numbers, the
    summary generator selects as the primary risk the last maximal score
    in the encounter order anemia, hypertension, growthRestriction,
    pretermRisk, maternalAgeRisk, bmiRisk: no score is larger, and every
    later score is strictly smaller. *)
Theorem primaryRisk_is_last_maximal (riskScores : RiskScores) :
  Spec.numeric (entries riskScores) ->
  Spec.last_maximal (entries riskScores) (primaryEntry riskScores)
  /\ primaryRisk riskScores = fst (primaryEntry riskScores).
Proof.
  intro H. split; [ | reflexivity].
  unfold primaryEntry. cbn [entries].
  apply (fold_larger_last_maximal _ [("anemia", anemia riskScores)]).
  - exists [], []. repeat split; [constructor | constructor].
  - exact H.
Qed.

(** The theorem applies to the tied scores, and names pretermRisk. *)
Lemma primaryRisk_is_last_maximal_witness :
  Spec.last_maximal (entries tied_scores) (primaryEntry tied_scores)
  /\ primaryRisk tied_scores = "pretermRisk".
Proof.
  destruct (primaryRisk_is_last_maximal tied_scores) as [H1 H2].
  - repeat constructor.
  - split; [exact H1 | reflexivity].
Defined.

(** C5 as the claim words it fails: on the tied scores the generator names
    pretermRisk, the later of the two maximal scores, and the summary reads
    "Moderate preterm delivery risk". *)
Lemma primaryRisk_is_not_first_maximal :
  ~ (forall riskScores,
       Spec.numeric (entries riskScores) ->
       Spec.first_maximal (entries riskScores) (primaryEntry riskScores)).
Proof.
  intro H. specialize (H tied_scores ltac:(repeat constructor)).
  destruct H as (before & after & Heq & Hbefore & _).
  change (primaryEntry tied_scores) with ("pretermRisk", 0.6) in *.
  cbn [entries tied_scores anemia hypertension growthRestriction pretermRisk
       maternalAgeRisk bmiRisk] in Heq.
  do 7 try (destruct before as [ | ? before];
            [try discriminate Heq | injection Heq as <- Heq]);
    try discriminate Heq;
    repeat match goal with
           | F : Forall _ (_ :: _) |- _ => inversion F; clear F; subst
           end;
    cbn in *; try discriminate.
Qed.

(** ** The blood-pressure parser *)

Lemma split_on_no_char (c : ascii) (s : string) :
  Spec.has_char c s = false -> split_on c s = [s].
Proof.
  induction s as [ | d r IH]; cbn [Spec.has_char split_on]; [reflexivity | ].
  intro H. apply orb_false_iff in H as [H1 H2].
  rewrite H1, (IH H2). reflexivity.
Qed.

Lemma split_on_app (c : ascii) (a b : string) :
  Spec.has_char c a = false ->
  split_on c (a ++ String c b) = a :: split_on c b.
Proof.
  induction a as [ | d r IH]; cbn [Spec.has_char split_on String.append].
  - intros _. rewrite Ascii.eqb_refl. reflexivity.
  - intro H. apply orb_false_iff in H as [H1 H2].
    rewrite H1, (IH H2). reflexivity.
Qed.

Lemma truthy_append_slash (a b : string) : truthy (VStr (a ++ "/" ++ b)) = true.
Proof. destruct a; reflexivity. Qed.

(** C6, as the code has it. The parser maps "120/80" to {120, 80}; an
    absent, empty or unparsable input to {115, 70}; takes each component
    of "a/b" on its own, keeping it when it parses to a number other than
    zero and falling back to 115 or 70 when it is unparsable or zero; reads
    a text without a slash as the systolic component alone; and returns
    for every input of any type. *)
Theorem parseBloodPressure_per_component :
  parseBloodPressure (VStr "120/80") = Return {| BP.systolic := 120; BP.diastolic := 80 |}
  /\ (forall v, truthy v = false -> parseBloodPressure v = Return Spec.fallback_pressure)
  /\ parseBloodPressure (VStr "abc") = Return Spec.fallback_pressure
  /\ (forall a b,
        Spec.has_char "/" a = false -> Spec.has_char "/" b = false ->
        parseBloodPressure (VStr (a ++ "/" ++ b))
        = Return {| BP.systolic := Spec.number_or (StringToNumber a) 115;
                    BP.diastolic := Spec.number_or (StringToNumber b) 70 |})
  /\ (forall a,
        Spec.has_char "/" a = false -> a <> "" ->
        parseBloodPressure (VStr a)
        = Return {| BP.systolic := Spec.number_or (StringToNumber a) 115;
                    BP.diastolic := 70 |})
  /\ (forall v, exists bp, parseBloodPressure v = Return bp).
Proof.
  split; [ | split; [ | split; [ | split; [ | split]]]].
  - vm_compute. reflexivity.
  - intros v H. unfold parseBloodPressure. rewrite H. reflexivity.
  - vm_compute. reflexivity.
  - intros a b Ha Hb. unfold parseBloodPressure.
    rewrite truthy_append_slash. cbn [negb split obind try_catch].
    change ("/" ++ b)%string with (String "/" b).
    rewrite (split_on_app "/" a b Ha), (split_on_no_char "/" b Hb).
    reflexivity.
  - intros a Ha Hne. unfold parseBloodPressure.
    replace (truthy (VStr a)) with true by (destruct a; [congruence | reflexivity]).
    cbn [negb split obind try_catch]. rewrite (split_on_no_char "/" a Ha).
    reflexivity.
  - intro v. unfold parseBloodPressure.
    destruct (truthy v); cbn [negb]; [ | eauto].
    destruct v; cbn [split obind try_catch]; eauto.
Qed.

(** The two general cases apply: a text with an unparsable half and a text
    without a slash. *)
Lemma parseBloodPressure_per_component_witness :
  parseBloodPressure (VStr ("abc" ++ "/" ++ "80"))
  = Return {| BP.systolic := Spec.number_or (StringToNumber "abc") 115;
              BP.diastolic := Spec.number_or (StringToNumber "80") 70 |}
  /\ parseBloodPressure (VStr "120")
     = Return {| BP.systolic := Spec.number_or (StringToNumber "120") 115;
                 BP.diastolic := 70 |}
  /\ parseBloodPressure VUndefined = Return Spec.fallback_pressure.
Proof.
  destruct parseBloodPressure_per_component as (_ & H2 & _ & H4 & H5 & _).
  split; [ | split].
  - apply H4; reflexivity.
  - apply H5; [reflexivity | discriminate].
  - apply H2. reflexivity.
Defined.

(** C6 as the claim words it fails: a denominator that parses, to zero, is
    not kept. "abc/0" gives {115, 70} although "0" converts to the number
    0. *)
Lemma parsable_zero_denominator_not_kept :
  ~ (forall a b,
       Spec.has_char "/" a = false -> Spec.has_char "/" b = false ->
       is_nan (StringToNumber a) = true -> is_nan (StringToNumber b) = false ->
       parseBloodPressure (VStr (a ++ "/" ++ b))
       = Return {| BP.systolic := 115; BP.diastolic := StringToNumber b |}).
Proof.
  intro H.
  specialize (H "abc" "0" eq_refl eq_refl eq_refl eq_refl).
  apply (f_equal (fun o => match o with
                           | Return bp => is_zero (BP.diastolic bp)
                           | _ => false
                           end)) in H.
  vm_compute in H. discriminate.
Qed.

(** ** The visit normalizer *)

Lemma get_property (v : val) (k : string) :
  is_nullish v = false -> get v k = Return (Spec.property v k).
Proof. destruct v; cbn; intro H; try discriminate; reflexivity. Qed.

Lemma normalize_reduced (v : val) :
  is_nullish v = false -> normalize v = Return (Spec.reduced v).
Proof.
  intro H. unfold normalize. rewrite !(get_property v _ H). reflexivity.
Qed.

(** Against a Number, [>] compares Numbers. *)
Lemma js_gt_number (v : val) (x : float) :
  js_gt v (VNum x) = (x <? ToNumber v).
Proof.
  unfold js_gt, js_lt. cbn [ToPrimitive].
  destruct v; try reflexivity; cbn [ToPrimitive]; reflexivity.
Qed.

Lemma js_lt_number (v : val) (x : float) :
  js_lt v (VNum x) = (ToNumber v <? x).
Proof.
  unfold js_lt. destruct v; try reflexivity; cbn [ToPrimitive]; reflexivity.
Qed.

Lemma keep_reduced (v : val) : keep (Spec.reduced v) = Spec.positive_age v.
Proof.
  unfold keep, Spec.positive_age, Spec.reduced, Spec.present_or_null.
  cbn [GESTATIONAL_AGE_WEEKS]. rewrite truthy_and_then.
  destruct (truthy (Spec.property v "GESTATIONAL_AGE_WEEKS")) eqn:E.
  - rewrite E. cbn [andb truthy]. apply js_gt_number.
  - reflexivity.
Qed.

Lemma map_outcome_normalize (elems : list val) :
  Forall (fun v => is_nullish v = false) elems ->
  map_outcome normalize elems = Return (map Spec.reduced elems).
Proof.
  induction 1 as [ | v r Hv _ IH]; cbn [map_outcome map]; [reflexivity | ].
  rewrite (normalize_reduced v Hv). cbn [obind]. rewrite IH. reflexivity.
Qed.

Lemma filter_keep_reduced (elems : list val) :
  filter keep (map Spec.reduced elems) = map Spec.reduced (filter Spec.positive_age elems).
Proof.
  induction elems as [ | v r IH]; cbn [map filter]; [reflexivity | ].
  rewrite keep_reduced, IH. destruct (Spec.positive_age v); reflexivity.
Qed.

(** C7, as the code has it. For every array whose elements are not [null]
    or [undefined] and have a gestational age that can be converted to a
    primitive, the normalizer returns exactly the elements whose
    gestational age is present and strictly positive (a missing, zero or
    negative age discards the element), each reduced to the eight
    recognised fields with an absent or falsy field replaced by [null], in
    the order of the input, and does not throw; a value that is not an
    array gives the empty sequence. The two conditions are the two ways
    the code throws: reading a field off [null] or [undefined], and
    comparing with zero an age that is an object with a [toString]
    property of its own. *)
Theorem validateVisits_keeps_positive_ages :
  (forall elems,
      Forall (fun v => is_nullish v = false) elems ->
      Forall (fun v => Spec.convertible_age v = true) elems ->
      validateVisits (VArr elems)
      = Return (map Spec.reduced (filter Spec.positive_age elems)))
  /\ (forall v, is_array v = false -> validateVisits v = Return [])
  /\ (forall v, Spec.property v "GESTATIONAL_AGE_WEEKS" = VUndefined ->
                Spec.positive_age v = false)
  /\ (forall v x, Spec.property v "GESTATIONAL_AGE_WEEKS" = VNum x ->
                  (x <=? 0) = true -> Spec.positive_age v = false).
Proof.
  split; [ | split; [ | split]].
  - intros elems H _. unfold validateVisits. cbn [truthy is_array negb orb].
    rewrite (map_outcome_normalize elems H). cbn [obind].
    rewrite filter_keep_reduced. reflexivity.
  - intros v H. unfold validateVisits. rewrite H, orb_true_r. reflexivity.
  - intros v H. unfold Spec.positive_age. rewrite H. reflexivity.
  - intros v x H Hx. unfold Spec.positive_age. rewrite H. cbn [ToNumber ToPrimitive].
    apply andb_false_iff. right.
    rewrite leb_spec in Hx. rewrite ltb_spec. unfold SFleb in Hx. unfold SFltb.
    rewrite (SFcompare_antisym (Prim2SF x) (Prim2SF 0)).
    destruct (SFcompare (Prim2SF x) (Prim2SF 0)) as [[ | | ] | ]; cbn; congruence.
Qed.

(** The theorem applies: of a visit at week 20, a visit without an age, a
    number and a visit at week -3, the first alone is kept. *)
Lemma validateVisits_keeps_positive_ages_witness :
  validateVisits
    (VArr [VObj [("GESTATIONAL_AGE_WEEKS", VNum 20); ("NOTE", VStr "x")];
           VObj [("MATERNAL_WEIGHT", VNum 60)];
           VNum 7;
           VObj [("GESTATIONAL_AGE_WEEKS", VNum (-3))]])
  = Return [{| GESTATIONAL_AGE_WEEKS := VNum 20; MATERNAL_WEIGHT := VNull;
               FUNDAL_HEIGHT := VNull; HEMOGLOBIN_LEVEL := VNull;
               BLOOD_PRESSURE := VNull; FETAL_HEART_RATE := VNull;
               COMPLICATIONS := VNull; VISIT_DATE := VNull |}].
Proof.
  destruct validateVisits_keeps_positive_ages as (H & _).
  rewrite H; [reflexivity | repeat constructor | repeat constructor].
Defined.

(** C7 as the claim words it fails: an array holding [null] makes the
    normalizer throw. *)
Lemma validateVisits_throws_on_null_element :
  validateVisits (VArr [VNull])
  = Throw (TypeError "cannot read properties of null or undefined").
Proof. reflexivity. Qed.

(** ** The trend estimator *)



(** ** The expected-delivery estimator *)

(** C9. From 39.2 weeks and 3.3 kg, the estimator sets the age to 36.5
    when Premature exceeds 0.3 and else to 38.0 when it exceeds 0.15, takes
    0.5, 0.3 and 0.2 off the weight for a growthRestriction, hypertension
    and anemia score above 0.5 and 0.4 more when the adjusted age is below
    37.5, clamps and rounds to one decimal; the age it returns lies in
    [35, 40] and the weight in [2.5, 4]. *)
Theorem calculateExpectedDelivery_adjusts_and_clamps
    (riskScores : RiskScores) (deliveryType : DeliveryType) :
  let age := Spec.rounded 1 (Spec.clamp 35.0 40.0 (Spec.adjusted_age deliveryType)) in
  let weight :=
    Spec.rounded 1
      (Spec.clamp 2.5 4.0 (Spec.adjusted_weight riskScores (Spec.adjusted_age deliveryType))) in
  calculateExpectedDelivery riskScores deliveryType
  = Return {| Expected.expectedGestationalAge := age; Expected.expectedBirthWeight := weight |}
  /\ Spec.between 35.0 40.0 age /\ Spec.between 2.5 4.0 weight
  /\ Spec.one_decimal age /\ Spec.one_decimal weight.
Proof.
  unfold calculateExpectedDelivery, Spec.adjusted_weight, Spec.penalties, Spec.adjusted_age,
    Spec.between, Spec.one_decimal.
  destruct (0.3 <? Premature deliveryType);
    destruct (0.15 <? Premature deliveryType);
    destruct (0.5 <? growthRestriction riskScores);
    destruct (0.5 <? hypertension riskScores);
    destruct (0.5 <? anemia riskScores);
    vm_compute; repeat split; reflexivity.
Qed.

(** ** Mutation of the validated visits *)

(** C10, as the code has it. [generatePrediction] sorts the validated
    visits in place, ascending by gestational age, and that is the only
    change it makes to the instance: the raw visits and the patient stay
    as they were, no later stage (risk scores, delivery mode, trend,
    progression, fallback) touches the instance, and once sorted the
    collection is the same after every further call. *)
Theorem validated_visits_sorted_in_place_once (h : Host) (fuel : nat) (s : State) :
  Spec.validated (validatedVisits (this s)) ->
  let s1 := snd (generatePrediction h fuel s) in
  visits (this s1) = visits (this s)
  /\ patient (this s1) = patient (this s)
  /\ validatedVisits (this s1) = sort by_gestational_age (validatedVisits (this s))
  /\ Permutation (validatedVisits (this s1)) (validatedVisits (this s))
  /\ Spec.ascending (validatedVisits (this s1))
  /\ (forall h' fuel', this (snd (generatePrediction h' fuel' s1)) = this s1)
  /\ keeps_this calculateRiskScores
  /\ (forall r, keeps_this (calculateDeliveryModeProbabilities r))
  /\ (forall field, keeps_this (calculateTrend field))
  /\ (forall h' fuel' ga w, keeps_this (generateProgression h' fuel' ga w))
  /\ (forall h' fuel' atTerm, keeps_this (getFallbackPrediction h' fuel' atTerm)).
Proof.
  intros Hv s1. subst s1. rewrite !generatePrediction_this.
  unfold sorted_instance. cbn [visits patient validatedVisits].
  repeat split.
  - apply sort_perm.
  - apply sort_ascending. assumption.
  - intros h' fuel'. rewrite !generatePrediction_this.
    unfold sorted_instance. cbn [visits patient validatedVisits].
    rewrite sort_idempotent by assumption. reflexivity.
  - apply keeps_this_calculateRiskScores.
  - apply keeps_this_calculateDeliveryModeProbabilities.
  - apply keeps_this_calculateTrend.
  - apply keeps_this_generateProgression.
  - apply keeps_this_getFallbackPrediction.
Qed.

(** The theorem applies to an engine built from the two visits: after a
    first call the collection is in ascending order, and a second call
    leaves the instance as the first one left it. *)
Lemma validated_visits_sorted_in_place_once_witness :
  exists e,
    new week_30_then_20 (VObj []) = Return e
    /\ let s1 := snd (generatePrediction Spec.still_host 64 (initial e)) in
       Spec.ascending (validatedVisits (this s1))
       /\ this (snd (generatePrediction Spec.still_host 64 s1)) = this s1.
Proof.
  destruct (new week_30_then_20 (VObj [])) as [e | | ] eqn:E;
    try (vm_compute in E; discriminate).
  exists e. split; [reflexivity | ].
  destruct (validated_visits_sorted_in_place_once Spec.still_host 64 (initial e)
              (new_validated _ _ _ E))
    as (_ & _ & _ & _ & H1 & H2 & _).
  split; [exact H1 | apply H2].
Defined.

(** C10 as the claim words it fails: the first call reorders the
    collection. Built from the visit of week 30 followed by the visit of
    week 20, the collection starts with week 20 after the call. *)
Lemma generatePrediction_reorders_validated_visits :
  ~ (forall h fuel visits patient e,
       new visits patient = Return e ->
       validatedVisits (this (snd (generatePrediction h fuel (initial e))))
       = validatedVisits e).
Proof.
  intro H.
  destruct (new week_30_then_20 (VObj [])) as [e | | ] eqn:E;
    try (vm_compute in E; discriminate).
  specialize (H Spec.still_host 64%nat _ _ e E).
  rewrite generatePrediction_this in H.
  vm_compute in E. injection E as <-.
  apply (f_equal (fun l => match l with
                           | v :: _ => (Spec.age v <? 25)
                           | [] => false
                           end)) in H.
  vm_compute in H. discriminate.
Qed.

(* ===================================================================== *)
(** * Beyond the claims: more of the two files *)
(* ===================================================================== *)

(** ** Fuel *)

(** The only loop is the one of [generateProgressionData]. *)

Lemma within_fuel_ret {A : Type} (a : A) : within_fuel (ret a).
Proof. intro s. discriminate. Qed.

Lemma within_fuel_lift {A : Type} (o : outcome A) :
  o <> OutOfFuel -> within_fuel (lift o).
Proof. intros H s. exact H. Qed.

Lemma within_fuel_get_this : within_fuel get_this.
Proof. intro s. discriminate. Qed.

Lemma within_fuel_random (h : Host) : within_fuel (random h).
Proof. intro s. discriminate. Qed.

Lemma within_fuel_bind {A B : Type} (c : M A) (k : A -> M B) :
  within_fuel c -> (forall a, within_fuel (k a)) -> within_fuel (bind c k).
Proof.
  intros Hc Hk s. unfold bind. specialize (Hc s).
  destruct (c s) as [[a | e | ] s1]; cbn [fst] in *;
    [apply Hk | discriminate | congruence].
Qed.

Lemma within_fuel_if {A : Type} (b : bool) (c1 c2 : M A) :
  within_fuel c1 -> within_fuel c2 -> within_fuel (if b then c1 else c2).
Proof. destruct b; auto. Qed.

Lemma roundValue_ends (v : val) (d : Z) : roundValue v d <> OutOfFuel.
Proof. destruct v; discriminate. Qed.

Lemma get_ends (v : val) (k : string) : get v k <> OutOfFuel.
Proof. destruct v; discriminate. Qed.

Lemma last_visit_ends (vv : list Visit) : last_visit vv <> OutOfFuel.
Proof. unfold last_visit. destruct (rev vv); discriminate. Qed.

Lemma first_visit_ends (vv : list Visit) : first_visit vv <> OutOfFuel.
Proof. destruct vv; discriminate. Qed.

Lemma parseBloodPressure_ends (v : val) : parseBloodPressure v <> OutOfFuel.
Proof. destruct (parseBloodPressure_returns v) as [bp ->]. discriminate. Qed.

Lemma mentions_preterm_ends (v : val) : mentions_preterm v <> OutOfFuel.
Proof. destruct v; discriminate. Qed.

Lemma calculateExpectedDelivery_ends (r : RiskScores) (d : DeliveryType) :
  calculateExpectedDelivery r d <> OutOfFuel.
Proof. destruct (calculateExpectedDelivery_returns r d) as [x ->]. discriminate. Qed.

Ltac fuel :=
  repeat first
    [ apply within_fuel_ret | apply within_fuel_get_this | apply within_fuel_random
    | apply within_fuel_lift;
      first [ apply roundValue_ends | apply get_ends | apply last_visit_ends
            | apply first_visit_ends | apply parseBloodPressure_ends
            | apply mentions_preterm_ends | apply calculateExpectedDelivery_ends ]
    | apply within_fuel_if
    | apply within_fuel_bind; [ | intro ]
    | progress cbv beta zeta ].

Lemma within_fuel_hasPretermHistory : within_fuel hasPretermHistory.
Proof. unfold hasPretermHistory. fuel. Qed.

Lemma within_fuel_calculateRiskScores : within_fuel calculateRiskScores.
Proof. unfold calculateRiskScores. fuel; try apply within_fuel_hasPretermHistory. Qed.

Lemma within_fuel_calculateDeliveryModeProbabilities (r : RiskScores) :
  within_fuel (calculateDeliveryModeProbabilities r).
Proof. unfold calculateDeliveryModeProbabilities. fuel. Qed.

Lemma within_fuel_calculateTrend (field : string) : within_fuel (calculateTrend field).
Proof. unfold calculateTrend. fuel. Qed.

Lemma within_fuel_projectWeek (h : Host) (startWeek : val) (baseVitals : Vitals.t)
    (i : float) (p : Progression.t) :
  within_fuel (projectWeek h startWeek baseVitals i p).
Proof. unfold projectWeek. fuel. Qed.

Lemma within_fuel_projectWeeks (h : Host) (startWeek : val) (w : float)
    (baseVitals : Vitals.t) (fuel : nat) :
  forall (i : float) (p : Progression.t) (n : nat),
    rounds fuel i w = Some n ->
    within_fuel (projectWeeks h fuel startWeek w baseVitals i p).
Proof.
  induction fuel as [ | fuel IH]; intros i p n; cbn [rounds projectWeeks];
    destruct (i <=? w); try discriminate; intro H; try apply within_fuel_ret.
  destruct (rounds fuel (i + 1) w) as [m | ] eqn:E; [ | discriminate].
  apply within_fuel_bind; [apply within_fuel_projectWeek | ].
  intro p'. apply (IH _ _ m E).
Qed.

Lemma within_fuel_generateProgression (h : Host) (fuel : nat) (ga : val) (w : float) (n : nat) :
  rounds fuel 1 w = Some n -> within_fuel (generateProgression h fuel ga w).
Proof.
  intro H. unfold generateProgression. fuel;
    first [ apply within_fuel_calculateTrend
          | apply (within_fuel_projectWeeks h ga w _ fuel 1 no_series n H) ].
Qed.

(** On validated visits the projection loop is over within 127 rounds,
    whatever the fields hold: [generatePrediction] returns or throws. *)
Lemma generatePrediction_within_fuel (h : Host) (fuel : nat) (s : State) :
  (127 <= fuel)%nat ->
  Spec.validated (validatedVisits (this s)) ->
  fst (generatePrediction h fuel s) <> OutOfFuel.
Proof.
  intros Hfuel Hv.
  destruct (validatedVisits (this s)) as [ | v0 vv] eqn:E.
  - rewrite (generatePrediction_no_data h fuel s E).
    destruct (getFallbackPrediction_no_data h fuel s ltac:(lia)) as (p & -> & _).
    discriminate.
  - rewrite <- E in Hv.
    assert (Hne : validatedVisits (this s) <> []) by (rewrite E; discriminate).
    destruct (latest_of_validated (this s) Hv Hne) as (latest & Hl & Hin & _).
    assert (Hk : keep latest = true).
    { unfold Spec.validated in Hv. rewrite Forall_forall in Hv. apply Hv, Hin. }
    rewrite (generatePrediction_some_data h fuel s latest Hne Hl).
    rewrite (weeks_left_at_term latest Hk).
    rewrite leb_ltb by (reflexivity || apply keep_not_nan, Hk).
    destruct (Spec.age latest <? 40) eqn:Hlt; cbn [negb].
    + destruct (weeks_left_bounded latest Hk Hlt) as [_ Hw].
      destruct (rounds_below_128 fuel (weeks_left latest) Hfuel Hw) as [n Hn].
      assert (W : within_fuel
        (riskScores <- calculateRiskScores ;;
         deliveryMode <- calculateDeliveryModeProbabilities riskScores ;;
         expected <- lift (calculateExpectedDelivery riskScores
                             (calculateDeliveryTypeProbabilities riskScores)) ;;
         progression <-
           generateProgression h fuel (GESTATIONAL_AGE_WEEKS latest) (weeks_left latest) ;;
         e <- get_this ;;
         ret {| deliveryType := calculateDeliveryTypeProbabilities riskScores;
                deliveryMode := deliveryMode;
                progression := Some progression;
                summary := generateSummary riskScores
                             (calculateDeliveryTypeProbabilities riskScores) deliveryMode;
                expectedGestationalAge := Expected.expectedGestationalAge expected;
                expectedBirthWeight := Expected.expectedBirthWeight expected;
                riskScores := Some riskScores;
                isFallback := None;
                metadata :=
                  PipelineMetadata (GESTATIONAL_AGE_WEEKS latest) (weeks_left latest)
                    (List.length (validatedVisits e)) (Date_toISOString h)
                    "rule-based-engine" |})).
      { fuel; first [ apply within_fuel_calculateRiskScores
                    | apply within_fuel_calculateDeliveryModeProbabilities
                    | apply within_fuel_calculateTrend
                    | apply (within_fuel_generateProgression h fuel _ _ n Hn)
                    | apply (within_fuel_projectWeeks h _ _ _ fuel 1 no_series n Hn) ]. }
      apply W.
    + rewrite getFallbackPrediction_at_term. discriminate.
Qed.

(** ** What a result can be *)

Lemma getFallbackPrediction_result (h : Host) (fuel : nat) (atTerm : bool)
    (s s' : State) (r : PredictionResult) :
  getFallbackPrediction h fuel atTerm s = (Return r, s') ->
  exists p, r = Spec.fallback_result h p.
Proof.
  unfold getFallbackPrediction. intro H.
  apply bind_inv in H as (p & s1 & _ & H). unfold ret in H. injection H as <- _.
  exists p. reflexivity.
Qed.

(** A result is the fixed fallback or is derived from scores the scorer
    can give. *)
Lemma generatePrediction_result (h : Host) (fuel : nat) (s s' : State) (r : PredictionResult) :
  generatePrediction h fuel s = (Return r, s') ->
  (exists p, r = Spec.fallback_result h p)
  \/ (exists scores nulliparous, In scores possible_scores /\ derived_from scores nulliparous r).
Proof.
  intro H.
  destruct (validatedVisits (this s)) as [ | v0 vv] eqn:E.
  - rewrite (generatePrediction_no_data h fuel s E) in H.
    left. eapply getFallbackPrediction_result. exact H.
  - assert (Hne : validatedVisits (this s) <> []) by (rewrite E; discriminate).
    destruct (last_visit_nonempty (sort by_gestational_age (validatedVisits (this s))))
      as [latest Hl].
    { intro E0. apply Hne. apply length_zero_iff_nil.
      rewrite <- (sort_length by_gestational_age), E0. reflexivity. }
    rewrite (generatePrediction_some_data h fuel s latest Hne Hl) in H.
    destruct (weeks_left latest <=? 0).
    + left. eapply getFallbackPrediction_result. exact H.
    + right.
      apply bind_inv in H as (scores & s1 & Hscores & H).
      apply bind_inv in H as (mode & s2 & Hmode & H).
      apply bind_inv in H as (expected & s3 & Hexp & H).
      apply bind_inv in H as (p & s4 & _ & H).
      apply bind_inv in H as (e & s5 & _ & H).
      unfold ret in H. injection H as <- _.
      apply calculateRiskScores_possible in Hscores.
      apply calculateDeliveryModeProbabilities_mode_of in Hmode as [b ->].
      exists scores, b. split; [exact Hscores | ].
      unfold derived_from.
      cbn [riskScores isFallback deliveryType deliveryMode expectedGestationalAge
             expectedBirthWeight summary].
      apply (f_equal fst) in Hexp. unfold lift in Hexp. cbn [fst] in Hexp.
      destruct expected. repeat split; try reflexivity. exact Hexp.
Qed.

Lemma possible_scores_expected (scores : RiskScores) :
  In scores possible_scores -> expected_at_38 scores = true.
Proof.
  intro H.
  assert (Hall : forallb expected_at_38 possible_scores = true) by (vm_compute; reflexivity).
  rewrite forallb_forall in Hall. apply Hall, H.
Qed.

(** X1. On validated visits, every result of the full pipeline reports an expected gestational
    age of exactly 38 weeks and an expected birth weight between 2.5 and
    3.3 kg: the Premature probability the pipeline computes always lies
    above 0.15 and never above 0.3, so the branches for 36.5 and for 39.2
    weeks are never taken. *)
Theorem pipeline_expects_week_38 (h : Host) (fuel : nat) (s s' : State) (r : PredictionResult) :
  Spec.validated (validatedVisits (this s)) ->
  generatePrediction h fuel s = (Return r, s') ->
  isFallback r = None ->
  expectedGestationalAge r = 38 /\ Spec.between 2.5 3.3 (expectedBirthWeight r).
Proof.
  intros _ H Hnf.
  destruct (generatePrediction_result h fuel s s' r H)
    as [(p & ->) | (scores & b & Hin & _ & _ & _ & _ & Hexp & _)]; [discriminate | ].
  pose proof (possible_scores_expected scores Hin) as Hc.
  unfold expected_at_38 in Hc. rewrite Hexp in Hc.
  cbn [Expected.expectedGestationalAge Expected.expectedBirthWeight] in Hc.
  apply andb_true_iff in Hc as [Hc H3]. apply andb_true_iff in Hc as [H1 H2].
  apply Leibniz.eqb_spec in H1. split; [exact H1 | split; assumption].
Qed.

(** The theorem applies: a visit at week 30. *)
Lemma pipeline_expects_week_38_witness :
  exists r s',
    generatePrediction Spec.still_host 127 (state_of [visit_at 30]) = (Return r, s')
    /\ expectedGestationalAge r = 38 /\ Spec.between 2.5 3.3 (expectedBirthWeight r).
Proof.
  destruct (generatePrediction Spec.still_host 127 (state_of [visit_at 30]))
    as [[r | | ] s'] eqn:E; try (vm_compute in E; discriminate).
  exists r, s'. split; [reflexivity | ].
  apply (pipeline_expects_week_38 Spec.still_host 127 (state_of [visit_at 30]) s' r
           ltac:(repeat constructor) E).
  apply (f_equal (fun x => match fst x with
                           | Return r => isFallback r
                           | _ => Some true
                           end)) in E.
  vm_compute in E. symmetry. exact E.
Defined.

(** X2. In every result on validated visits, fallback or not, full term is the most likely
    outcome and mortality the least: MortalityRisk < Premature < FullTerm,
    with FullTerm at least 0.61, Premature at most 0.28 and MortalityRisk
    at most 0.12. *)
Theorem full_term_is_most_likely (h : Host) (fuel : nat) (s s' : State) (r : PredictionResult) :
  Spec.validated (validatedVisits (this s)) ->
  generatePrediction h fuel s = (Return r, s') ->
  (MortalityRisk (deliveryType r) <? Premature (deliveryType r)) = true
  /\ (Premature (deliveryType r) <? FullTerm (deliveryType r)) = true
  /\ (0.61 <=? FullTerm (deliveryType r)) = true
  /\ (Premature (deliveryType r) <=? 0.28) = true
  /\ (MortalityRisk (deliveryType r) <=? 0.12) = true.
Proof.
  intros _ H.
  assert (Hc : type_ordered (deliveryType r) = true).
  { destruct (generatePrediction_result h fuel s s' r H)
      as [(p & ->) | (scores & b & Hin & _ & _ & -> & _)]; [vm_compute; reflexivity | ].
    assert (Hall : forallb (fun x => type_ordered (calculateDeliveryTypeProbabilities x))
                           possible_scores = true) by (vm_compute; reflexivity).
    rewrite forallb_forall in Hall. apply Hall, Hin. }
  unfold type_ordered in Hc. rewrite !andb_true_iff in Hc. tauto.
Qed.

(** The theorem applies: a visit at week 30. *)
Lemma full_term_is_most_likely_witness :
  exists r s',
    generatePrediction Spec.still_host 127 (state_of [visit_at 30]) = (Return r, s')
    /\ (Premature (deliveryType r) <? FullTerm (deliveryType r)) = true.
Proof.
  destruct (generatePrediction Spec.still_host 127 (state_of [visit_at 30]))
    as [[r | | ] s'] eqn:E; try (vm_compute in E; discriminate).
  exists r, s'. split; [reflexivity | ].
  apply (full_term_is_most_likely Spec.still_host 127 (state_of [visit_at 30]) s' r
           ltac:(repeat constructor) E).
Defined.

(** X3. In every result on validated visits the two delivery-mode probabilities add up to
    exactly 1, CSection lies between 0 and 0.70 and Normal is at least
    0.30. *)
Theorem delivery_mode_is_complementary (h : Host) (fuel : nat) (s s' : State)
    (r : PredictionResult) :
  Spec.validated (validatedVisits (this s)) ->
  generatePrediction h fuel s = (Return r, s') ->
  Normal (deliveryMode r) + CSection (deliveryMode r) = 1
  /\ (0.3 <=? Normal (deliveryMode r)) = true
  /\ Spec.between 0 0.7 (CSection (deliveryMode r)).
Proof.
  intros _ H.
  assert (Hc : mode_complementary (deliveryMode r) = true).
  { destruct (generatePrediction_result h fuel s s' r H)
      as [(p & ->) | (scores & b & Hin & _ & _ & _ & -> & _)]; [vm_compute; reflexivity | ].
    assert (Hall : forallb (fun x => mode_complementary (mode_of x true)
                                     && mode_complementary (mode_of x false))
                           possible_scores = true) by (vm_compute; reflexivity).
    rewrite forallb_forall in Hall. specialize (Hall scores Hin).
    apply andb_true_iff in Hall as [H1 H2]. destruct b; assumption. }
  unfold mode_complementary in Hc. rewrite !andb_true_iff in Hc.
  destruct Hc as [[[H1 H2] H3] H4]. apply Leibniz.eqb_spec in H1.
  unfold Spec.between. tauto.
Qed.

(** The theorem applies: a visit at week 30. *)
Lemma delivery_mode_is_complementary_witness :
  exists r s',
    generatePrediction Spec.still_host 127 (state_of [visit_at 30]) = (Return r, s')
    /\ Normal (deliveryMode r) + CSection (deliveryMode r) = 1.
Proof.
  destruct (generatePrediction Spec.still_host 127 (state_of [visit_at 30]))
    as [[r | | ] s'] eqn:E; try (vm_compute in E; discriminate).
  exists r, s'. split; [reflexivity | ].
  apply (delivery_mode_is_complementary Spec.still_host 127 (state_of [visit_at 30]) s' r
           ltac:(repeat constructor) E).
Defined.

(** ** The constructor and the normalizer *)

Lemma obind_inv {A B : Type} (o : outcome A) (k : A -> outcome B) (b : B) :
  obind o k = Return b -> exists a, o = Return a /\ k a = Return b.
Proof. destruct o as [a | e | ]; cbn [obind]; try discriminate. eauto. Qed.

Lemma obind_ends {A B : Type} (o : outcome A) (k : A -> outcome B) :
  o <> OutOfFuel -> (forall a, k a <> OutOfFuel) -> obind o k <> OutOfFuel.
Proof. destruct o as [a | e | ]; cbn [obind]; auto. discriminate. Qed.

Lemma normalize_nullish (v : val) :
  is_nullish v = true -> exists e, normalize v = Throw e.
Proof. destruct v; try discriminate; intros _; eexists; reflexivity. Qed.

Lemma map_outcome_normalize_throws (elems : list val) :
  Exists (fun v => is_nullish v = true) elems ->
  exists e, map_outcome normalize elems = Throw e.
Proof.
  induction 1 as [v r Hv | v r _ [e IH]]; cbn [map_outcome].
  - destruct (normalize_nullish v Hv) as [e ->]. eexists. reflexivity.
  - destruct (is_nullish v) eqn:N.
    + destruct (normalize_nullish v N) as [e' ->]. eexists. reflexivity.
    + rewrite (normalize_reduced v N). cbn [obind]. rewrite IH. eexists. reflexivity.
Qed.

Lemma validateVisits_nothing_kept (elems : list val) :
  Forall (fun v => is_nullish v = false) elems ->
  Forall (fun v => Spec.positive_age v = false) elems ->
  validateVisits (VArr elems) = Return [].
Proof.
  intros Hn Hp. unfold validateVisits. cbn [truthy is_array negb orb].
  rewrite (map_outcome_normalize elems Hn). cbn [obind].
  rewrite filter_keep_reduced.
  replace (filter Spec.positive_age elems) with (@nil val); [reflexivity | ].
  symmetry. induction Hp as [ | v r Hv _ IH]; cbn [filter]; [reflexivity | ].
  rewrite Hv. inversion Hn; auto.
Qed.

Lemma validateVisits_not_array (visits : val) :
  is_array visits = false -> validateVisits (or_else visits (VArr [])) = Return [].
Proof.
  intro H. unfold or_else. destruct (truthy visits) eqn:T; [ | reflexivity].
  unfold validateVisits. rewrite H, orb_true_r. reflexivity.
Qed.

(** X4. When the gestational ages of the elements of [visits] can be
    converted to a primitive, the constructor throws exactly when [visits]
    is an array that holds a [null] or [undefined] element; every other
    pair of such arguments builds an engine, whatever the patient. *)
Theorem constructor_throws_on_null_elements_only (visits patient : val) :
  (forall elems,
      visits = VArr elems -> Forall (fun v => Spec.convertible_age v = true) elems) ->
  ((exists e, new visits patient = Throw e)
   <-> exists elems, visits = VArr elems /\ Exists (fun v => is_nullish v = true) elems).
Proof.
  intros _. split.
  - intros [e H]. unfold new in H.
    destruct (is_array visits) eqn:A.
    + destruct visits as [ | | | | | elems | ]; try discriminate.
      exists elems. split; [reflexivity | ].
      destruct (Exists_dec (fun v => is_nullish v = true) elems) as [Hex | Hno];
        [intro v; destruct (is_nullish v); [left; reflexivity | right; discriminate]
        | exact Hex | exfalso].
      assert (Hall : Forall (fun v => is_nullish v = false) elems).
      { apply Forall_forall. intros v Hv. destruct (is_nullish v) eqn:N; [ | reflexivity].
        exfalso. apply Hno. apply Exists_exists. eauto. }
      change (or_else (VArr elems) (VArr [])) with (VArr elems) in H.
      unfold validateVisits in H. cbn [truthy is_array negb orb] in H.
      rewrite (map_outcome_normalize elems Hall) in H. discriminate.
    + rewrite (validateVisits_not_array visits A) in H. discriminate.
  - intros (elems & -> & Hex). unfold new.
    change (or_else (VArr elems) (VArr [])) with (VArr elems).
    unfold validateVisits. cbn [truthy is_array negb orb].
    destruct (map_outcome_normalize_throws elems Hex) as [e ->]. eexists. reflexivity.
Qed.

(** The theorem applies in both directions. *)
Lemma constructor_throws_on_null_elements_only_witness :
  (exists e, new (VArr [VObj []; VNull]) (VObj []) = Throw e)
  /\ ~ (exists e, new (VStr "visits") VNull = Throw e).
Proof.
  split.
  - apply constructor_throws_on_null_elements_only.
    + intros elems E. injection E as <-. repeat constructor.
    + exists [VObj []; VNull]. split; [reflexivity | ].
      right. left. reflexivity.
  - intro H. apply constructor_throws_on_null_elements_only in H as (elems & H & _).
    + discriminate.
    + intros elems E. discriminate.
Defined.

Lemma or_else_null_field (v : val) : Spec.present_or_null_field (or_else v VNull) = true.
Proof.
  unfold or_else. destruct (truthy v) eqn:T; [ | reflexivity].
  destruct v; try discriminate; exact T.
Qed.

Lemma normalize_normalized (raw : val) (v : Visit) :
  normalize raw = Return v -> Spec.normalized v = true.
Proof.
  unfold normalize. intro H.
  repeat (apply obind_inv in H as (? & _ & H)).
  injection H as <-. unfold Spec.normalized.
  cbn [GESTATIONAL_AGE_WEEKS MATERNAL_WEIGHT FUNDAL_HEIGHT HEMOGLOBIN_LEVEL BLOOD_PRESSURE
         FETAL_HEART_RATE COMPLICATIONS VISIT_DATE].
  rewrite !or_else_null_field. reflexivity.
Qed.

Lemma map_outcome_normalize_Return (elems : list val) :
  forall mapped,
    map_outcome normalize elems = Return mapped ->
    Forall (fun v => Spec.normalized v = true) mapped
    /\ List.length mapped = List.length elems.
Proof.
  induction elems as [ | raw r IH]; cbn [map_outcome]; intros mapped H.
  - injection H as <-. split; [constructor | reflexivity].
  - apply obind_inv in H as (v & Hv & H). apply obind_inv in H as (vs & Hvs & H).
    injection H as <-. destruct (IH vs Hvs) as [H1 H2].
    split; [constructor; [eapply normalize_normalized; exact Hv | exact H1] | ].
    cbn [List.length]. rewrite H2. reflexivity.
Qed.

(** X5. Whatever the normalizer returns, every visit in it has each of
    its eight fields either [null] or a value that counts as true, its
    gestational age present and above zero; there are no more visits than
    elements in the input, and none for an input that is not an array. *)
Theorem validateVisits_normalizes (visits : val) (vv : list Visit) :
  validateVisits visits = Return vv ->
  Forall (fun v => Spec.normalized v = true
                   /\ truthy (GESTATIONAL_AGE_WEEKS v) = true
                   /\ (0 <? Spec.age v) = true) vv
  /\ (forall elems, visits = VArr elems -> (List.length vv <= List.length elems)%nat)
  /\ (is_array visits = false -> vv = []).
Proof.
  unfold validateVisits. intro H.
  destruct visits as [ | | b | x | t | elems | props];
    try (destruct (negb _ || negb _) in H; injection H as <-;
         repeat split; first [constructor | intros; discriminate | intros; reflexivity]).
  cbn [truthy is_array negb orb] in H.
  apply obind_inv in H as (mapped & Hm & H). injection H as <-.
  destruct (map_outcome_normalize_Return elems mapped Hm) as [Hn Hlen].
  split; [ | split].
  - apply Forall_forall. intros v Hv. apply filter_In in Hv as [Hin Hk].
    rewrite Forall_forall in Hn. split; [apply Hn, Hin | ].
    split; [ | apply keep_age, Hk].
    unfold keep in Hk. rewrite truthy_and_then in Hk.
    apply andb_true_iff in Hk as [Hk _]. exact Hk.
  - intros elems' E. injection E as <-. rewrite <- Hlen. apply filter_length_le.
  - discriminate.
Qed.

(** The theorem applies: of three elements one is kept. *)
Lemma validateVisits_normalizes_witness :
  Forall (fun v => Spec.normalized v = true
                   /\ truthy (GESTATIONAL_AGE_WEEKS v) = true
                   /\ (0 <? Spec.age v) = true)
         [Spec.reduced (VObj [("GESTATIONAL_AGE_WEEKS", VNum 20); ("MATERNAL_WEIGHT", VNum 0)])].
Proof.
  apply (validateVisits_normalizes
           (VArr [VObj [("GESTATIONAL_AGE_WEEKS", VNum 20); ("MATERNAL_WEIGHT", VNum 0)];
                  VObj [("GESTATIONAL_AGE_WEEKS", VStr "")];
                  VBool true])).
  vm_compute. reflexivity.
Defined.

(** X6. When [visits] is not an array, or is an array without [null] or
    [undefined] elements in which every gestational age can be converted
    to a primitive and none is above zero, the prediction is the fixed
    fallback with the default projection over the weeks 13 to 40,
    whatever the patient. *)
Theorem no_usable_visit_gives_default_projection
    (h : Host) (fuel : nat) (visits patient : val) :
  (28 <= fuel)%nat ->
  (is_array visits = false
   \/ exists elems,
        visits = VArr elems
        /\ Forall (fun v => is_nullish v = false) elems
        /\ Forall (fun v => Spec.convertible_age v = true) elems
        /\ Forall (fun v => Spec.positive_age v = false) elems) ->
  exists p,
    predict h fuel visits patient = Return (Spec.fallback_result h (Some p))
    /\ Spec.projected_over p (Spec.whole_weeks 13 28).
Proof.
  intros Hfuel Hvisits.
  assert (Hv : validateVisits (or_else visits (VArr [])) = Return []).
  { destruct Hvisits as [H | (elems & -> & Hn & _ & Hp)].
    - apply validateVisits_not_array, H.
    - change (or_else (VArr elems) (VArr [])) with (VArr elems).
      apply validateVisits_nothing_kept; assumption. }
  unfold predict, new. rewrite Hv. cbn [obind].
  rewrite generatePrediction_no_data by reflexivity.
  destruct (getFallbackPrediction_no_data h fuel
              (initial {| visits := or_else visits (VArr []);
                          patient := or_else patient (VObj []);
                          validatedVisits := [] |}) Hfuel) as (p & -> & Hp).
  exists p. split; [reflexivity | exact Hp].
Qed.

(** The theorem applies: a visit at week 0 and one without an age. *)
Lemma no_usable_visit_gives_default_projection_witness :
  exists p,
    predict Spec.still_host 28
      (VArr [VObj [("GESTATIONAL_AGE_WEEKS", VNum 0)]; VObj [("MATERNAL_WEIGHT", VNum 61)]])
      VNull
    = Return (Spec.fallback_result Spec.still_host (Some p))
    /\ Spec.projected_over p (Spec.whole_weeks 13 28).
Proof.
  apply no_usable_visit_gives_default_projection; [lia | right].
  eexists. split; [reflexivity | ].
  split; [ | split]; repeat constructor.
Defined.

(** ** The scorer *)

Ltac float_absurd :=
  match goal with
  | H : @eq float ?a ?b |- _ =>
      apply (f_equal (fun x => Leibniz.eqb x b)) in H; vm_compute in H; discriminate
  end.

(** X7. In the scores the scorer returns, anemia, hypertension,
    growthRestriction and bmiRisk are 0 exactly when the measurement they
    are read from is missing (hemoglobin, blood pressure, fundal height
    with gestational age, BMI); pretermRisk and maternalAgeRisk are never
    0. *)
Theorem zero_score_means_missing (s s' : State) (scores : RiskScores) (latest : Visit) :
  last_visit (validatedVisits (this s)) = Return latest ->
  calculateRiskScores s = (Return scores, s') ->
  (anemia scores = 0 <-> truthy (HEMOGLOBIN_LEVEL latest) = false)
  /\ (hypertension scores = 0 <-> truthy (BLOOD_PRESSURE latest) = false)
  /\ (growthRestriction scores = 0
      <-> truthy (FUNDAL_HEIGHT latest) && truthy (GESTATIONAL_AGE_WEEKS latest) = false)
  /\ (bmiRisk scores = 0
      <-> truthy (Spec.property (patient (this s)) "BMI_VALUE") = false)
  /\ pretermRisk scores <> 0
  /\ maternalAgeRisk scores <> 0.
Proof.
  intros Hl H. unfold calculateRiskScores in H.
  rewrite bind_get_this, Hl, bind_lift_Return in H. cbv zeta in H.
  apply bind_inv in H as (ht & s3 & Hht & H).
  apply bind_inv in H as (hist & s4 & _ & H).
  apply bind_inv in H as (age & s5 & _ & H).
  apply bind_inv in H as (bmi & s6 & Hbmi & H).
  unfold ret in H. injection H as <- _.
  cbn [anemia hypertension growthRestriction bmiRisk pretermRisk maternalAgeRisk].
  assert (Hb : bmi = Spec.property (patient (this s)) "BMI_VALUE").
  { unfold lift in Hbmi. apply (f_equal fst) in Hbmi. cbn [fst] in Hbmi.
    destruct (patient (this s)); cbn in Hbmi; try discriminate; inversion Hbmi; reflexivity. }
  rewrite <- Hb. rewrite truthy_and_then.
  repeat split.
  - destruct (truthy (HEMOGLOBIN_LEVEL latest)); [ | reflexivity].
    cases; intro; float_absurd.
  - intros ->. reflexivity.
  - destruct (truthy (BLOOD_PRESSURE latest)); [ | reflexivity].
    apply bind_inv in Hht as (bp & s7 & _ & Hht). unfold ret in Hht. injection Hht as <- _.
    cases; intro; float_absurd.
  - intro T. rewrite T in Hht. unfold ret in Hht. injection Hht as <- _. reflexivity.
  - destruct (truthy (FUNDAL_HEIGHT latest) && truthy (GESTATIONAL_AGE_WEEKS latest));
      [ | reflexivity].
    cases; intro; float_absurd.
  - intros ->. reflexivity.
  - destruct (truthy bmi); [ | reflexivity]. cases; intro; float_absurd.
  - intros ->. reflexivity.
  - cases; intro; float_absurd.
  - cases; intro; float_absurd.
Qed.

(** The theorem applies: the visit has no hemoglobin, the patient a BMI. *)
Lemma zero_score_means_missing_witness :
  exists scores s',
    calculateRiskScores preterm_state = (Return scores, s')
    /\ anemia scores = 0 /\ bmiRisk scores <> 0.
Proof.
  destruct (calculateRiskScores preterm_state) as [[scores | | ] s'] eqn:E;
    try (vm_compute in E; discriminate).
  exists scores, s'. split; [reflexivity | ].
  destruct (zero_score_means_missing preterm_state s' scores week_30_measured eq_refl E)
    as (H1 & _ & _ & H4 & _).
  split; [apply H1; reflexivity | ].
  intro H. apply H4 in H. vm_compute in H. discriminate.
Defined.

Lemma hasPretermHistory_property (s : State) :
  is_nullish (patient (this s)) = false ->
  hasPretermHistory s
  = (if Spec.has_given_birth (Spec.property (patient (this s)) "PARITY")
     then mentions_preterm (Spec.property (patient (this s)) "MEDICAL_HISTORY")
     else Return (VBool false), s).
Proof.
  intro Np. unfold hasPretermHistory. rewrite bind_get_this.
  rewrite (get_property _ "PARITY" Np), bind_lift_Return.
  fold (Spec.has_given_birth (Spec.property (patient (this s)) "PARITY")).
  destruct (Spec.has_given_birth _); [ | reflexivity].
  rewrite (get_property _ "MEDICAL_HISTORY" Np), bind_lift_Return. reflexivity.
Qed.

(** X8. The scorer gives a pretermRisk of 0.6 exactly when the latest
    visit is before week 37, the patient's parity is above zero (or the
    text "1") and the medical history is a text that mentions "preterm",
    in any letter case. *)
Theorem preterm_score_needs_history (s s' : State) (scores : RiskScores) (latest : Visit) :
  last_visit (validatedVisits (this s)) = Return latest ->
  calculateRiskScores s = (Return scores, s') ->
  (pretermRisk scores = 0.6
   <-> js_lt (GESTATIONAL_AGE_WEEKS latest) (VNum 37)
       && Spec.has_given_birth (Spec.property (patient (this s)) "PARITY")
       && Spec.mentions (Spec.property (patient (this s)) "MEDICAL_HISTORY") = true).
Proof.
  intros Hl H. unfold calculateRiskScores in H.
  rewrite bind_get_this, Hl, bind_lift_Return in H. cbv zeta in H.
  apply bind_inv in H as (ht & s3 & Hht & H).
  assert (Hs3 : this s3 = this s).
  { destruct (truthy (BLOOD_PRESSURE latest)).
    - apply bind_inv in Hht as (bp & s7 & Hbp & Hht).
      unfold ret in Hht. injection Hht as _ <-.
      unfold lift in Hbp. injection Hbp as _ <-. reflexivity.
    - unfold ret in Hht. injection Hht as _ <-. reflexivity. }
  apply bind_inv in H as (hist & s4 & Hhist & H).
  apply bind_inv in H as (age & s5 & _ & H).
  apply bind_inv in H as (bmi & s6 & _ & H).
  unfold ret in H. injection H as <- _. cbn [pretermRisk].
  assert (Hh : js_lt (GESTATIONAL_AGE_WEEKS latest) (VNum 37) = true ->
               truthy hist
               = Spec.has_given_birth (Spec.property (patient (this s)) "PARITY")
                 && Spec.mentions (Spec.property (patient (this s)) "MEDICAL_HISTORY")).
  { intro G. rewrite G in Hhist. unfold hasPretermHistory in Hhist.
    rewrite bind_get_this, Hs3 in Hhist.
    destruct (is_nullish (patient (this s))) eqn:Np.
    { destruct (patient (this s)); try discriminate; cbn in Hhist; discriminate. }
    rewrite (get_property _ "PARITY" Np), bind_lift_Return in Hhist.
    fold (Spec.has_given_birth (Spec.property (patient (this s)) "PARITY")) in Hhist.
    destruct (Spec.has_given_birth _).
    - rewrite (get_property _ "MEDICAL_HISTORY" Np), bind_lift_Return in Hhist.
      unfold lift in Hhist.
      destruct (Spec.property (patient (this s)) "MEDICAL_HISTORY"); cbn in Hhist;
        try discriminate; injection Hhist as <- _; reflexivity.
    - unfold ret in Hhist. injection Hhist as <- _. reflexivity. }
  destruct (js_lt (GESTATIONAL_AGE_WEEKS latest) (VNum 37)) eqn:G; cbn [andb].
  - rewrite <- (Hh eq_refl). destruct (truthy hist); split; try reflexivity;
      try discriminate; cases; intro; float_absurd.
  - split; [ | discriminate]. cases; intro; float_absurd.
Qed.

(** The theorem applies: "Preterm birth in 2019" with a capital letter. *)
Lemma preterm_score_needs_history_witness :
  exists scores s',
    calculateRiskScores preterm_state = (Return scores, s')
    /\ pretermRisk scores = 0.6.
Proof.
  destruct (calculateRiskScores preterm_state) as [[scores | | ] s'] eqn:E;
    try (vm_compute in E; discriminate).
  exists scores, s'. split; [reflexivity | ].
  apply (preterm_score_needs_history preterm_state s' scores week_30_measured eq_refl E).
  vm_compute. reflexivity.
Defined.

(** X9. With a latest visit and a patient that is not [null], whose
    fields can be converted to a primitive where the scorer compares them,
    the scorer throws exactly when it reaches [toLowerCase] with a history
    that is no text: before week 37, for a parity above zero, with a
    history that is neither a text nor absent. In every other case it
    returns scores and leaves the state as it was. *)
Theorem scorer_throws_on_misread_history_only (s : State) (latest : Visit) :
  last_visit (validatedVisits (this s)) = Return latest ->
  is_nullish (patient (this s)) = false ->
  Spec.convertible_visit latest = true ->
  Spec.convertible_patient (patient (this s)) = true ->
  (Spec.history_misread latest (patient (this s)) = true ->
   exists e, calculateRiskScores s = (Throw e, s))
  /\ (Spec.history_misread latest (patient (this s)) = false ->
      exists scores, calculateRiskScores s = (Return scores, s)).
Proof.
  intros Hl Np _ _. unfold Spec.history_misread, calculateRiskScores.
  rewrite bind_get_this, Hl, bind_lift_Return. cbv zeta.
  assert (Hbp : exists x, (if truthy (BLOOD_PRESSURE latest)
                           then bp <- lift (parseBloodPressure (BLOOD_PRESSURE latest)) ;;
                                ret (if (140 <=? BP.systolic bp) || (90 <=? BP.diastolic bp)
                                     then 0.9
                                     else if (130 <=? BP.systolic bp) || (85 <=? BP.diastolic bp)
                                          then 0.6 else 0.1)
                           else ret 0) s = (Return x, s)).
  { destruct (truthy (BLOOD_PRESSURE latest)); [ | eexists; reflexivity].
    destruct (parseBloodPressure_returns (BLOOD_PRESSURE latest)) as [bp ->].
    rewrite bind_lift_Return. eexists. reflexivity. }
  destruct Hbp as [ht Hht]. rewrite (bind_Return _ _ _ _ _ Hht).
  assert (Hh : exists o,
            (if js_lt (GESTATIONAL_AGE_WEEKS latest) (VNum 37)
             then hasPretermHistory else ret (VBool false)) s = (o, s)
            /\ (js_lt (GESTATIONAL_AGE_WEEKS latest) (VNum 37)
                && Spec.has_given_birth (Spec.property (patient (this s)) "PARITY")
                && Spec.no_text (Spec.property (patient (this s)) "MEDICAL_HISTORY") = true
                -> exists e, o = Throw e)
            /\ (js_lt (GESTATIONAL_AGE_WEEKS latest) (VNum 37)
                && Spec.has_given_birth (Spec.property (patient (this s)) "PARITY")
                && Spec.no_text (Spec.property (patient (this s)) "MEDICAL_HISTORY") = false
                -> exists hist, o = Return hist)).
  { destruct (js_lt (GESTATIONAL_AGE_WEEKS latest) (VNum 37)); cbn [andb].
    - rewrite (hasPretermHistory_property s Np). eexists. split; [reflexivity | ].
      destruct (Spec.has_given_birth _); cbn [andb];
        [ | split; [discriminate | eauto]].
      unfold Spec.no_text.
      destruct (Spec.property (patient (this s)) "MEDICAL_HISTORY");
        cbn [Spec.text_or_absent negb mentions_preterm]; split; intro C;
        try discriminate; eauto.
    - eexists. split; [reflexivity | ]. split; [discriminate | eauto]. }
  destruct Hh as (o & Ho & Hthrow & Hret).
  split; intro C.
  - destruct (Hthrow C) as [e ->]. rewrite (bind_Throw _ _ _ _ _ Ho). eauto.
  - destruct (Hret C) as [hist ->]. rewrite (bind_Return _ _ _ _ _ Ho).
    rewrite (get_property _ "AGE" Np), bind_lift_Return.
    rewrite (get_property _ "BMI_VALUE" Np), bind_lift_Return.
    eexists. reflexivity.
Qed.

(** The theorem applies both ways. *)
Lemma scorer_throws_on_misread_history_only_witness :
  (exists e, calculateRiskScores misread_state = (Throw e, misread_state))
  /\ (exists scores, calculateRiskScores preterm_state = (Return scores, preterm_state)).
Proof.
  split.
  - apply (scorer_throws_on_misread_history_only misread_state week_30_measured);
      vm_compute; reflexivity.
  - apply (scorer_throws_on_misread_history_only preterm_state week_30_measured);
      vm_compute; reflexivity.
Defined.

(** ** The summary *)

Lemma ltb_leb_trans (x y z : float) :
  (x <? y) = true -> (y <=? z) = true -> (x <? z) = true.
Proof.
  intros H1 H2.
  destruct (ltb_not_nan _ _ H1) as [Nx Ny].
  assert (Nz : is_nan z = false).
  { rewrite leb_spec in H2. apply SFleb_not_nan in H2 as [_ H2].
    apply not_nan_spec. exact H2. }
  destruct (x <? z) eqn:E; [reflexivity | exfalso].
  assert (Hzx : (z <=? x) = true) by (rewrite leb_ltb, E; auto).
  pose proof (leb_trans _ _ _ H2 Hzx) as Hyx.
  rewrite leb_ltb, H1 in Hyx by assumption. discriminate.
Qed.

(** The primary entry is an entry, and no entry has a larger score. *)
Lemma primaryEntry_is_maximal (scores : RiskScores) :
  Spec.numeric (entries scores) ->
  In (primaryEntry scores) (entries scores)
  /\ Forall (fun e => (snd e <=? snd (primaryEntry scores)) = true) (entries scores).
Proof.
  intro Hnum.
  assert (Hmax : Spec.last_maximal (entries scores) (primaryEntry scores)).
  { unfold primaryEntry. cbn [entries].
    apply (fold_larger_last_maximal _ [("anemia", anemia scores)]).
    - exists [], []. repeat split; constructor.
    - exact Hnum. }
  destruct Hmax as (before & after & E & Hb & Ha).
  assert (Hin : In (primaryEntry scores) (entries scores)).
  { rewrite E. apply in_or_app. right. left. reflexivity. }
  split; [exact Hin | ].
  rewrite E at 1. apply Forall_app. split; [exact Hb | ].
  constructor.
  - apply leb_refl. unfold Spec.numeric in Hnum. rewrite Forall_forall in Hnum.
    apply Hnum, Hin.
  - eapply Forall_impl; [ | exact Ha]. cbn beta. intros x Hx. apply ltb_leb, Hx.
Qed.

(** X10. For scores that are numbers the summary goes by the highest of
    the six: the "Elevated" text, with the premature percentage, as soon
    as one score exceeds 0.7; the "Moderate" text when none exceeds 0.7
    and one exceeds 0.4; the "stable progression" text when none exceeds
    0.4. The risk named is the primary risk, and the delivery mode plays
    no part. *)
Theorem summary_follows_highest_score
    (scores : RiskScores) (deliveryType : DeliveryType) (deliveryMode : DeliveryMode) :
  Spec.numeric (entries scores) ->
  (Exists (fun e => (0.7 <? snd e) = true) (entries scores) ->
   generateSummary scores deliveryType deliveryMode
   = Spec.elevated_summary (formatRiskName (primaryRisk scores))
                            (Spec.percent (Premature deliveryType)))
  /\ (Forall (fun e => (snd e <=? 0.7) = true) (entries scores) ->
      Exists (fun e => (0.4 <? snd e) = true) (entries scores) ->
      generateSummary scores deliveryType deliveryMode
      = Spec.moderate_summary (formatRiskName (primaryRisk scores))
                               (Spec.percent (FullTerm deliveryType)))
  /\ (Forall (fun e => (snd e <=? 0.4) = true) (entries scores) ->
      generateSummary scores deliveryType deliveryMode
      = Spec.stable_summary (Spec.percent (FullTerm deliveryType))).
Proof.
  intro Hnum. destruct (primaryEntry_is_maximal scores Hnum) as [Hin Hmax].
  assert (Ntop : is_nan (snd (primaryEntry scores)) = false).
  { unfold Spec.numeric in Hnum. rewrite Forall_forall in Hnum. apply Hnum, Hin. }
  rewrite Forall_forall in Hmax.
  assert (Hover : forall c,
            Exists (fun e => (c <? snd e) = true) (entries scores) ->
            (c <? snd (primaryEntry scores)) = true).
  { intros c Hex. apply Exists_exists in Hex as (x & Hx & Hc).
    eapply ltb_leb_trans; [exact Hc | apply Hmax, Hx]. }
  assert (Hunder : forall c,
            is_nan c = false ->
            Forall (fun e => (snd e <=? c) = true) (entries scores) ->
            (c <? snd (primaryEntry scores)) = false).
  { intros c Nc Hall. rewrite Forall_forall in Hall. specialize (Hall _ Hin).
    rewrite leb_ltb in Hall by assumption.
    destruct (c <? snd (primaryEntry scores)); [discriminate | reflexivity]. }
  unfold generateSummary. cbv zeta.
  split; [ | split].
  - intro Hex. rewrite (Hover 0.7 Hex). reflexivity.
  - intros Hall Hex. rewrite (Hunder 0.7 eq_refl Hall), (Hover 0.4 Hex). reflexivity.
  - intro Hall.
    assert (H7 : Forall (fun e => (snd e <=? 0.7) = true) (entries scores)).
    { eapply Forall_impl; [ | exact Hall]. cbn beta. intros x Hx.
      eapply leb_trans; [exact Hx | reflexivity]. }
    rewrite (Hunder 0.7 eq_refl H7), (Hunder 0.4 eq_refl Hall). reflexivity.
Qed.

(** The theorem applies: the tied scores, whose highest is 0.6. *)
Lemma summary_follows_highest_score_witness :
  generateSummary tied_scores (calculateDeliveryTypeProbabilities tied_scores)
    (mode_of tied_scores false)
  = Spec.moderate_summary (formatRiskName (primaryRisk tied_scores))
      (Spec.percent (FullTerm (calculateDeliveryTypeProbabilities tied_scores))).
Proof.
  destruct (summary_follows_highest_score tied_scores
              (calculateDeliveryTypeProbabilities tied_scores) (mode_of tied_scores false))
    as (_ & H & _); [repeat constructor | ].
  apply H; [repeat constructor | ].
  right. left. reflexivity.
Defined.

(** ** The progression and the metadata *)

Lemma weeks_adjust (ga : val) (slope : float) (series : list Point) :
  Spec.weeks (map (adjust ga slope) series) = Spec.weeks series.
Proof. unfold Spec.weeks. rewrite map_map. reflexivity. Qed.

Lemma keeps_this_Return {A : Type} (c : M A) (s s' : State) (a : A) :
  keeps_this c -> c s = (Return a, s') -> this s' = this s.
Proof. intros Hc H. specialize (Hc s). rewrite H in Hc. exact Hc. Qed.

(** The progression over [n] rounds from a Number age. *)
Lemma generateProgression_weeks (h : Host) (fuel : nat) (g w : float) (s : State)
    (latest : Visit) (n : nat) :
  last_visit (validatedVisits (this s)) = Return latest ->
  Spec.measured latest = true ->
  rounds fuel 1 w = Some n ->
  exists p,
    generateProgression h fuel (VNum g) w s = (Return p, more_random (4 * n) s)
    /\ Spec.projected_over p (weeks_from g n 1).
Proof.
  intros Hl Hm Hr. unfold generateProgression. rewrite bind_get_this, Hl, bind_lift_Return.
  destruct (parseBloodPressure_returns (BLOOD_PRESSURE latest)) as [bp ->].
  rewrite bind_lift_Return. cbv zeta.
  destruct (calculateTrend_returns "MATERNAL_WEIGHT" s) as [wt Hwt].
  rewrite (bind_Return _ _ _ _ _ Hwt).
  destruct (calculateTrend_returns "HEMOGLOBIN_LEVEL" s) as [ht Hht].
  rewrite (bind_Return _ _ _ _ _ Hht).
  destruct (base_weight_numeric latest Hm) as [weight Hweight].
  unfold generateProgressionData.
  match goal with
  | |- context [projectWeeks h fuel (VNum g) w ?base 1 no_series] =>
      destruct (projectWeeks_numeric h g weight w base Hweight fuel 1 no_series s n Hr)
        as (p & Hp & A1 & A2 & A3 & A4 & A5 & A6)
  end.
  rewrite (bind_Return _ _ _ _ _ Hp). eexists. split; [reflexivity | ].
  unfold Spec.projected_over.
  cbn [Progression.weight Progression.fundal Progression.hb Progression.systolic
         Progression.diastolic Progression.fetal_hr].
  rewrite !weeks_adjust, A1, A2, A3, A4, A5, A6.
  repeat split; reflexivity.
Qed.

(** The rounds and the weeks from a whole week below 40. *)
Lemma whole_week_rounds (k : nat) :
  In k (seq 1 39) ->
  rounds 127 1 (40 - of_nat k) = Some (40 - k)%nat
  /\ weeks_from (of_nat k) (40 - k) 1 = Spec.whole_weeks (S k) (40 - k)
  /\ (0 <? of_nat k) = true /\ (of_nat k <? 40) = true.
Proof.
  intro H. cbn [seq In] in H.
  repeat (destruct H as [<- | H]; [vm_compute; repeat split; reflexivity | ]).
  contradiction.
Qed.

(** X11. On validated visits whose fields, like those the scorer reads
    of the patient, can be converted to a primitive, for a latest visit at
    a whole week k from 1 to 39, with a weight that is a Number or absent
    and a patient whose history is a text or absent, the prediction
    returns and each of the six series of its progression has exactly
    40 - k points, at the weeks k + 1 to 40; four random numbers are
    consumed per week. *)
Theorem progression_runs_to_week_40 (h : Host) (fuel : nat) (s : State)
    (latest : Visit) (k : nat) :
  (127 <= fuel)%nat ->
  Spec.validated (validatedVisits (this s)) ->
  Forall (fun v => Spec.convertible_visit v = true) (validatedVisits (this s)) ->
  Spec.convertible_patient (patient (this s)) = true ->
  latest_of (this s) = Return latest ->
  GESTATIONAL_AGE_WEEKS latest = VNum (of_nat k) ->
  (1 <= k <= 39)%nat ->
  Spec.number_or_absent (MATERNAL_WEIGHT latest) = true ->
  Spec.documented (patient (this s)) = true ->
  exists r p,
    generatePrediction h fuel s
    = (Return r, more_random (4 * (40 - k)) (sorted_state s))
    /\ progression r = Some p
    /\ Spec.projected_over p (Spec.whole_weeks (S k) (40 - k)).
Proof.
  intros Hfuel _ _ _ Hl Hg Hk Hw Hd.
  destruct (whole_week_rounds k) as (Hr & Hweeks & Hpos & Hlt).
  { apply in_seq. lia. }
  assert (Hne : validatedVisits (this s) <> []).
  { intro E. unfold latest_of in Hl. rewrite E in Hl. discriminate. }
  assert (Hkeep : keep latest = true).
  { unfold keep. rewrite truthy_and_then, Hg. cbn [truthy].
    rewrite js_gt_number. cbn [ToNumber ToPrimitive].
    rewrite (positive_truthy _ Hpos), Hpos. reflexivity. }
  assert (Hage : Spec.age latest = of_nat k) by (unfold Spec.age; rewrite Hg; reflexivity).
  assert (Hms : Spec.measured latest = true) by (unfold Spec.measured; rewrite Hg; exact Hw).
  rewrite (generatePrediction_some_data h fuel s latest Hne Hl).
  rewrite (weeks_left_at_term latest Hkeep).
  rewrite leb_ltb, Hage, Hlt by (rewrite ?Hage; reflexivity || apply (ltb_not_nan _ _ Hpos)).
  cbn [negb].
  assert (Hlt' : (Spec.age latest <? 40) = true) by (rewrite Hage; exact Hlt).
  destruct (weeks_left_bounded latest Hkeep Hlt') as [Hwl _].
  rewrite Hage in Hwl.
  assert (Hn : rounds fuel 1 (weeks_left latest) = Some (40 - k)%nat).
  { rewrite Hwl. replace fuel with (127 + (fuel - 127))%nat by lia.
    apply rounds_more_fuel. exact Hr. }
  set (s1 := sorted_state s).
  assert (Hl1 : last_visit (validatedVisits (this s1)) = Return latest) by exact Hl.
  assert (Hne1 : validatedVisits (this s1) <> []).
  { intro E. rewrite E in Hl1. discriminate. }
  assert (Hd1 : Spec.documented (patient (this s1)) = true) by exact Hd.
  destruct (calculateRiskScores_returns s1 Hne1 Hd1) as [scores H1].
  rewrite (bind_Return _ _ _ _ _ H1). cbv zeta.
  destruct (calculateDeliveryModeProbabilities_returns scores s1 Hd1) as [mode H2].
  rewrite (bind_Return _ _ _ _ _ H2).
  destruct (calculateExpectedDelivery_returns scores (calculateDeliveryTypeProbabilities scores))
    as [expected ->].
  rewrite bind_lift_Return, Hg.
  destruct (generateProgression_weeks h fuel (of_nat k) (weeks_left latest) s1 latest
              (40 - k) Hl1 Hms Hn) as (p & H3 & Hp).
  rewrite (bind_Return _ _ _ _ _ H3), bind_get_this.
  eexists. exists p. split; [reflexivity | ]. split; [reflexivity | ].
  rewrite <- Hweeks. exact Hp.
Qed.

(** The theorem applies: from week 30, ten weeks to 40. *)
Lemma progression_runs_to_week_40_witness :
  exists r p,
    generatePrediction Spec.still_host 127 (state_of [visit_at 30])
    = (Return r, more_random (4 * (40 - 30)) (sorted_state (state_of [visit_at 30])))
    /\ progression r = Some p
    /\ Spec.projected_over p (Spec.whole_weeks 31 (40 - 30)).
Proof.
  apply (progression_runs_to_week_40 Spec.still_host 127 (state_of [visit_at 30])
           (visit_at 30) 30);
    [ lia | repeat constructor | repeat constructor | reflexivity
    | vm_compute; reflexivity | vm_compute; reflexivity
    | lia | reflexivity | reflexivity ].
Defined.

(** X12. The metadata of a pipeline result describe the visit with the
    highest gestational age, wherever it stood in the input: that age,
    below 40, as currentGestationalAge, 40 less that age as
    weeksProjected, and the number of validated visits as visitCount. *)
Theorem metadata_describes_latest_visit (h : Host) (fuel : nat) (s s' : State)
    (r : PredictionResult) :
  Spec.validated (validatedVisits (this s)) ->
  generatePrediction h fuel s = (Return r, s') ->
  isFallback r = None ->
  exists latest,
    In latest (validatedVisits (this s))
    /\ Forall (fun v => (Spec.age v <=? Spec.age latest) = true) (validatedVisits (this s))
    /\ (Spec.age latest <? 40) = true
    /\ metadata r
       = PipelineMetadata (GESTATIONAL_AGE_WEEKS latest) (40 - Spec.age latest)
           (List.length (validatedVisits (this s))) (Date_toISOString h) "rule-based-engine".
Proof.
  intros Hv H Hnf.
  destruct (validatedVisits (this s)) as [ | v0 vv] eqn:E.
  { rewrite (generatePrediction_no_data h fuel s E) in H.
    apply getFallbackPrediction_result in H as [p ->]. discriminate. }
  rewrite <- E in *.
  assert (Hne : validatedVisits (this s) <> []) by (rewrite E; discriminate).
  destruct (latest_of_validated (this s) Hv Hne) as (latest & Hl & Hin & Hmax).
  assert (Hk : keep latest = true).
  { unfold Spec.validated in Hv. rewrite Forall_forall in Hv. apply Hv, Hin. }
  rewrite (generatePrediction_some_data h fuel s latest Hne Hl) in H.
  rewrite (weeks_left_at_term latest Hk) in H.
  rewrite leb_ltb in H by (reflexivity || apply keep_not_nan, Hk).
  destruct (Spec.age latest <? 40) eqn:Hlt; cbn [negb] in H.
  - exists latest. split; [exact Hin | ]. split; [exact Hmax | ]. split; [exact Hlt | ].
    destruct (weeks_left_bounded latest Hk Hlt) as [Hwl _].
    apply bind_inv in H as (scores & s1 & H1 & H).
    apply bind_inv in H as (mode & s2 & H2 & H).
    apply bind_inv in H as (expected & s3 & H3 & H).
    apply bind_inv in H as (p & s4 & H4 & H).
    apply bind_inv in H as (e & s5 & H5 & H).
    unfold ret in H. injection H as <- _. cbn [metadata].
    apply (keeps_this_Return _ _ _ _ keeps_this_calculateRiskScores) in H1.
    apply (keeps_this_Return _ _ _ _ (keeps_this_calculateDeliveryModeProbabilities _)) in H2.
    apply (keeps_this_Return _ _ _ _ (keeps_this_lift _)) in H3.
    apply (keeps_this_Return _ _ _ _ (keeps_this_generateProgression _ _ _ _)) in H4.
    unfold get_this in H5. injection H5 as <- _.
    rewrite H4, H3, H2, H1, Hwl. cbn [this sorted_state sorted_instance validatedVisits].
    rewrite sort_length. reflexivity.
  - rewrite getFallbackPrediction_at_term in H. injection H as <- _. discriminate.
Qed.

(** The theorem applies: three visits sent out of order. *)
Lemma metadata_describes_latest_visit_witness :
  exists r s' latest,
    generatePrediction Spec.still_host 127 (state_of three_weights) = (Return r, s')
    /\ In latest three_weights
    /\ metadata r
       = PipelineMetadata (GESTATIONAL_AGE_WEEKS latest) (40 - Spec.age latest) 3
           (Date_toISOString Spec.still_host) "rule-based-engine".
Proof.
  destruct (generatePrediction Spec.still_host 127 (state_of three_weights))
    as [[r | | ] s'] eqn:E; try (vm_compute in E; discriminate).
  pose proof E as Hnf.
  apply (f_equal (fun x => match fst x with
                           | Return r => isFallback r
                           | _ => Some true
                           end)) in Hnf.
  vm_compute in Hnf. symmetry in Hnf.
  destruct (metadata_describes_latest_visit Spec.still_host 127 (state_of three_weights)
              s' r ltac:(repeat constructor) E Hnf) as (latest & H1 & _ & _ & H4).
  exists r, s', latest. split; [reflexivity | ]. split; [exact H1 | exact H4].
Defined.

Lemma ignores_this_ret {A : Type} (a : A) : ignores_this (ret a).
Proof. intros s1 s2 H. split; [reflexivity | exact H]. Qed.

Lemma ignores_this_lift {A : Type} (o : outcome A) : ignores_this (lift o).
Proof. intros s1 s2 H. split; [reflexivity | exact H]. Qed.

Lemma ignores_this_random (h : Host) : ignores_this (random h).
Proof.
  intros s1 s2 H. unfold random. cbn [fst snd random_calls]. rewrite H.
  split; reflexivity.
Qed.

Lemma ignores_this_bind {A B : Type} (c : M A) (k : A -> M B) :
  ignores_this c -> (forall a, ignores_this (k a)) -> ignores_this (bind c k).
Proof.
  intros Hc Hk s1 s2 H. unfold bind. destruct (Hc s1 s2 H) as [H1 H2].
  destruct (c s1) as [o1 t1], (c s2) as [o2 t2]. cbn [fst snd] in H1, H2. subst o2.
  destruct o1 as [a | e | ]; cbn [fst snd]; [apply Hk; exact H2 | | ]; split;
    (reflexivity || exact H2).
Qed.

Ltac ignoring :=
  repeat first
    [ apply ignores_this_ret | apply ignores_this_lift | apply ignores_this_random
    | apply ignores_this_bind; [ | intro ]
    | progress cbv beta zeta ].

Lemma ignores_this_projectWeek (h : Host) (startWeek : val) (baseVitals : Vitals.t)
    (i : float) (p : Progression.t) :
  ignores_this (projectWeek h startWeek baseVitals i p).
Proof. unfold projectWeek. ignoring. Qed.

Lemma ignores_this_projectWeeks (h : Host) (fuel : nat) (startWeek : val) (w : float)
    (baseVitals : Vitals.t) :
  forall (i : float) (p : Progression.t),
    ignores_this (projectWeeks h fuel startWeek w baseVitals i p).
Proof.
  induction fuel as [ | fuel IH]; intros i p; cbn [projectWeeks];
    destruct (i <=? w); ignoring; first [apply ignores_this_projectWeek | apply IH].
Qed.

(** X13. [getFallbackPrediction] reads nothing of the engine: on any two
    engines, with the same number of [Math.random] calls made before, it
    gives the same result and makes the same number of calls. *)
Theorem fallback_ignores_the_engine (h : Host) (fuel : nat) (atTerm : bool) (s1 s2 : State) :
  random_calls s1 = random_calls s2 ->
  fst (getFallbackPrediction h fuel atTerm s1) = fst (getFallbackPrediction h fuel atTerm s2)
  /\ random_calls (snd (getFallbackPrediction h fuel atTerm s1))
     = random_calls (snd (getFallbackPrediction h fuel atTerm s2)).
Proof.
  revert s1 s2. change (ignores_this (getFallbackPrediction h fuel atTerm)).
  unfold getFallbackPrediction, generateProgressionData. cbv zeta.
  destruct atTerm; ignoring; apply ignores_this_projectWeeks.
Qed.

(** The theorem applies: an engine without visits and one with a visit. *)
Lemma fallback_ignores_the_engine_witness :
  fst (getFallbackPrediction Spec.still_host 28 false (state_of []))
  = fst (getFallbackPrediction Spec.still_host 28 false preterm_state).
Proof.
  apply (fallback_ignores_the_engine Spec.still_host 28 false (state_of []) preterm_state).
  reflexivity.
Defined.

(** ** Blood pressure and hemoglobin *)

(** X14. The parser reads the first two components only: whatever follows
    a second slash is ignored. *)
Theorem parseBloodPressure_reads_two_components (a b rest : string) :
  Spec.has_char "/" a = false -> Spec.has_char "/" b = false ->
  parseBloodPressure (VStr (a ++ "/" ++ b ++ "/" ++ rest))
  = parseBloodPressure (VStr (a ++ "/" ++ b)).
Proof.
  intros Ha Hb. unfold parseBloodPressure.
  rewrite !truthy_append_slash. cbn [negb split obind try_catch].
  change ("/" ++ b ++ "/" ++ rest)%string with (String "/" (b ++ String "/" rest)).
  change ("/" ++ b)%string with (String "/" b).
  rewrite !(split_on_app "/" a _ Ha), (split_on_app "/" b rest Hb),
    (split_on_no_char "/" b Hb).
  destruct (split_on "/" rest); reflexivity.
Qed.

(** The theorem applies: "120/80/60" reads as "120/80". *)
Lemma parseBloodPressure_reads_two_components_witness :
  parseBloodPressure (VStr ("120" ++ "/" ++ "80" ++ "/" ++ "60"))
  = parseBloodPressure (VStr ("120" ++ "/" ++ "80")).
Proof.
  apply parseBloodPressure_reads_two_components; reflexivity.
Defined.

(** X21. Whatever its argument, the parser returns two usable numbers:
    neither component is ever zero or [NaN], the defaults 115 and 70
    standing in for both. *)
Theorem parseBloodPressure_components_usable (v : val) :
  exists bp,
    parseBloodPressure v = Return bp
    /\ truthy_number (BP.systolic bp) = true
    /\ truthy_number (BP.diastolic bp) = true.
Proof.
  assert (Hpart : forall parts i fallback,
            truthy_number fallback = true -> truthy_number (part_or parts i fallback) = true).
  { intros parts i fallback Hf. unfold part_or.
    destruct (nth_error parts i) as [x | ]; [ | exact Hf].
    destruct (truthy_number x) eqn:T; [exact T | exact Hf]. }
  unfold parseBloodPressure.
  destruct (truthy v); cbn [negb].
  - destruct v; cbn [split obind try_catch]; eexists;
      (split; [reflexivity | ]); cbn [BP.systolic BP.diastolic];
      split; first [apply Hpart; reflexivity | reflexivity].
  - eexists. split; [reflexivity | split; reflexivity].
Qed.

Lemma Math_max_floor (a y : float) :
  is_nan a = false ->
  is_nan (Math_max a y) = true \/ (a <=? Math_max a y) = true.
Proof.
  intro Na. unfold Math_max. rewrite Na. cbn [orb].
  destruct (is_nan y) eqn:Ny; [left; reflexivity | right].
  destruct (a <? y) eqn:E1; [apply ltb_leb, E1 | ].
  destruct (y <? a) eqn:E2; [apply leb_refl, Na | ].
  destruct (get_sign a); [ | apply leb_refl, Na].
  rewrite leb_ltb, E2 by assumption. reflexivity.
Qed.

(** X15. For arguments that can be converted to a primitive, on an
    engine whose validated visits have such an age, [calculateHbDecline]
    returns, leaves the state as it was, and its result is never below
    9.5: it is a number of 9.5 or more, or [NaN] when an argument is no
    number. *)
Theorem calculateHbDecline_keeps_floor (week baseHb trend : val) (s : State) :
  coercible week = true -> coercible baseHb = true -> coercible trend = true ->
  Forall (fun v => coercible (GESTATIONAL_AGE_WEEKS v) = true) (validatedVisits (this s)) ->
  exists hb,
    calculateHbDecline week baseHb trend s = (Return hb, s)
    /\ (is_nan hb = true \/ (9.5 <=? hb) = true).
Proof.
  intros _ _ _ _. unfold calculateHbDecline. rewrite bind_get_this.
  destruct (validatedVisits (this s)) as [ | first rest]; cbn [List.length Nat.ltb Nat.leb].
  - eexists. split; [reflexivity | ]. apply Math_max_floor. reflexivity.
  - cbn [first_visit]. rewrite bind_lift_Return. cbv zeta.
    eexists. split; [reflexivity | ]. apply Math_max_floor. reflexivity.
Qed.

(** The theorem applies: week 30 from a hemoglobin of 11, on the engine
    with a visit at week 30, and an argument that is no number on an
    engine without visits. *)
Lemma calculateHbDecline_keeps_floor_witness :
  (exists hb,
      calculateHbDecline (VNum 30) (VNum 11) (VNum 0) preterm_state = (Return hb, preterm_state)
      /\ (is_nan hb = true \/ (9.5 <=? hb) = true))
  /\ (exists hb,
        calculateHbDecline (VStr "week") (VNum 11) VNull (state_of [])
        = (Return hb, state_of [])
        /\ (is_nan hb = true \/ (9.5 <=? hb) = true)).
Proof.
  split; apply calculateHbDecline_keeps_floor; repeat constructor.
Defined.

(** ** The reference averages *)

Section Averages.
Import BMIAverageCalculator.

Lemma inherited_not_table (key : string) :
  inherited key = true ->
  (key =? "Underweight")%string = false /\ (key =? "Normal")%string = false
  /\ (key =? "Overweight")%string = false /\ (key =? "Obese")%string = false.
Proof.
  intro H.
  repeat split;
    match goal with
    | |- (key =? ?t)%string = false =>
        destruct (String.eqb_spec key t) as [E | ]; [ | reflexivity]
    end;
    rewrite E in H; vm_compute in H; discriminate.
Qed.

Lemma getBMIAverages_table (v : val) :
  getBMIAverages v
  = if inherited (ToString v) then Inherited (ToString v)
    else Table (Spec.table_of (ToString v)).
Proof.
  unfold getBMIAverages, Spec.table_of. cbv zeta.
  destruct (inherited (ToString v)) eqn:I.
  - destruct (inherited_not_table _ I) as (-> & -> & -> & ->). reflexivity.
  - destruct (ToString v =? "Underweight")%string; [reflexivity | ].
    destruct (ToString v =? "Normal")%string eqn:N.
    + destruct (String.eqb_spec (ToString v) "Normal") as [-> | ]; [reflexivity | discriminate].
    + destruct (ToString v =? "Overweight")%string; [reflexivity | ].
      destruct (ToString v =? "Obese")%string; reflexivity.
Qed.

(** X16. For a status that can be converted to a property key,
    [getFormattedAverages] goes by that key, "Normal" standing in for a
    status that counts as false. A key that every object
    inherits ("constructor", "toString", ...) makes it throw. Every other
    key gives the table of "Underweight", "Overweight" or "Obese" when it
    is one of these and the table of "Normal" otherwise: 16 weight points
    at the even weeks 10 to 40 and 15 points of each other series at the
    even weeks 12 to 40, every point carrying a Number. *)
Theorem reference_averages_by_status (bmiStatus : val) :
  coercible bmiStatus = true ->
  let key := Spec.status_key bmiStatus in
  (inherited key = true -> exists e, getFormattedAverages bmiStatus = Throw e)
  /\ (inherited key = false ->
      exists f,
        getFormattedAverages bmiStatus = Return f
        /\ Spec.points_over WEEKS_16 (weight (Spec.table_of key)) (averageWeight f)
        /\ Spec.points_over WEEKS_15 (fundal (Spec.table_of key)) (averageFundal f)
        /\ Spec.points_over WEEKS_15 (hemoglobin (Spec.table_of key)) (averageHemoglobin f)
        /\ Spec.pressures_over WEEKS_15 (systolic (Spec.table_of key))
             (diastolic (Spec.table_of key)) (averageBloodPressure f)).
Proof.
  intros _ key. subst key. unfold Spec.status_key, getFormattedAverages.
  rewrite getBMIAverages_table.
  set (k := ToString (or_else (or_else bmiStatus (VStr "Normal")) (VStr "Normal"))).
  assert (Hk : ToString (or_else bmiStatus (VStr "Normal")) = k).
  { subst k. unfold or_else. destruct (truthy bmiStatus) eqn:T; [rewrite T | ]; reflexivity. }
  rewrite Hk. clearbody k. clear Hk.
  split; intro I; rewrite I.
  - eexists. reflexivity.
  - eexists. split; [reflexivity | ].
    unfold Spec.table_of.
    destruct (k =? "Underweight")%string;
      [ | destruct (k =? "Overweight")%string; [ | destruct (k =? "Obese")%string]];
      vm_compute; repeat split; reflexivity.
Qed.

(** The theorem applies: "Obese" has its table, "constructor" throws. *)
Lemma reference_averages_by_status_witness :
  (exists f,
      getFormattedAverages (VStr "Obese") = Return f
      /\ Spec.points_over WEEKS_16 (weight Obese) (averageWeight f))
  /\ (exists e, getFormattedAverages (VStr "constructor") = Throw e).
Proof.
  split.
  - destruct (reference_averages_by_status (VStr "Obese") eq_refl) as [_ H].
    destruct (H ltac:(vm_compute; reflexivity)) as (f & Hf & Hw & _).
    exists f. split; [exact Hf | exact Hw].
  - destruct (reference_averages_by_status (VStr "constructor") eq_refl) as [H _].
    apply H. vm_compute. reflexivity.
Defined.

End Averages.

(** ** The route *)

Lemma length_ends (v : val) : Server.length v <> OutOfFuel.
Proof. destruct v; discriminate. Qed.

Lemma map_outcome_normalize_ends (elems : list val) :
  map_outcome normalize elems <> OutOfFuel.
Proof.
  induction elems as [ | x r IH]; cbn [map_outcome]; [discriminate | ].
  apply obind_ends.
  - unfold normalize. repeat (apply obind_ends; [apply get_ends | intro]). discriminate.
  - intro y. apply obind_ends; [exact IH | discriminate].
Qed.

Lemma validateVisits_ends (v : val) : validateVisits v <> OutOfFuel.
Proof.
  unfold validateVisits. destruct (negb (truthy v) || negb (is_array v)); [discriminate | ].
  destruct v; try discriminate.
  apply obind_ends; [apply map_outcome_normalize_ends | discriminate].
Qed.

Lemma new_ends (visits patient : val) : new visits patient <> OutOfFuel.
Proof. unfold new. apply obind_ends; [apply validateVisits_ends | discriminate]. Qed.

Lemma getFormattedAverages_ends (v : val) :
  BMIAverageCalculator.getFormattedAverages v <> OutOfFuel.
Proof.
  unfold BMIAverageCalculator.getFormattedAverages.
  destruct (BMIAverageCalculator.getBMIAverages _); discriminate.
Qed.

Lemma new_no_visits : new (VArr []) (VObj []) = Return no_visits.
Proof. reflexivity. Qed.

(** The [try] block answers or throws. *)
Lemma attempt_cases (h : Host) (fuel : nat) (body : val) (calls : nat) :
  (127 <= fuel)%nat ->
  (exists prediction averages calls',
      Server.attempt h fuel body calls
      = (Return {| Server.success := true; Server.prediction := prediction;
                   Server.averages := averages; Server.error := None |}, calls'))
  \/ (exists e calls', Server.attempt h fuel body calls = (Throw e, calls')).
Proof.
  intro Hfuel. unfold Server.attempt.
  match goal with
  | |- context [match ?prep with Return _ => _ | Throw _ => _ | OutOfFuel => _ end] =>
      destruct prep as [[patient engine] | e | ] eqn:P
  end.
  - apply obind_inv in P as (v0 & _ & P). apply obind_inv in P as (p0 & _ & P).
    cbv zeta in P.
    apply obind_inv in P as (id & _ & P). apply obind_inv in P as (len & _ & P).
    apply obind_inv in P as (engine' & Hnew & P). injection P as <- <-.
    pose proof (new_validated _ _ _ Hnew) as Hv.
    pose proof (generatePrediction_within_fuel h fuel
                  {| this := engine'; random_calls := calls |} Hfuel Hv) as Hends.
    unfold Server.on_engine.
    destruct (generatePrediction h fuel {| this := engine'; random_calls := calls |})
      as [[prediction | e | ] s']; cbn [fst] in Hends.
    + destruct (get (Server.defaulted p0 (VObj [])) "BMI_STATUS") as [status | e | ] eqn:G;
        cbn [obind].
      * pose proof (getFormattedAverages_ends (or_else status (VStr "Normal"))) as Ha.
        destruct (BMIAverageCalculator.getFormattedAverages _) as [averages | e | ];
          cbn [obind]; [left | right | congruence]; eauto.
      * right. eauto.
      * exfalso. revert G. apply get_ends.
    + right. eauto.
    + congruence.
  - right. eauto.
  - exfalso. revert P.
    apply obind_ends; [apply get_ends | intro].
    apply obind_ends; [apply get_ends | intro]. cbv zeta.
    apply obind_ends; [apply get_ends | intro].
    apply obind_ends; [apply length_ends | intro].
    apply obind_ends; [apply new_ends | intro]. discriminate.
Qed.

(** The [catch] block answers with the fixed fallback. *)
Lemma recover_answers (h : Host) (fuel : nat) (e : JS.error) (calls : nat) :
  (28 <= fuel)%nat ->
  exists p,
    Server.recover h fuel e calls
    = (Return {| Server.success := true;
                 Server.prediction := Spec.fallback_result h (Some p);
                 Server.averages := Server.no_averages;
                 Server.error := Some (Server.message e) |}, (112 + calls)%nat)
    /\ Spec.projected_over p (Spec.whole_weeks 13 28).
Proof.
  intro Hfuel. unfold Server.recover. rewrite new_no_visits. unfold Server.on_engine.
  destruct (getFallbackPrediction_no_data h fuel
              {| this := no_visits; random_calls := calls |} Hfuel) as (p & -> & Hp).
  exists p. split; [reflexivity | exact Hp].
Qed.

(** X17. The route always answers success: true, whatever the body of
    the request: either the [try] block got through and the answer has no
    error, or the answer carries the fixed fallback over the weeks 13 to
    40 and empty averages. *)
Theorem ongoing_progression_always_answers (h : Host) (fuel : nat) (body : val) (calls : nat) :
  (127 <= fuel)%nat ->
  exists response calls',
    Server.ongoing_progression h fuel body calls = (Return response, calls')
    /\ Server.success response = true
    /\ (Server.error response = None
        \/ exists p,
             Server.prediction response = Spec.fallback_result h (Some p)
             /\ Spec.projected_over p (Spec.whole_weeks 13 28)
             /\ Server.averages response = Server.no_averages).
Proof.
  intro Hfuel. unfold Server.ongoing_progression.
  destruct (attempt_cases h fuel body calls Hfuel)
    as [(prediction & averages & calls' & ->) | (e & calls' & ->)].
  - eexists. eexists. split; [reflexivity | ]. split; [reflexivity | left; reflexivity].
  - destruct (recover_answers h fuel e calls' ltac:(lia)) as (p & -> & Hp).
    eexists. eexists. split; [reflexivity | ]. split; [reflexivity | ].
    right. exists p. repeat split; try reflexivity; apply Hp.
Qed.

(** The theorem applies: a body with a BMI status that makes the
    averages throw. *)
Lemma ongoing_progression_always_answers_witness :
  exists response calls',
    Server.ongoing_progression Spec.still_host 127 body_inherited_status 0%nat
    = (Return response, calls')
    /\ Server.success response = true.
Proof.
  destruct (ongoing_progression_always_answers Spec.still_host 127 body_inherited_status 0%nat)
    as (response & calls' & H1 & H2 & _); [lia | ].
  exists response, calls'. split; assumption.
Defined.

(** When the [try] block throws, the answer is the error fallback. *)
Lemma thrown_is_recovered (h : Host) (fuel : nat) (body : val) (calls calls' : nat)
    (e : JS.error) :
  (28 <= fuel)%nat ->
  Server.attempt h fuel body calls = (Throw e, calls') ->
  exists response,
    Server.ongoing_progression h fuel body calls = (Return response, (112 + calls')%nat)
    /\ Spec.error_fallback h response.
Proof.
  intros Hfuel H. unfold Server.ongoing_progression. rewrite H.
  destruct (recover_answers h fuel e calls' Hfuel) as (p & -> & Hp).
  eexists. split; [reflexivity | ].
  unfold Spec.error_fallback. cbn [Server.success Server.error Server.averages Server.prediction].
  repeat split; [discriminate | ]. exists p. split; [reflexivity | exact Hp].
Qed.

(** What the [try] block went through when it answers. *)
Lemma attempt_Return (h : Host) (fuel : nat) (body : val) (calls calls' : nat)
    (response : Server.Response) :
  Server.attempt h fuel body calls = (Return response, calls') ->
  Server.success response = true
  /\ is_nullish body = false
  /\ is_nullish (Spec.patient_of body) = false
  /\ is_nullish (Spec.visits_of body) = false
  /\ BMIAverageCalculator.getFormattedAverages
       (or_else (Spec.property (Spec.patient_of body) "BMI_STATUS") (VStr "Normal"))
     = Return (Server.averages response)
  /\ exists engine s',
       new (Spec.visits_of body) (Spec.patient_of body) = Return engine
       /\ generatePrediction h fuel {| this := engine; random_calls := calls |}
          = (Return (Server.prediction response), s')
       /\ calls' = random_calls s'.
Proof.
  unfold Server.attempt, Spec.patient_of, Spec.visits_of.
  destruct (is_nullish body) eqn:Nb.
  { destruct body; try discriminate; cbn; discriminate. }
  rewrite (get_property body "visits" Nb), (get_property body "patient" Nb).
  cbn [obind]. cbv zeta.
  set (patient := Server.defaulted (Spec.property body "patient") (VObj [])).
  set (visits := Server.defaulted (Spec.property body "visits") (VArr [])).
  destruct (is_nullish patient) eqn:Np.
  { destruct patient; try discriminate; cbn; discriminate. }
  rewrite (get_property patient "PATIENT_ID" Np). cbn [obind].
  destruct (is_nullish visits) eqn:Nv.
  { destruct visits; try discriminate; cbn; discriminate. }
  assert (Hlen : exists n, Server.length visits = Return n).
  { destruct visits; try discriminate; cbn; eauto. }
  destruct Hlen as [n ->]. cbn [obind].
  destruct (new visits patient) as [engine | e | ]; cbn [obind]; try discriminate.
  unfold Server.on_engine.
  destruct (generatePrediction h fuel {| this := engine; random_calls := calls |})
    as [[r | e | ] s'] eqn:G; try discriminate.
  rewrite (get_property patient "BMI_STATUS" Np). cbn [obind]. cbv zeta.
  destruct (BMIAverageCalculator.getFormattedAverages _) as [a | e | ] eqn:A;
    cbn [obind]; try discriminate.
  intro H. inversion H. subst. cbn [Server.averages Server.prediction Server.success].
  repeat split; try reflexivity. exists engine, s'. repeat split; try reflexivity. exact G.
Qed.

(** X18. A body that is [null] or [undefined], or whose [patient] or
    [visits] is [null], gets the error fallback: the destructuring
    defaults stand in for an absent property only, and reading a property
    of [null] throws. *)
Theorem null_field_gives_error_fallback (h : Host) (fuel : nat) (body : val) (calls : nat) :
  (127 <= fuel)%nat ->
  is_nullish body = true
  \/ Spec.property body "patient" = VNull
  \/ Spec.property body "visits" = VNull ->
  exists response calls',
    Server.ongoing_progression h fuel body calls = (Return response, calls')
    /\ Spec.error_fallback h response.
Proof.
  intros Hfuel Hnull.
  destruct (attempt_cases h fuel body calls Hfuel)
    as [(r & a & calls' & H) | (e & calls' & H)].
  - exfalso. apply attempt_Return in H as (_ & Nb & Np & Nv & _).
    unfold Spec.patient_of in Np. unfold Spec.visits_of in Nv.
    destruct Hnull as [Hn | [Hn | Hn]]; [congruence | rewrite Hn in Np | rewrite Hn in Nv];
      discriminate.
  - destruct (thrown_is_recovered h fuel body calls calls' e ltac:(lia) H) as (resp & Hr & Hf).
    eauto.
Qed.

(** The theorem applies: a visit at week 38 and a null patient. *)
Lemma null_field_gives_error_fallback_witness :
  exists response calls',
    Server.ongoing_progression Spec.still_host 127 body_null_patient 0%nat
    = (Return response, calls')
    /\ Spec.error_fallback Spec.still_host response.
Proof.
  apply null_field_gives_error_fallback; [lia | right; left; reflexivity].
Defined.

(** X19. A patient whose BMI_STATUS names a member every object inherits
    gets the error fallback whatever the visits: the prediction the engine
    computed is dropped when the averages throw. *)
Theorem inherited_status_gives_error_fallback
    (h : Host) (fuel : nat) (body : val) (calls : nat) :
  (127 <= fuel)%nat ->
  BMIAverageCalculator.inherited
    (Spec.status_key (Spec.property (Spec.patient_of body) "BMI_STATUS")) = true ->
  exists response calls',
    Server.ongoing_progression h fuel body calls = (Return response, calls')
    /\ Spec.error_fallback h response.
Proof.
  intros Hfuel Hin.
  destruct (attempt_cases h fuel body calls Hfuel)
    as [(r & a & calls' & H) | (e & calls' & H)].
  - exfalso. apply attempt_Return in H as (_ & _ & _ & _ & Ha & _).
    unfold BMIAverageCalculator.getFormattedAverages in Ha.
    rewrite getBMIAverages_table in Ha.
    unfold Spec.status_key in Hin.
    set (status := Spec.property (Spec.patient_of body) "BMI_STATUS") in *.
    assert (Hk : or_else (or_else status (VStr "Normal")) (VStr "Normal")
                 = or_else status (VStr "Normal")).
    { unfold or_else. destruct (truthy status) eqn:T; [rewrite T | ]; reflexivity. }
    rewrite Hk, Hin in Ha. discriminate.
  - destruct (thrown_is_recovered h fuel body calls calls' e ltac:(lia) H) as (resp & Hr & Hf).
    eauto.
Qed.

(** The theorem applies: the status "constructor". *)
Lemma inherited_status_gives_error_fallback_witness :
  exists response calls',
    Server.ongoing_progression Spec.still_host 127 body_inherited_status 0%nat
    = (Return response, calls')
    /\ Spec.error_fallback Spec.still_host response.
Proof.
  apply inherited_status_gives_error_fallback; [lia | vm_compute; reflexivity].
Defined.

(** X20. An answer without an error carries what the engine, built from
    the visits and the patient of the body, returns from
    [generatePrediction], together with the reference averages of the
    patient's BMI status. *)
Theorem answer_without_error_is_engine_prediction
    (h : Host) (fuel : nat) (body : val) (calls calls' : nat) (response : Server.Response) :
  Server.ongoing_progression h fuel body calls = (Return response, calls') ->
  Server.error response = None ->
  Server.success response = true
  /\ BMIAverageCalculator.getFormattedAverages
       (Spec.property (Spec.patient_of body) "BMI_STATUS")
     = Return (Server.averages response)
  /\ exists engine s',
       new (Spec.visits_of body) (Spec.patient_of body) = Return engine
       /\ generatePrediction h fuel {| this := engine; random_calls := calls |}
          = (Return (Server.prediction response), s')
       /\ calls' = random_calls s'.
Proof.
  intros H Herr. unfold Server.ongoing_progression in H.
  destruct (Server.attempt h fuel body calls) as [[r | e | ] c] eqn:A.
  - injection H as <- <-.
    apply attempt_Return in A as (Hs & _ & _ & _ & Ha & He).
    split; [exact Hs | ]. split; [ | exact He].
    rewrite <- Ha. unfold BMIAverageCalculator.getFormattedAverages.
    f_equal. unfold or_else.
    destruct (truthy (Spec.property (Spec.patient_of body) "BMI_STATUS")) eqn:T;
      [rewrite T | ]; reflexivity.
  - exfalso. unfold Server.recover in H. rewrite new_no_visits in H.
    unfold Server.on_engine in H.
    destruct (getFallbackPrediction h fuel false _) as [[f | e' | ] s1];
      try discriminate.
    injection H as <- _. discriminate.
  - discriminate.
Qed.

(** The theorem applies: a visit at week 38, a patient marked "Obese". *)
Lemma answer_without_error_is_engine_prediction_witness :
  exists response calls',
    Server.ongoing_progression Spec.still_host 127 body_week_38 0%nat = (Return response, calls')
    /\ BMIAverageCalculator.getFormattedAverages (VStr "Obese")
       = Return (Server.averages response).
Proof.
  destruct (Server.ongoing_progression Spec.still_host 127 body_week_38 0%nat)
    as [[response | | ] calls'] eqn:E; try (vm_compute in E; discriminate).
  pose proof E as Herr.
  apply (f_equal (fun x => match fst x with
                           | Return r => Server.error r
                           | _ => Some EmptyString
                           end)) in Herr.
  vm_compute in Herr. symmetry in Herr.
  destruct (answer_without_error_is_engine_prediction _ _ _ _ _ _ E Herr) as (_ & H & _).
  exists response, calls'. split; [reflexivity | exact H].
Defined.

(** ** The fallback policy *)

(** X22. With fuel for the rounds of the projection, on a validated
    collection [generatePrediction]
    - returns the fixed fallback result with a progression over the weeks
      13 to 40, 28 entries a series, when the collection is empty;
    - returns the fixed fallback result with the empty progression when a
      visit is at 40 weeks or later;
    - and in every other case returns no fallback: whatever it returns
      then is the result of the full pipeline on the sorted visits, built
      from what the scorer, the two distribution models, the expected
      delivery and the progression return, without the isFallback flag;
      and it does return when the fields it computes with can be
      converted to a primitive, the ages are Numbers, the weights Numbers
      or absent and the medical history a text or absent. *)
Theorem generatePrediction_fallback_policy (h : Host) (fuel : nat) (s : State) :
  (127 <= fuel)%nat ->
  Spec.validated (validatedVisits (this s)) ->
  (validatedVisits (this s) = [] ->
   exists p,
     generatePrediction h fuel s
     = (Return (Spec.fallback_result h (Some p)), more_random 112 s)
     /\ Spec.projected_over p (Spec.whole_weeks 13 28))
  /\ (Exists (fun v => (40 <=? Spec.age v) = true) (validatedVisits (this s)) ->
      generatePrediction h fuel s = (Return (Spec.fallback_result h None), sorted_state s))
  /\ (validatedVisits (this s) <> [] ->
      Forall (fun v => (Spec.age v <? 40) = true) (validatedVisits (this s)) ->
      (forall r s',
          generatePrediction h fuel s = (Return r, s') ->
          pipeline_of h fuel (sorted_state s) r s')
      /\ (Forall (fun v => Spec.convertible_visit v = true) (validatedVisits (this s)) ->
          Spec.convertible_patient (patient (this s)) = true ->
          Forall (fun v => Spec.measured v = true) (validatedVisits (this s)) ->
          Spec.documented (patient (this s)) = true ->
          exists r n,
            generatePrediction h fuel s = (Return r, more_random (4 * n) (sorted_state s))
            /\ isFallback r = None)).
Proof.
  intros Hfuel Hv. split; [ | split].
  - intro E. rewrite (generatePrediction_no_data h fuel s E).
    apply getFallbackPrediction_no_data. lia.
  - intro Hex.
    assert (Hne : validatedVisits (this s) <> []) by (intro E; rewrite E in Hex; inversion Hex).
    destruct (latest_of_validated (this s) Hv Hne) as (latest & Hl & Hin & Hmax).
    rewrite (generatePrediction_some_data h fuel s latest Hne Hl).
    assert (Hk : keep latest = true).
    { unfold Spec.validated in Hv. rewrite Forall_forall in Hv. apply Hv, Hin. }
    rewrite (weeks_left_at_term latest Hk).
    replace (40 <=? Spec.age latest) with true; [apply getFallbackPrediction_at_term | ].
    symmetry. apply Exists_exists in Hex as (v & Hvin & Hv40).
    rewrite Forall_forall in Hmax. eapply leb_trans; [exact Hv40 | apply Hmax, Hvin].
  - intros Hne Hall.
    destruct (latest_of_validated (this s) Hv Hne) as (latest & Hl & Hin & _).
    assert (Hk : keep latest = true).
    { unfold Spec.validated in Hv. rewrite Forall_forall in Hv. apply Hv, Hin. }
    rewrite Forall_forall in Hall. specialize (Hall latest Hin).
    split.
    + intros r s' H.
      rewrite (generatePrediction_some_data h fuel s latest Hne Hl) in H.
      rewrite (weeks_left_at_term latest Hk) in H.
      rewrite leb_ltb, Hall in H by (reflexivity || apply keep_not_nan, Hk).
      cbn [negb] in H.
      apply bind_inv in H as (scores & s1 & H1 & H).
      apply bind_inv in H as (mode & s2 & H2 & H).
      apply bind_inv in H as (expected & s3 & H3 & H).
      apply bind_inv in H as (p & s4 & H4 & H).
      apply bind_inv in H as (e & s5 & H5 & H).
      assert (E3 : calculateExpectedDelivery scores (calculateDeliveryTypeProbabilities scores)
                   = Return expected).
      { apply (f_equal fst) in H3. exact H3. }
      assert (S3 : s3 = s2) by (apply (f_equal snd) in H3; symmetry; exact H3).
      assert (S5 : s5 = s4 /\ e = this s4).
      { split; [apply (f_equal snd) in H5 | apply (f_equal fst) in H5];
          cbn [fst snd get_this] in H5; [ | injection H5 as H5]; symmetry; exact H5. }
      destruct S5 as [-> ->]. subst s3.
      assert (Hs : s' = s4) by (apply (f_equal snd) in H; symmetry; exact H).
      subst s'.
      apply (f_equal fst) in H. cbn [fst ret] in H. injection H as <-.
      exists latest, scores, mode, expected, p, s1, s2.
      split; [exact Hl | ]. split; [exact H1 | ]. split; [exact H2 | ].
      split; [exact E3 | ]. split; [exact H4 | reflexivity].
    + intros _ _ Hms Hd. rewrite Forall_forall in Hms.
      destruct (generatePrediction_pipeline_returns h fuel s latest)
        as (r & n & Hr & Hnf & _); auto.
      exists r, n. split; assumption.
Qed.

(** The theorem applies in its three cases: no visit, a visit at week 41,
    a visit at week 30. *)
Lemma generatePrediction_fallback_policy_witness :
  (exists p,
     generatePrediction Spec.still_host 127 (state_of [])
     = (Return (Spec.fallback_result Spec.still_host (Some p)), more_random 112 (state_of []))
     /\ Spec.projected_over p (Spec.whole_weeks 13 28))
  /\ generatePrediction Spec.still_host 127 (state_of [visit_at 41])
     = (Return (Spec.fallback_result Spec.still_host None), sorted_state (state_of [visit_at 41]))
  /\ (exists r n,
        generatePrediction Spec.still_host 127 (state_of [visit_at 30])
        = (Return r, more_random (4 * n) (sorted_state (state_of [visit_at 30])))
        /\ isFallback r = None).
Proof.
  split; [ | split].
  - destruct (generatePrediction_fallback_policy Spec.still_host 127 (state_of []))
      as (H & _ & _); [repeat constructor | constructor | ].
    apply H. reflexivity.
  - destruct (generatePrediction_fallback_policy Spec.still_host 127 (state_of [visit_at 41]))
      as (_ & H & _); [repeat constructor | repeat constructor | ].
    apply H. repeat constructor.
  - destruct (generatePrediction_fallback_policy Spec.still_host 127 (state_of [visit_at 30]))
      as (_ & _ & H); [repeat constructor | repeat constructor | ].
    destruct (H ltac:(discriminate) ltac:(repeat constructor)) as [_ H'].
    apply H'; repeat constructor.
Defined.
